(** * FaceSwap: a shallow embedding of the training and inference drivers

    The development follows the Python sources under [implementation/]:

    - [Preprocessor/ImageDataset.py]   ([ImageDataset])
    - [Utils/Anonymizer.py]            ([Anonymizer])
    - [Utils/Trainer.py]               ([Trainer])
    - [Models/DeepFake/DeepFakeOriginal.py]  ([DeepFake])
    - [Models/CPGGAN/CPGGAN.py]        ([CPGGAN])

    Tensors, networks, optimizers, the face extractor and the face
    reconstructor belong to third-party libraries or to modules that are
    not part of the sources at hand; they enter as section variables.
    Python floats are modelled by exact rationals ([Q]), Python integers
    by [Z]; in the fade-in level of [CPGGAN], where rounding decides
    whether the level leaves the previous one, every float operation is
    followed by a rounding function. Exceptions raised by the Python code
    itself (index errors,
    divisions by zero, unbound locals) are modelled; shape errors raised
    inside the tensor library are not: batches are taken to be
    shape-compatible. *)

From stdpp Require Import base option list gmap strings.
From Stdlib Require Import ZArith QArith Qabs Lia Lqa SpecFloat.

Close Scope Q_scope.
Open Scope Z_scope.

(** ** Python exceptions and results *)

Inductive exn : Set :=
| IndexError
| ZeroDivisionError
| UnboundLocalError
| TypeError.

Inductive result (A : Type) : Type :=
| Ok (a : A)
| Raise (e : exn).
Arguments Ok {A} a.
Arguments Raise {A} e.

Definition rbind {A B} (r : result A) (k : A -> result B) : result B :=
  match r with
  | Ok a => k a
  | Raise e => Raise e
  end.

Notation "x <-! r ; k" := (rbind r (fun x => k))
  (at level 100, r at next level, right associativity, only parsing).

(** [l[k]] on a Python list: a negative index counts from the end, an
    index outside [-len, len) raises [IndexError]. *)
Definition py_getitem {A} (l : list A) (k : Z) : result A :=
  let n := Z.of_nat (length l) in
  let k' := if Z.ltb k 0 then k + n else k in
  if Z.ltb k' 0 then Raise IndexError
  else match l !! Z.to_nat k' with
       | Some a => Ok a
       | None => Raise IndexError
       end.

(** [a % b] on Python integers: the sign follows the divisor, as for
    [Z.modulo]; a zero divisor raises. *)
Definition py_mod (a b : Z) : result Z :=
  if Z.eqb b 0 then Raise ZeroDivisionError else Ok (a mod b).

Lemma py_getitem_nonneg {A} (l : list A) (k : Z) :
  0 <= k -> py_getitem l k =
            match l !! Z.to_nat k with Some a => Ok a | None => Raise IndexError end.
Proof.
  intros Hk. unfold py_getitem.
  destruct (Z.ltb_spec k 0) as [?|_]; [lia|].
  destruct (Z.ltb_spec k 0) as [?|_]; [lia|]. reflexivity.
Qed.

Lemma py_getitem_in_range {A} (l : list A) (k : Z) :
  0 <= k < Z.of_nat (length l) -> exists a, l !! Z.to_nat k = Some a /\ py_getitem l k = Ok a.
Proof.
  intros [Hk Hlt]. rewrite py_getitem_nonneg by assumption.
  destruct (lookup_lt_is_Some_2 l (Z.to_nat k)) as [a Ha]; [lia|].
  exists a. rewrite Ha. auto.
Qed.

Lemma py_getitem_above {A} (l : list A) (k : Z) :
  Z.of_nat (length l) <= k -> py_getitem l k = Raise IndexError.
Proof.
  intros Hk. rewrite py_getitem_nonneg by lia.
  rewrite (lookup_ge_None_2 l (Z.to_nat k)) by lia. reflexivity.
Qed.

(** ** State and exceptions

    Methods that mutate [self] are computations over the object state
    that either return a value or raise; the state an exception leaves
    behind is kept. *)

Definition M (S A : Type) : Type := S -> S * result A.

Definition mret {S A} (a : A) : M S A := fun s => (s, Ok a).

Definition mbind {S A B} (m : M S A) (k : A -> M S B) : M S B :=
  fun s => match m s with
           | (s', Ok a) => k a s'
           | (s', Raise e) => (s', Raise e)
           end.

Definition mget {S} : M S S := fun s => (s, Ok s).

Definition mmodify {S} (f : S -> S) : M S unit := fun s => (f s, Ok tt).

Definition mlift {S A} (r : result A) : M S A := fun s => (s, r).

Notation "'let*' x ':=' m 'in' k" := (mbind m (fun x => k))
  (at level 10, x pattern, m at level 100, k at level 200, only parsing).

Notation "m ';;' k" := (mbind m (fun _ => k))
  (at level 100, k at level 200, right associativity, only parsing).

(** [for x in l: body(x)] *)
Fixpoint mfor {S A} (l : list A) (body : A -> M S unit) : M S unit :=
  match l with
  | [] => mret tt
  | x :: l' => body x ;; mfor l' body
  end.

(** [range(n)] *)
Definition py_range (n : Z) : list Z := map Z.of_nat (seq 0 (Z.to_nat n)).

(** ** Scalars and tensors

    A tensor of floats is the list of its entries; [mean] is the
    arithmetic mean computed by [Tensor.mean()]. *)

Definition Qsum (l : list Q) : Q := foldr Qplus 0%Q l.

Definition Qmean (l : list Q) : Q := (Qsum l / inject_Z (Z.of_nat (length l)))%Q.

(** [x / n] on Python numbers. *)
Definition py_div (x : Q) (n : Z) : result Q :=
  if Z.eqb n 0 then Raise ZeroDivisionError else Ok (x / inject_Z n)%Q.

(** ** Preprocessor/ImageDataset.py *)

Module ImageDataset.

Section Combined.
(** A stored sample (the image file), the tensor the transform pipeline
    makes of it, and the class label of torchvision's [ImageFolder]. *)
Context {Sample Image Label : Type}.

(** [Compose([FromPIL(), Resize(), RandomTransform(), RandomWarp(),
    ResizeTuple((64, 64)), ToPIL(), ToTensor()])]. *)
Variable transform : Sample -> Image.

(** [ImageFolder(root, transform=...)]: the list of samples found under
    the root; [folder[k]] is [(transform(sample), target)]. *)
Record ImageFolder : Type := { samples : list (Sample * Label) }.

Definition folder_len (f : ImageFolder) : Z := Z.of_nat (length (samples f)).

Definition folder_getitem (f : ImageFolder) (k : Z) : result (Image * Label) :=
    st <-! py_getitem (samples f) k;
    Ok (transform (fst st), snd st).

Record ImageDatesetCombined : Type := {
    size_multiplicator : Z;
    dataset_a : ImageFolder;
    dataset_b : ImageFolder
  }.

(** [__len__] *)
Definition len (self : ImageDatesetCombined) : Z :=
    Z.min (folder_len (dataset_a self)) (folder_len (dataset_b self))
    * size_multiplicator self.

(** [__getitem__] *)
Definition getitem (self : ImageDatesetCombined) (i : Z) : result (Image * Image) :=
    i <-! py_mod i (size_multiplicator self);
    a <-! folder_getitem (dataset_a self) i;
    b <-! folder_getitem (dataset_b self) i;
    Ok (fst a, fst b).

Definition smaller_len (self : ImageDatesetCombined) : Z :=
    Z.min (folder_len (dataset_a self)) (folder_len (dataset_b self)).

Lemma valid_index_multiplicator_pos self i :
    0 <= i < len self -> 0 < size_multiplicator self /\ 0 < smaller_len self.
Proof.
    unfold len, smaller_len, folder_len. intros [H0 H1].
    set (n := Z.min _ _) in *.
    assert (0 <= n) by (subst n; lia).
    destruct (Z_lt_le_dec 0 (size_multiplicator self)) as [Hm|Hm].
    - split; [assumption|]. destruct (Z.eq_dec n 0) as [->|]; lia.
    - exfalso. assert (n * size_multiplicator self <= 0) by nia. lia.
Qed.

Lemma folder_getitem_in_range f k :
    0 <= k < folder_len f ->
    exists s t, samples f !! Z.to_nat k = Some (s, t)
                /\ folder_getitem f k = Ok (transform s, t).
Proof.
    intros Hk. destruct (py_getitem_in_range (samples f) k Hk) as ([s t] & Hl & Hg).
    exists s, t. split; [assumption|]. unfold folder_getitem. rewrite Hg. reflexivity.
Qed.

Lemma folder_getitem_above f k :
    folder_len f <= k -> folder_getitem f k = Raise IndexError.
Proof.
    intros Hk. unfold folder_getitem. rewrite py_getitem_above by assumption. reflexivity.
Qed.

(** C10. [__len__] is [min(|dataset_a|, |dataset_b|) * m]. For a valid
    index [i] (that is [0 <= i < __len__]) and [k = i mod m]:
    [__getitem__(i)] is the pair [(dataset_a[k][0], dataset_b[k][0])];
    when [k] is below both dataset sizes this is the pair of the
    transformed [k]-th samples, and when [k >= min(|a|, |b|)] an
    [IndexError] is raised; whatever is returned comes from a position
    [k < m] of both datasets. *)
Theorem combined_getitem_spec (self : ImageDatesetCombined) (i : Z) :
    0 <= i < len self ->
    let m := size_multiplicator self in
    let k := i mod m in
    len self = Z.min (folder_len (dataset_a self)) (folder_len (dataset_b self)) * m
    /\ getitem self i =
         (a <-! folder_getitem (dataset_a self) k;
          b <-! folder_getitem (dataset_b self) k;
          Ok (fst a, fst b))
    /\ (k < smaller_len self ->
        exists sa ta sb tb,
          samples (dataset_a self) !! Z.to_nat k = Some (sa, ta)
          /\ samples (dataset_b self) !! Z.to_nat k = Some (sb, tb)
          /\ getitem self i = Ok (transform sa, transform sb))
    /\ (smaller_len self <= k -> getitem self i = Raise IndexError)
    /\ (forall x y, getitem self i = Ok (x, y) ->
        0 <= k < m /\ k < smaller_len self
        /\ exists sa ta sb tb,
          samples (dataset_a self) !! Z.to_nat k = Some (sa, ta)
          /\ samples (dataset_b self) !! Z.to_nat k = Some (sb, tb)
          /\ x = transform sa /\ y = transform sb).
Proof.
    intros Hi m k.
    destruct (valid_index_multiplicator_pos self i Hi) as [Hm Hs].
    fold m in Hm.
    assert (Hk : 0 <= k < m) by (apply Z.mod_pos_bound; assumption).
    assert (Hget : getitem self i =
         (a <-! folder_getitem (dataset_a self) k;
          b <-! folder_getitem (dataset_b self) k;
          Ok (fst a, fst b))).
    { unfold getitem, py_mod. fold m.
      destruct (Z.eqb_spec m 0) as [?|_]; [lia|]. reflexivity. }
    assert (Hin : k < smaller_len self ->
        exists sa ta sb tb,
          samples (dataset_a self) !! Z.to_nat k = Some (sa, ta)
          /\ samples (dataset_b self) !! Z.to_nat k = Some (sb, tb)
          /\ getitem self i = Ok (transform sa, transform sb)).
    { intros Hlt. unfold smaller_len in Hlt.
      destruct (folder_getitem_in_range (dataset_a self) k) as (sa & ta & Ha & Hga); [lia|].
      destruct (folder_getitem_in_range (dataset_b self) k) as (sb & tb & Hb & Hgb); [lia|].
      exists sa, ta, sb, tb. repeat split; try assumption.
      rewrite Hget, Hga, Hgb. reflexivity. }
    assert (Hout : smaller_len self <= k -> getitem self i = Raise IndexError).
    { intros Hge. rewrite Hget. unfold smaller_len in Hge.
      destruct (Z_lt_le_dec k (folder_len (dataset_a self))) as [Hka|Hka].
      - destruct (folder_getitem_in_range (dataset_a self) k) as (sa & ta & _ & Hga); [lia|].
        rewrite Hga. simpl. rewrite folder_getitem_above by lia. reflexivity.
      - rewrite folder_getitem_above by lia. reflexivity. }
    split; [reflexivity|]. split; [exact Hget|]. split; [exact Hin|]. split; [exact Hout|].
    intros x y Hxy.
    destruct (Z_lt_le_dec k (smaller_len self)) as [Hlt|Hge].
    - split; [exact Hk|]. split; [exact Hlt|].
      destruct (Hin Hlt) as (sa & ta & sb & tb & Ha & Hb & Hg).
      exists sa, ta, sb, tb. rewrite Hg in Hxy. inversion Hxy. auto.
    - rewrite (Hout Hge) in Hxy. discriminate.
Qed.

End Combined.

(** A concrete dataset: two folders of three and two samples, [m = 10]. *)
Definition demo : @ImageDatesetCombined nat nat :=
  {| size_multiplicator := 10;
     dataset_a := {| samples := [(10%nat, 0%nat); (11%nat, 0%nat); (12%nat, 0%nat)] |};
     dataset_b := {| samples := [(20%nat, 1%nat); (21%nat, 1%nat)] |} |}.

Example demo_len : len demo = 20.
Proof. reflexivity. Qed.

Example demo_getitem_11 : getitem (fun s => s) demo 11 = Ok (11%nat, 21%nat).
Proof. reflexivity. Qed.

Example demo_getitem_2 : getitem (fun s => s) demo 2 = Raise IndexError.
Proof. reflexivity. Qed.

Lemma combined_getitem_spec_witness :
  0 <= 11 < len demo
  /\ getitem (fun s => s) demo 11 = Ok (11%nat, 21%nat)
  /\ getitem (fun s => s) demo 12 = Raise IndexError.
Proof.
  split; [vm_compute; split; [discriminate|reflexivity]|].
  split.
  - destruct (combined_getitem_spec (fun s => s) demo 11) as (_ & H & _).
    + vm_compute; split; [discriminate|reflexivity].
    + rewrite H. reflexivity.
  - destruct (combined_getitem_spec (fun s => s) demo 12) as (_ & _ & _ & H & _).
    + vm_compute; split; [discriminate|reflexivity].
    + apply H. vm_compute. discriminate.
Defined.

End ImageDataset.

(** ** Utils/Anonymizer.py *)

Module Anonymizer.

Section Call.
(** PIL images, the extractor's bookkeeping record, the model's input
    and the tensor the model returns. *)
Variables PILImage ExtractionInformation Latent Tensor : Type.

(** The collaborators held by [self]. The extractor returns the cropped
    face ([None] when no face is found) and the extraction information. *)
Variable extractor : PILImage -> option PILImage * ExtractionInformation.
Variable img2latent_bridge : PILImage -> ExtractionInformation -> Latent.
Variable anonymize : Latent -> Tensor.
Variable squeeze0 : Tensor -> Tensor.
Variable ToPILImage : Tensor -> PILImage.
Variable size : PILImage -> Z * Z.
Variable resize_bicubic : PILImage -> Z * Z -> PILImage.
Variable reconstructor : PILImage -> ExtractionInformation -> PILImage.

(** Calls made on the collaborators, in program order. *)
Inductive call : Type :=
  | CallExtractor (image : PILImage)
  | CallBridge (face : PILImage) (info : ExtractionInformation)
  | CallAnonymize (latent : Latent)
  | CallToPIL (t : Tensor)
  | CallResize (img : PILImage) (sz : Z * Z)
  | CallReconstructor (face : PILImage) (info : ExtractionInformation).

(** A computation returns its value and the calls it made. *)
Definition traced (A : Type) : Type := A * list call.

Definition tret {A} (a : A) : traced A := (a, []).

Definition tbind {A B} (m : traced A) (k : A -> traced B) : traced B :=
    let (a, t1) := m in
    let (b, t2) := k a in
    (b, t1 ++ t2).

Definition emit {A} (c : call) (a : A) : traced A := (a, [c]).

Notation "x <~ m ; k" := (tbind m (fun x => k))
    (at level 100, m at next level, right associativity, only parsing).

Definition is_model_call (c : call) : bool :=
    match c with
    | CallBridge _ _ | CallAnonymize _ => true
    | _ => false
    end.

(** [Anonymizer.__call__] *)
Definition anonymizer_call (image : PILImage) : traced (option PILImage) :=
    let constructed_image := None in
    ex <~ emit (CallExtractor image) (extractor image);
    let (extracted_face, extracted_information) := ex in
    match extracted_face with
    | Some face =>
        latent_information <~ emit (CallBridge face extracted_information)
                                   (img2latent_bridge face extracted_information);
        face_out <~ emit (CallAnonymize latent_information)
                         (squeeze0 (anonymize latent_information));
        face_out <~ emit (CallToPIL face_out) (ToPILImage face_out);
        face_out <~ emit (CallResize face_out (size face))
                         (resize_bicubic face_out (size face));
        constructed_image <~ emit (CallReconstructor face_out extracted_information)
                                  (reconstructor face_out extracted_information);
        tret (Some constructed_image)
    | None => tret constructed_image
    end.

(** C4. When the extractor finds a face, [__call__] returns the scene
    rebuilt by the reconstructor from the model output, converted to a
    PIL image and resized to the size of the extracted face, and from
    the extraction information; the collaborators are called in that
    order. *)
Theorem call_with_face (image face : PILImage) (info : ExtractionInformation) :
    extractor image = (Some face, info) ->
    let latent := img2latent_bridge face info in
    let out := squeeze0 (anonymize latent) in
    let pil := ToPILImage out in
    let resized := resize_bicubic pil (size face) in
    anonymizer_call image =
      (Some (reconstructor resized info),
       [CallExtractor image; CallBridge face info; CallAnonymize latent;
        CallToPIL out; CallResize pil (size face); CallReconstructor resized info]).
Proof.
    intros Hex. unfold anonymizer_call, tbind, emit, tret. rewrite Hex. reflexivity.
Qed.

(** C8. When the extractor finds no face, [__call__] returns [None] (not
    the input image) and the only collaborator called is the extractor:
    the model is never run. *)
Theorem call_without_face (image : PILImage) (info : ExtractionInformation) :
    extractor image = (None, info) ->
    anonymizer_call image = (None, [CallExtractor image])
    /\ forallb (fun c => negb (is_model_call c)) (snd (anonymizer_call image)) = true.
Proof.
    intros Hex. unfold anonymizer_call, tbind, emit, tret. rewrite Hex. split; reflexivity.
Qed.

(** An image is produced only if a face was found. *)
Lemma call_some_inv (image out : PILImage) :
    fst (anonymizer_call image) = Some out ->
    exists face info, extractor image = (Some face, info).
Proof.
    unfold anonymizer_call, tbind, emit, tret.
    destruct (extractor image) as [[face|] info]; simpl; [eauto|discriminate].
Qed.

End Call.

(** A toy instance: images are numbers, a face is found in even images. *)
Definition demo_extractor (image : Z) : option Z * Z :=
  if Z.even image then (Some (image / 2), image) else (None, image).

Definition demo_call : Z -> traced Z Z Z Z (option Z) :=
  anonymizer_call Z Z Z Z demo_extractor
    (fun face info => face + info) (fun l => 2 * l) (fun t => t) (fun t => t + 1)
    (fun img => (img, img)) (fun img sz => img + fst sz) (fun face info => face * info).

Example demo_call_8 : fst (demo_call 8) = Some 232.
Proof. reflexivity. Qed.

Lemma call_with_face_witness :
  demo_extractor 8 = (Some 4, 8) /\ fst (demo_call 8) = Some 232.
Proof.
  split; [reflexivity|].
  unfold demo_call.
  rewrite (call_with_face Z Z Z Z demo_extractor
             (fun face info => face + info) (fun l => 2 * l) (fun t => t) (fun t => t + 1)
             (fun img => (img, img)) (fun img sz => img + fst sz) (fun face info => face * info)
             8 4 8); reflexivity.
Defined.

Lemma call_without_face_witness :
  demo_extractor 7 = (None, 7) /\ demo_call 7 = (None, [CallExtractor Z Z Z Z 7]).
Proof.
  split; [reflexivity|].
  apply (call_without_face Z Z Z Z demo_extractor
             (fun face info => face + info) (fun l => 2 * l) (fun t => t) (fun t => t + 1)
             (fun img => (img, img)) (fun img sz => img + fst sz) (fun face info => face * info)
             7 7).
  reflexivity.
Defined.

End Anonymizer.

(** ** Utils/Trainer.py with the schedule of Configuration/config_model.py *)

Module Trainer.

(** The fields of [Config] that [Trainer.train] reads. *)
Record Config : Type := {
  batch_size : Z;
  max_epochs : Z;
  validate_index : Z;
  validation_frequencies : list Z;
  validation_periods : list Z
}.

(** [class Config] of config_model.py: the last threshold is
    [max_epochs + 1]. *)
Definition Config_default : Config :=
  {| batch_size := 64;
     max_epochs := 101;
     validate_index := 0;
     validation_frequencies := [2; 5; 20];
     validation_periods := [0; 10; 20; 101 + 1] |}.

(** Calls made on the model, in program order. *)
Inductive event : Set :=
| SetTrainMode (mode : bool)
| Train (current_epoch : Z) (validate : bool)
| Log (current_epoch : Z) (log_images : bool)
| LogValidation (current_epoch : Z).

Section Train.
(** The model together with its logger and data splitter, the loaders
    and what [model.train] returns. *)
Variables World Loader Info : Type.
Variable set_train_mode : bool -> World -> World.
Variable get_train_data_loader : World -> Loader.
Variable get_validation_data_loader : World -> Loader.
Variable model_train : Loader -> Z -> Z -> bool -> World -> Info * World.
Variable model_log : Z -> Info -> bool -> World -> World.
Variable model_log_validation : Z -> Info -> World -> World.

(** [self.config.validate_index] is updated in place while training. *)
Record state : Type := {
  config : Config;
  cur_validate_index : Z;
  world : World;
  trace : list event
}.

Definition call (ev : event) (f : World -> World) : M state unit :=
  mmodify (fun s => {| config := config s;
                       cur_validate_index := cur_validate_index s;
                       world := f (world s);
                       trace := trace s ++ [ev] |}).

Definition call_train (loader : World -> Loader) (epoch : Z) (validate : bool)
  : M state Info :=
  fun s =>
    let (info, w) := model_train (loader (world s)) (batch_size (config s))
                                 epoch validate (world s) in
    ({| config := config s;
        cur_validate_index := cur_validate_index s;
        world := w;
        trace := trace s ++ [Train epoch validate] |}, Ok info).

Definition set_validate_index (i : Z) : M state unit :=
  mmodify (fun s => {| config := config s;
                       cur_validate_index := i;
                       world := world s;
                       trace := trace s |}).

(** The body of the loop of [Trainer.train]. *)
Definition train_epoch (current_epoch : Z) : M state unit :=
  call (SetTrainMode true) (set_train_mode true) ;;
  let* info := call_train get_train_data_loader current_epoch false in
  (* update frequency *)
  let* s := mget in
  let* period := mlift (py_getitem (validation_periods (config s))
                                   (cur_validate_index s + 1)) in
  (if Z.geb current_epoch period
   then set_validate_index (cur_validate_index s + 1)
   else mret tt) ;;
  let* s := mget in
  let* frequency := mlift (py_getitem (validation_frequencies (config s))
                                      (cur_validate_index s)) in
  let* r := mlift (py_mod current_epoch frequency) in
  if Z.eqb r 0 then
    call (Log current_epoch true) (model_log current_epoch info true) ;;
    (* do validation *)
    call (SetTrainMode false) (set_train_mode false) ;;
    let* info := call_train get_validation_data_loader current_epoch true in
    call (LogValidation current_epoch) (model_log_validation current_epoch info) ;;
    call (SetTrainMode true) (set_train_mode true)
  else
    call (Log current_epoch false) (model_log current_epoch info false).

(** [Trainer.train] *)
Definition train : M state unit :=
  let* s := mget in
  mfor (py_range (max_epochs (config s))) train_epoch.

Definition initial (cfg : Config) (w : World) : state :=
  {| config := cfg; cur_validate_index := validate_index cfg; world := w; trace := [] |}.

End Train.

(** *** The schedule, epoch by epoch *)

(** One update of the index: the next threshold is looked at, and the
    index advances by one when the epoch has reached it. *)
Definition next_index (periods : list Z) (i : Z) (e : Z) : result Z :=
  p <-! py_getitem periods (i + 1);
  Ok (if Z.geb e p then i + 1 else i).

(** The index on entry to epoch [e]. *)
Fixpoint index_before (periods : list Z) (i0 : Z) (e : nat) : result Z :=
  match e with
  | O => Ok i0
  | S e' => i <-! index_before periods i0 e'; next_index periods i (Z.of_nat e')
  end.

(** The index used by epoch [e] to pick its frequency. *)
Definition index_at (periods : list Z) (i0 : Z) (e : nat) : result Z :=
  index_before periods i0 (S e).

(** Whether epoch [e] validates. *)
Definition validates (cfg : Config) (e : nat) : result bool :=
  i <-! index_at (validation_periods cfg) (validate_index cfg) e;
  f <-! py_getitem (validation_frequencies cfg) i;
  r <-! py_mod (Z.of_nat e) f;
  Ok (Z.eqb r 0).

Definition is_ok {A} (r : result A) : bool :=
  match r with Ok _ => true | Raise _ => false end.

(** No epoch leaves the two lists or divides by zero. *)
Definition schedule_ok (cfg : Config) : bool :=
  forallb (fun e => is_ok (validates cfg e)) (seq 0 (Z.to_nat (max_epochs cfg))).

Definition epoch_events (e : Z) (validate : bool) : list event :=
  [SetTrainMode true; Train e false]
  ++ (if validate
      then [Log e true; SetTrainMode false; Train e true; LogValidation e;
            SetTrainMode true]
      else [Log e false]).

Definition expected_events (cfg : Config) (e : nat) : list event :=
  match validates cfg e with
  | Ok v => epoch_events (Z.of_nat e) v
  | Raise _ => []
  end.

Definition is_training_epoch (ev : event) : bool :=
  match ev with Train _ false => true | _ => false end.

Definition training_epochs (t : list event) : list Z :=
  omap (fun ev => match ev with Train e false => Some e | _ => None end) t.

(** The number of thresholds [validation_periods[1]], [validation_periods[2]],
    ... that epoch [e] has reached. *)
Definition count_reached (thresholds : list Z) (e : Z) : nat :=
  length (List.filter (fun p => Z.leb p e) thresholds).

Definition reached (periods : list Z) (e : Z) : Z :=
  Z.of_nat (count_reached (tail periods) e).

(** Strictly increasing and above [lo]. *)
Fixpoint increasing_from (lo : Z) (l : list Z) : bool :=
  match l with
  | [] => true
  | x :: l' => Z.ltb lo x && increasing_from x l'
  end.

Lemma count_reached_below (l : list Z) : forall lo e,
  increasing_from lo l = true -> e <= lo -> count_reached l e = 0%nat.
Proof.
  induction l as [|x l IH]; intros lo e Hinc He; [reflexivity|].
  simpl in Hinc. apply andb_prop in Hinc as [Hx Hl]. apply Z.ltb_lt in Hx.
  unfold count_reached in *. simpl.
  destruct (Z.leb_spec x e); [lia|]. apply (IH x); [assumption|lia].
Qed.

Lemma count_reached_step (l : list Z) : forall lo e p,
  increasing_from lo l = true ->
  l !! count_reached l (e - 1) = Some p ->
  count_reached l e = (count_reached l (e - 1) + (if Z.leb p e then 1 else 0))%nat.
Proof.
  induction l as [|x l IH]; intros lo e p Hinc Hp; [discriminate|].
  simpl in Hinc. apply andb_prop in Hinc as [Hx Hl].
  unfold count_reached in *. simpl in *.
  destruct (Z.leb_spec x (e - 1)) as [Hle|Hgt].
  - simpl in Hp. destruct (Z.leb_spec x e); [|lia].
    simpl. f_equal. apply (IH x); assumption.
  - pose proof (count_reached_below l x (e - 1) Hl ltac:(lia)) as H0.
    unfold count_reached in H0. rewrite H0 in *. simpl in Hp. injection Hp as <-.
    destruct (Z.leb_spec x e) as [Hxe|Hxe]; simpl.
    + pose proof (count_reached_below l x e Hl ltac:(lia)) as H1.
      unfold count_reached in H1. rewrite H1. reflexivity.
    + pose proof (count_reached_below l x e Hl ltac:(lia)) as H1.
      unfold count_reached in H1. rewrite H1. reflexivity.
Qed.

Lemma index_before_reached (periods : list Z) (e : nat) : forall i,
  increasing_from (-1) (tail periods) = true ->
  index_before periods 0 e = Ok i ->
  i = reached periods (Z.of_nat e - 1).
Proof.
  induction e as [|e IH]; intros i Hinc Hi.
  - simpl in Hi. injection Hi as <-. unfold reached.
    rewrite (count_reached_below _ (-1) (Z.of_nat 0 - 1) Hinc) by lia. reflexivity.
  - simpl in Hi.
    destruct (index_before periods 0 e) as [i0|] eqn:Hi0; simpl in Hi; [|discriminate].
    specialize (IH i0 Hinc eq_refl). unfold next_index in Hi.
    assert (Hnn : 0 <= i0 + 1) by (subst i0; unfold reached; lia).
    rewrite py_getitem_nonneg in Hi by assumption.
    destruct (periods !! Z.to_nat (i0 + 1)) as [p|] eqn:Hp; simpl in Hi; [|discriminate].
    injection Hi as <-.
    assert (Hp' : tail periods !! count_reached (tail periods) (Z.of_nat e - 1) = Some p).
    { rewrite lookup_tail. rewrite <- Hp. f_equal. subst i0. unfold reached. lia. }
    unfold reached.
    replace (Z.of_nat (S e) - 1) with (Z.of_nat e) by lia.
    rewrite (count_reached_step _ (-1) (Z.of_nat e) p Hinc Hp').
    subst i0. unfold reached.
    destruct (Z.geb_spec (Z.of_nat e) p); destruct (Z.leb_spec p (Z.of_nat e)); lia.
Qed.

Section Schedule.
Variables World Loader Info : Type.
Variable set_train_mode : bool -> World -> World.
Variable get_train_data_loader : World -> Loader.
Variable get_validation_data_loader : World -> Loader.
Variable model_train : Loader -> Z -> Z -> bool -> World -> Info * World.
Variable model_log : Z -> Info -> bool -> World -> World.
Variable model_log_validation : Z -> Info -> World -> World.

Let state := state World.
Let train_epoch := train_epoch World Loader Info set_train_mode get_train_data_loader
                     get_validation_data_loader model_train model_log model_log_validation.
Let train := train World Loader Info set_train_mode get_train_data_loader
               get_validation_data_loader model_train model_log model_log_validation.

Lemma train_epoch_ok (s : state) (e i f : Z) :
  next_index (validation_periods (config World s)) (cur_validate_index World s) e = Ok i ->
  py_getitem (validation_frequencies (config World s)) i = Ok f ->
  f <> 0 ->
  exists s', train_epoch e s = (s', Ok tt)
             /\ config World s' = config World s
             /\ cur_validate_index World s' = i
             /\ trace World s' = trace World s ++ epoch_events e (Z.eqb (e mod f) 0).
Proof.
  intros Hnext Hfreq Hf.
  unfold next_index in Hnext.
  destruct (py_getitem (validation_periods (config World s))
                       (cur_validate_index World s + 1)) as [p|] eqn:Hp;
    simpl in Hnext; [|discriminate].
  injection Hnext as Hi.
  destruct s as [cfg idx w t]; simpl in *.
  unfold train_epoch, Trainer.train_epoch, mbind, call, call_train, mmodify, mget, mlift,
    set_validate_index, mret; simpl.
  destruct (model_train _ _ e false _) as [info w1]; simpl.
  rewrite Hp.
  subst i.
  destruct (Z.geb e p); unfold mmodify; simpl; rewrite Hfreq;
    unfold py_mod; destruct (Z.eqb_spec f 0) as [?|_]; try contradiction;
    destruct (Z.eqb (e mod f) 0); simpl.
  all: try (destruct (model_train _ _ e true _) as [info2 w2]; simpl).
  all: eexists; split; [reflexivity|]; simpl; repeat split;
    rewrite <- ?app_assoc; reflexivity.
Qed.

(** The model after an epoch: the training call gets the loader that
    [get_train_data_loader] returns and [config.batch_size], the
    validation call the loader that [get_validation_data_loader] returns,
    and each log call the [info] of the call before it. *)
Definition epoch_world (cfg : Config) (e : Z) (validate : bool) (w : World) : World :=
  let w := set_train_mode true w in
  let (info, w) := model_train (get_train_data_loader w) (batch_size cfg) e false w in
  if validate then
    let w := model_log e info true w in
    let w := set_train_mode false w in
    let (info, w) := model_train (get_validation_data_loader w) (batch_size cfg) e true w in
    let w := model_log_validation e info w in
    set_train_mode true w
  else model_log e info false w.

Lemma train_epoch_world (s : state) (e i f : Z) :
  next_index (validation_periods (config World s)) (cur_validate_index World s) e = Ok i ->
  py_getitem (validation_frequencies (config World s)) i = Ok f ->
  f <> 0 ->
  exists s', train_epoch e s = (s', Ok tt)
             /\ world World s'
                = epoch_world (config World s) e (Z.eqb (e mod f) 0) (world World s).
Proof.
  intros Hnext Hfreq Hf.
  unfold next_index in Hnext.
  destruct (py_getitem (validation_periods (config World s))
                       (cur_validate_index World s + 1)) as [p|] eqn:Hp;
    simpl in Hnext; [|discriminate].
  injection Hnext as Hi.
  destruct s as [cfg idx w t]; simpl in *.
  unfold train_epoch, Trainer.train_epoch, epoch_world, mbind, call, call_train, mmodify,
    mget, mlift, set_validate_index, mret; simpl.
  destruct (model_train _ _ e false _) as [info w1]; simpl.
  rewrite Hp.
  subst i.
  destruct (Z.geb e p); unfold mmodify; simpl; rewrite Hfreq;
    unfold py_mod; destruct (Z.eqb_spec f 0) as [?|_]; try contradiction;
    destruct (Z.eqb (e mod f) 0); simpl.
  all: try (destruct (model_train _ _ e true _) as [info2 w2]; simpl).
  all: eexists; split; reflexivity.
Qed.

Lemma validates_inv (cfg : Config) (e : nat) (idx : Z) :
  index_before (validation_periods cfg) (validate_index cfg) e = Ok idx ->
  is_ok (validates cfg e) = true ->
  exists i f,
    next_index (validation_periods cfg) idx (Z.of_nat e) = Ok i
    /\ index_at (validation_periods cfg) (validate_index cfg) e = Ok i
    /\ py_getitem (validation_frequencies cfg) i = Ok f
    /\ f <> 0
    /\ validates cfg e = Ok (Z.eqb (Z.of_nat e mod f) 0).
Proof.
  intros Hidx Hok. unfold validates, index_at in *. simpl in *. rewrite Hidx in *. simpl in *.
  destruct (next_index (validation_periods cfg) idx (Z.of_nat e)) as [i|]; simpl in *;
    [|discriminate].
  destruct (py_getitem (validation_frequencies cfg) i) as [f|] eqn:Hf; simpl in *;
    [|discriminate].
  unfold py_mod in *. destruct (Z.eqb_spec f 0); simpl in *; [discriminate|].
  exists i, f. repeat split; auto.
Qed.

Lemma loop_ok (cfg : Config) (n : nat) : forall (e0 : nat) (s : state),
  config World s = cfg ->
  index_before (validation_periods cfg) (validate_index cfg) e0
  = Ok (cur_validate_index World s) ->
  (forall e, (e0 <= e < e0 + n)%nat -> is_ok (validates cfg e) = true) ->
  exists s', mfor (map Z.of_nat (seq e0 n)) train_epoch s = (s', Ok tt)
    /\ config World s' = cfg
    /\ index_before (validation_periods cfg) (validate_index cfg) (e0 + n)
       = Ok (cur_validate_index World s')
    /\ trace World s' = trace World s ++ concat (map (expected_events cfg) (seq e0 n)).
Proof.
  induction n as [|n IH]; intros e0 s Hcfg Hidx Hok.
  - exists s. simpl. rewrite Nat.add_0_r, app_nil_r. auto.
  - destruct (validates_inv cfg e0 _ Hidx) as (i & f & Hnext & Hat & Hf & Hf0 & Hv);
      [apply Hok; lia|].
    rewrite <- Hcfg in Hnext, Hf.
    destruct (train_epoch_ok s (Z.of_nat e0) i f Hnext Hf Hf0) as (s1 & Hrun & Hc1 & Hi1 & Ht1).
    destruct (IH (S e0) s1) as (s' & Hrun' & Hc' & Hi' & Ht').
    + congruence.
    + rewrite Hi1. exact Hat.
    + intros e He. apply Hok. lia.
    + exists s'. simpl. unfold mbind at 1. rewrite Hrun. rewrite Hrun'.
      split; [reflexivity|]. split; [assumption|].
      split; [rewrite <- Hi'; f_equal; lia|].
      rewrite Ht', Ht1. unfold expected_events at 2. rewrite Hv.
      rewrite <- app_assoc. reflexivity.
Qed.

(** The model after the epochs of a schedule. *)
Definition expected_world (cfg : Config) (e : nat) (w : World) : World :=
  match validates cfg e with
  | Ok v => epoch_world cfg (Z.of_nat e) v w
  | Raise _ => w
  end.

Lemma loop_world (cfg : Config) (n : nat) : forall (e0 : nat) (s : state),
  config World s = cfg ->
  index_before (validation_periods cfg) (validate_index cfg) e0
  = Ok (cur_validate_index World s) ->
  (forall e, (e0 <= e < e0 + n)%nat -> is_ok (validates cfg e) = true) ->
  exists s', mfor (map Z.of_nat (seq e0 n)) train_epoch s = (s', Ok tt)
    /\ world World s' = fold_left (fun w e => expected_world cfg e w) (seq e0 n)
                                  (world World s).
Proof.
  induction n as [|n IH]; intros e0 s Hcfg Hidx Hok.
  - exists s. split; reflexivity.
  - destruct (validates_inv cfg e0 _ Hidx) as (i & f & Hnext & Hat & Hf & Hf0 & Hv);
      [apply Hok; lia|].
    rewrite <- Hcfg in Hnext, Hf.
    destruct (train_epoch_ok s (Z.of_nat e0) i f Hnext Hf Hf0)
      as (s1 & Hrun & Hc1 & Hi1 & _).
    destruct (train_epoch_world s (Z.of_nat e0) i f Hnext Hf Hf0) as (s1' & Hrun1 & Hw1).
    assert (s1' = s1) by congruence. subst s1'.
    destruct (IH (S e0) s1) as (s' & Hrun' & Hw').
    + congruence.
    + rewrite Hi1. exact Hat.
    + intros e He. apply Hok. lia.
    + assert (Hexp : expected_world cfg e0 (world World s)
                     = epoch_world cfg (Z.of_nat e0) (Z.eqb (Z.of_nat e0 mod f) 0)
                                   (world World s))
        by (unfold expected_world; rewrite Hv; reflexivity).
      exists s'. split.
      * simpl. unfold mbind at 1. rewrite Hrun. exact Hrun'.
      * rewrite Hw', Hw1, Hcfg. cbn [seq fold_left]. rewrite Hexp. reflexivity.
Qed.

Lemma training_epochs_app (t1 t2 : list event) :
  training_epochs (t1 ++ t2) = training_epochs t1 ++ training_epochs t2.
Proof. unfold training_epochs. apply omap_app. Qed.

Lemma training_epochs_expected (cfg : Config) (l : list nat) :
  (forall e, In e l -> is_ok (validates cfg e) = true) ->
  training_epochs (concat (map (expected_events cfg) l)) = map Z.of_nat l.
Proof.
  induction l as [|e l IH]; intros Hok; [reflexivity|].
  simpl. rewrite training_epochs_app, IH by (intros; apply Hok; right; assumption).
  unfold expected_events.
  destruct (validates cfg e) as [[|]|] eqn:Hv; try reflexivity.
  specialize (Hok e (or_introl eq_refl)). rewrite Hv in Hok. discriminate.
Qed.

Lemma validation_in_expected (cfg : Config) (l : list nat) (e : nat) :
  In (Train (Z.of_nat e) true) (concat (map (expected_events cfg) l))
  <-> In e l /\ validates cfg e = Ok true.
Proof.
  rewrite in_concat. split.
  - intros (evs & Hin & Hev). apply in_map_iff in Hin as (e' & <- & He').
    unfold expected_events in Hev.
    destruct (validates cfg e') as [[|]|] eqn:Hv; simpl in Hev.
    + assert (e' = e); [|subst; split; assumption].
      repeat (destruct Hev as [Hev|Hev]; try discriminate); try contradiction.
      injection Hev as Hev. lia.
    + repeat (destruct Hev as [Hev|Hev]; try discriminate); contradiction.
    + contradiction.
  - intros [Hin Hv]. exists (expected_events cfg e). split.
    + apply in_map. assumption.
    + unfold expected_events. rewrite Hv. simpl. do 4 right. left. reflexivity.
Qed.

(** C7 (amended). When no epoch leaves the two lists or meets a zero
    frequency, [Trainer.train] returns normally after running exactly the
    training epochs [0 .. max_epochs - 1]; each epoch trains first, on the
    loader that [get_train_data_loader] returns and with
    [config.batch_size], and epoch [e] then runs a validation pass (image
    logging, [set_train_mode(False)], a training call with [validate=True]
    on the loader that [get_validation_data_loader] returns, validation
    log, [set_train_mode(True)]) if and only if [e] is divisible by
    [validation_frequencies[i]], where [i] is the index after the
    thresholds [validation_periods[validate_index + 1]], ... have been
    examined one per epoch up to epoch [e]; when the index starts at 0 and
    the thresholds are non-negative and strictly increasing, [i] is the
    number of thresholds [validation_periods[1]], [validation_periods[2]],
    ... that are at most [e]. *)
Theorem train_schedule (cfg : Config) (w : World) :
  schedule_ok cfg = true ->
  let epochs := seq 0 (Z.to_nat (max_epochs cfg)) in
  exists s',
    train (initial World cfg w) = (s', Ok tt)
    /\ trace World s' = concat (map (expected_events cfg) epochs)
    /\ training_epochs (trace World s') = py_range (max_epochs cfg)
    /\ length (training_epochs (trace World s')) = Z.to_nat (max_epochs cfg)
    /\ world World s' = fold_left (fun w e => expected_world cfg e w) epochs w
    /\ (forall e, In e epochs ->
         exists i f,
           index_at (validation_periods cfg) (validate_index cfg) e = Ok i
           /\ py_getitem (validation_frequencies cfg) i = Ok f
           /\ f <> 0
           /\ expected_events cfg e
              = epoch_events (Z.of_nat e) (Z.eqb (Z.of_nat e mod f) 0)
           /\ (In (Train (Z.of_nat e) true) (trace World s') <-> Z.of_nat e mod f = 0)
           /\ (validate_index cfg = 0 ->
               increasing_from (-1) (tail (validation_periods cfg)) = true ->
               i = reached (validation_periods cfg) (Z.of_nat e))
           /\ (forall w0, expected_world cfg e w0
                          = epoch_world cfg (Z.of_nat e) (Z.eqb (Z.of_nat e mod f) 0) w0))
    /\ forall (e : Z) (w0 : World),
         let w1 := set_train_mode true w0 in
         let trained := model_train (get_train_data_loader w1) (batch_size cfg) e false w1 in
         let w2 := set_train_mode false (model_log e (fst trained) true (snd trained)) in
         let validated :=
           model_train (get_validation_data_loader w2) (batch_size cfg) e true w2 in
         epoch_world cfg e false w0 = model_log e (fst trained) false (snd trained)
         /\ epoch_world cfg e true w0
            = set_train_mode true
                (model_log_validation e (fst validated) (snd validated)).
Proof.
  intros Hok epochs. unfold schedule_ok in Hok. rewrite forallb_forall in Hok.
  destruct (loop_ok cfg (Z.to_nat (max_epochs cfg)) 0%nat (initial World cfg w))
    as (s' & Hrun & Hcfg & Hidx & Htrace); try reflexivity.
  { intros e He. apply Hok. apply in_seq. lia. }
  destruct (loop_world cfg (Z.to_nat (max_epochs cfg)) 0%nat (initial World cfg w))
    as (s'' & Hrun'' & Hworld); try reflexivity.
  { intros e He. apply Hok. apply in_seq. lia. }
  assert (s'' = s') by congruence. subst s''.
  simpl in Htrace, Hworld. fold epochs in Htrace, Hworld.
  exists s'. split; [exact Hrun|]. split; [exact Htrace|].
  assert (Htr : training_epochs (trace World s') = py_range (max_epochs cfg)).
  { rewrite Htrace. apply training_epochs_expected. intros e He. apply Hok. exact He. }
  split; [exact Htr|].
  split; [rewrite Htr; unfold py_range; rewrite length_map, length_seq; reflexivity|].
  split; [exact Hworld|].
  split.
  - intros e He.
    assert (Hbefore : exists idx,
               index_before (validation_periods cfg) (validate_index cfg) e = Ok idx).
    { specialize (Hok e He). unfold validates, index_at in Hok. simpl in Hok.
      destruct (index_before (validation_periods cfg) (validate_index cfg) e) as [idx|];
        [eauto|discriminate]. }
    destruct Hbefore as [idx Hbefore].
    destruct (validates_inv cfg e idx Hbefore (Hok e He))
      as (i & f & _ & Hat & Hf & Hf0 & Hv).
    exists i, f. repeat (split; [assumption|]). split; [|split; [|split]].
    + unfold expected_events. rewrite Hv. reflexivity.
    + rewrite Htrace, validation_in_expected, Hv. split.
      * intros [_ H]. injection H as H. apply Z.eqb_eq. exact H.
      * intros H. split; [exact He|]. f_equal. apply Z.eqb_eq. exact H.
    + intros H0 Hinc. unfold index_at in Hat. rewrite H0 in Hat.
      rewrite (index_before_reached _ (S e) i Hinc Hat). f_equal. lia.
    + intros w0. unfold expected_world. rewrite Hv. reflexivity.
  - intros e w0 w1 trained w2 validated. unfold epoch_world. fold w1.
    change (model_train (get_train_data_loader w1) (batch_size cfg) e false w1)
      with trained.
    destruct trained as [info w'] eqn:E. cbn [fst snd] in *. split; [reflexivity|].
    fold w2.
    change (model_train (get_validation_data_loader w2) (batch_size cfg) e true w2)
      with validated.
    destruct validated as [info' w'']. reflexivity.
Qed.

End Schedule.

(** *** Concrete runs: the model is a counter of the calls it received *)

Definition demo_train (cfg : Config) : M (state nat) unit :=
  train nat unit unit (fun _ w => S w) (fun _ => tt) (fun _ => tt)
        (fun _ _ _ _ w => (tt, S w)) (fun _ _ _ w => S w) (fun _ _ w => S w).

(** A configuration that keeps the inherited thresholds and frequencies
    but trains for 200 epochs. *)
Definition Config_long : Config :=
  {| batch_size := 64;
     max_epochs := 200;
     validate_index := 0;
     validation_frequencies := [2; 5; 20];
     validation_periods := [0; 10; 20; 101 + 1] |}.

Example default_schedule_ok : schedule_ok Config_default = true.
Proof. vm_compute. reflexivity. Qed.

Example default_validating_epochs :
  List.filter (fun e => match validates Config_default e with Ok true => true | _ => false end)
         (seq 0 30)
  = [0; 2; 4; 6; 8; 10; 15; 20]%nat.
Proof. vm_compute. reflexivity. Qed.

Lemma train_schedule_witness :
  schedule_ok Config_default = true
  /\ exists s', demo_train Config_default (initial nat Config_default 0%nat) = (s', Ok tt)
                /\ length (training_epochs (trace nat s')) = 101%nat.
Proof.
  split; [vm_compute; reflexivity|].
  destruct (train_schedule nat unit unit (fun _ w => S w) (fun _ => tt) (fun _ => tt)
              (fun _ _ _ _ w => (tt, S w)) (fun _ _ _ w => S w) (fun _ _ w => S w)
              Config_default 0%nat) as (s' & Hrun & _ & _ & Hlen & _).
  - vm_compute. reflexivity.
  - exists s'. split; [exact Hrun|exact Hlen].
Defined.

(** C7 does not hold for every configuration: with 200 epochs and the
    inherited lists, epoch 102 reaches the last threshold, the index
    becomes 3 and the lookup in the three frequencies raises; 103 training
    epochs were run, not 200. *)
Lemma train_schedule_counterexample :
  let r := demo_train Config_long (initial nat Config_long 0%nat) in
  snd r = Raise IndexError
  /\ length (training_epochs (trace nat (fst r))) = 103%nat
  /\ Z.to_nat (max_epochs Config_long) = 200%nat.
Proof. vm_compute. repeat split; reflexivity. Qed.

End Trainer.

(** ** Models/DeepFake/DeepFakeOriginal.py *)

Module DeepFake.

(** [AutoEncoder(encoder, decoder)] keeps references to the two modules
    it was given. *)
Record AutoEncoder : Set := { ae_encoder : nat; ae_decoder : nat }.

#[global] Instance AutoEncoder_eq_dec : EqDecision AutoEncoder.
Proof. solve_decision. Defined.

Inductive optimizer_id : Set := Opt1 | Opt2.

Section Model.
(** Weights of an encoder and of a decoder, the internal state of an Adam
    optimizer and of a [ReduceLROnPlateau] scheduler, and image sizes. *)
Variables EP DP AS SS ImgSize : Type.

Variable encoder_forward : EP -> list Q -> list Q.
Variable decoder_forward : DP -> list Q -> list Q.

(** The scalar whose gradient [backward()] accumulates: the loss of the
    autoencoder with the given weights on the given input and target. *)
Record loss_term : Type := {
  lt_encoder : EP;
  lt_decoder : DP;
  lt_input : list Q;
  lt_target : list Q
}.

(** [Adam(params, lr=1e-4)] and [ReduceLROnPlateau(opt, patience=100,
    cooldown=50)]. An Adam step rewrites each parameter from the gradient
    accumulated in it. *)
Variable adam_init : AS.
Variable adam_encoder : AS -> EP -> list loss_term -> EP.
Variable adam_decoder : AS -> DP -> list loss_term -> DP.
Variable adam_tick : AS -> AS.
Variable scheduler_init : SS.
Variable scheduler_step : SS -> Q -> Z -> AS -> SS * AS.

(** Module objects live in a store; a module carries its weights and the
    gradient accumulated since the last [zero_grad]. *)
Inductive weights : Type :=
| EncoderW (p : EP)
| DecoderW (p : DP).

Record module_obj : Type := { w : weights; grad : list loss_term }.

Record Adam : Type := { param_groups : list nat; adam_state : AS }.

Record DeepFakeOriginal : Type := {
  img_size : ImgSize;
  encoder : nat;
  decoder1 : nat;
  decoder2 : nat;
  autoencoder1 : AutoEncoder;
  autoencoder2 : AutoEncoder;
  optimizer1 : Adam;
  scheduler1 : SS;
  optimizer2 : Adam;
  scheduler2 : SS
}.

Inductive event : Type :=
| ZeroGrad (o : optimizer_id)
| Forward (ae : AutoEncoder) (x : list Q)
| Backward (ae : AutoEncoder) (input target : list Q)
| AdamStep (o : optimizer_id) (params : list nat)
| SchedulerStep (o : optimizer_id) (loss : Q) (epoch : Z).

Record world : Type := {
  heap : gmap nat module_obj;
  self : DeepFakeOriginal;
  trace : list event
}.

(** *** Construction *)

(** A new object gets a reference that is not in use. *)
Definition alloc (o : module_obj) (h : gmap nat module_obj) : nat * gmap nat module_obj :=
  let r := fresh (dom h) in (r, <[r := o]> h).

(** [autoencoder.parameters()]: the encoder's parameters, then the
    decoder's. *)
Definition parameters (ae : AutoEncoder) : list nat := [ae_encoder ae; ae_decoder ae].

(** [__init__(self, encoder, decoder, img_size, auto_encoder)]; the two
    factories build fresh modules. *)
Definition init (encoder_factory : ImgSize -> EP) (decoder_factory : unit -> DP)
    (img_size : ImgSize) (auto_encoder : nat -> nat -> AutoEncoder)
    (h : gmap nat module_obj) : world :=
  let (enc, h) := alloc {| w := EncoderW (encoder_factory img_size); grad := [] |} h in
  let (dec1, h) := alloc {| w := DecoderW (decoder_factory tt); grad := [] |} h in
  let (dec2, h) := alloc {| w := DecoderW (decoder_factory tt); grad := [] |} h in
  let ae1 := auto_encoder enc dec1 in
  let ae2 := auto_encoder enc dec2 in
  let opt1 := {| param_groups := parameters ae1; adam_state := adam_init |} in
  let opt2 := {| param_groups := parameters ae2; adam_state := adam_init |} in
  {| heap := h;
     self := {| img_size := img_size;
                encoder := enc; decoder1 := dec1; decoder2 := dec2;
                autoencoder1 := ae1; autoencoder2 := ae2;
                optimizer1 := opt1; scheduler1 := scheduler_init;
                optimizer2 := opt2; scheduler2 := scheduler_init |};
     trace := [] |}.

(** *** Running the networks *)

Definition lookup_encoder (h : gmap nat module_obj) (r : nat) : result EP :=
  match h !! r with
  | Some {| w := EncoderW p |} => Ok p
  | _ => Raise TypeError
  end.

Definition lookup_decoder (h : gmap nat module_obj) (r : nat) : result DP :=
  match h !! r with
  | Some {| w := DecoderW p |} => Ok p
  | _ => Raise TypeError
  end.

(** What a forward pass returns: the value, and the graph it came from
    (the autoencoder, the weights used and the input). *)
Record output : Type := {
  out_value : list Q;
  out_ae : AutoEncoder;
  out_encoder : EP;
  out_decoder : DP;
  out_input : list Q
}.

(** Modelled from the spec: the class [AutoEncoder] of
    Models/DeepFake/Autoencoder.py is not among the sources; its forward
    pass is the encoder followed by the decoder. *)
Definition autoencoder_forward (h : gmap nat module_obj) (ae : AutoEncoder) (x : list Q)
  : result output :=
  ep <-! lookup_encoder h (ae_encoder ae);
  dp <-! lookup_decoder h (ae_decoder ae);
  Ok {| out_value := decoder_forward dp (encoder_forward ep x);
        out_ae := ae; out_encoder := ep; out_decoder := dp; out_input := x |}.

(** [torch.nn.L1Loss(size_average=True)]: the mean absolute difference. *)
Definition L1Loss (o t : list Q) : Q :=
  Qmean (zip_with (fun a b => Qabs (a - b)%Q) o t).

Record loss : Type := { loss_value : Q; loss_ae : AutoEncoder; loss_graph : loss_term }.

Definition lossfn (o : output) (target : list Q) : loss :=
  {| loss_value := L1Loss (out_value o) target;
     loss_ae := out_ae o;
     loss_graph := {| lt_encoder := out_encoder o; lt_decoder := out_decoder o;
                      lt_input := out_input o; lt_target := target |} |}.

(** *** Effects on the store *)

Definition log (ev : event) : M world unit :=
  mmodify (fun s => {| heap := heap s; self := self s; trace := trace s ++ [ev] |}).

Definition update_heap (f : gmap nat module_obj -> gmap nat module_obj) : M world unit :=
  mmodify (fun s => {| heap := f (heap s); self := self s; trace := trace s |}).

Definition for_modules (f : module_obj -> module_obj) (refs : list nat)
    (h : gmap nat module_obj) : gmap nat module_obj :=
  foldr (fun r h => alter f r h) h refs.
Arguments for_modules : simpl never.

Definition get_optimizer (o : optimizer_id) (m : DeepFakeOriginal) : Adam :=
  match o with Opt1 => optimizer1 m | Opt2 => optimizer2 m end.

Definition set_optimizer_state (o : optimizer_id) (a : AS) (m : DeepFakeOriginal)
  : DeepFakeOriginal :=
  {| img_size := img_size m;
     encoder := encoder m; decoder1 := decoder1 m; decoder2 := decoder2 m;
     autoencoder1 := autoencoder1 m; autoencoder2 := autoencoder2 m;
     optimizer1 := match o with
                   | Opt1 => {| param_groups := param_groups (optimizer1 m); adam_state := a |}
                   | Opt2 => optimizer1 m
                   end;
     scheduler1 := scheduler1 m;
     optimizer2 := match o with
                   | Opt1 => optimizer2 m
                   | Opt2 => {| param_groups := param_groups (optimizer2 m); adam_state := a |}
                   end;
     scheduler2 := scheduler2 m |}.

Definition clear_grad (m : module_obj) : module_obj := {| w := w m; grad := [] |}.

Definition add_grad (t : loss_term) (m : module_obj) : module_obj :=
  {| w := w m; grad := grad m ++ [t] |}.

Definition step_module (a : AS) (m : module_obj) : module_obj :=
  {| w := match w m with
          | EncoderW p => EncoderW (adam_encoder a p (grad m))
          | DecoderW p => DecoderW (adam_decoder a p (grad m))
          end;
     grad := grad m |}.

(** [optimizer.zero_grad()] *)
Definition zero_grad (o : optimizer_id) : M world unit :=
  let* s := mget in
  update_heap (for_modules clear_grad (param_groups (get_optimizer o (self s)))) ;;
  log (ZeroGrad o).

(** [autoencoder(x)] *)
Definition call_autoencoder (ae : AutoEncoder) (x : list Q) : M world output :=
  let* s := mget in
  let* out := mlift (autoencoder_forward (heap s) ae x) in
  log (Forward ae x) ;;
  mret out.

(** [loss.backward()]: the gradient reaches the modules of the graph. *)
Definition backward (l : loss) : M world unit :=
  update_heap (for_modules (add_grad (loss_graph l)) (parameters (loss_ae l))) ;;
  log (Backward (loss_ae l) (lt_input (loss_graph l)) (lt_target (loss_graph l))).

(** [optimizer.step()] *)
Definition step (o : optimizer_id) : M world unit :=
  let* s := mget in
  let opt := get_optimizer o (self s) in
  update_heap (for_modules (step_module (adam_state opt)) (param_groups opt)) ;;
  mmodify (fun s => {| heap := heap s;
                       self := set_optimizer_state o (adam_tick (adam_state opt)) (self s);
                       trace := trace s ++ [AdamStep o (param_groups opt)] |}).

(** *** Training *)

Definition batch : Type := (list Q * list Q) * (list Q * list Q).

(** The locals of [train] that outlive an iteration; [images] is the list
    returned last, empty before the first batch. *)
Record locals : Type := {
  loss1_mean : Q;
  loss2_mean : Q;
  images : list (list Q);
  iterations : Z
}.

(** The body of the loop of [train]. *)
Definition train_batch (acc : locals) (b : batch) : M world locals :=
  let '((face1_warped, face1), (face2_warped, face2)) := b in
  let* s := mget in
  zero_grad Opt1 ;;
  let* output1 := call_autoencoder (autoencoder1 (self s)) face1_warped in
  let loss1 := lossfn output1 face1 in
  backward loss1 ;;
  step Opt1 ;;
  zero_grad Opt2 ;;
  let* output2 := call_autoencoder (autoencoder2 (self s)) face2_warped in
  let loss2 := lossfn output2 face2 in
  backward loss2 ;;
  step Opt2 ;;
  mret {| loss1_mean := (loss1_mean acc + loss_value loss1)%Q;
          loss2_mean := (loss2_mean acc + loss_value loss2)%Q;
          images := [face1_warped; out_value output1; face1;
                     face2_warped; out_value output2; face2];
          iterations := iterations acc + 1 |}.

Fixpoint train_loop (l : list batch) (acc : locals) : M world locals :=
  match l with
  | [] => mret acc
  | b :: l' => let* acc := train_batch acc b in train_loop l' acc
  end.

Definition scheduler_call (o : optimizer_id) (loss : Q) (epoch : Z) : M world unit :=
  mmodify (fun s =>
    let m := self s in
    let sched := match o with Opt1 => scheduler1 m | Opt2 => scheduler2 m end in
    let (sched', a) := scheduler_step sched loss epoch (adam_state (get_optimizer o m)) in
    let m := set_optimizer_state o a m in
    {| heap := heap s;
       self := {| img_size := img_size m;
                  encoder := encoder m; decoder1 := decoder1 m; decoder2 := decoder2 m;
                  autoencoder1 := autoencoder1 m; autoencoder2 := autoencoder2 m;
                  optimizer1 := optimizer1 m;
                  scheduler1 := match o with Opt1 => sched' | Opt2 => scheduler1 m end;
                  optimizer2 := optimizer2 m;
                  scheduler2 := match o with Opt1 => scheduler2 m | Opt2 => sched' end |};
       trace := trace s ++ [SchedulerStep o loss epoch] |}).

(** [train(self, train_data_loader, batch_size, **kwargs)] with
    [current_epoch = kwargs.get('current_epoch', -1)]. *)
Definition train (train_data_loader : list batch) (batch_size : Z) (current_epoch : Z)
  : M world (Q * Q * list (list Q)) :=
  let* acc := train_loop train_data_loader
                {| loss1_mean := 0; loss2_mean := 0; images := []; iterations := 0 |} in
  let* loss1_mean := mlift (py_div (loss1_mean acc) (iterations acc)) in
  let* loss2_mean := mlift (py_div (loss2_mean acc) (iterations acc)) in
  scheduler_call Opt1 loss1_mean current_epoch ;;
  scheduler_call Opt2 loss2_mean current_epoch ;;
  mret (loss1_mean, loss2_mean, images acc).

(** [anonymize] and [anonymize_2] *)
Definition anonymize (x : list Q) : M world (list Q) :=
  let* s := mget in
  let* out := call_autoencoder (autoencoder2 (self s)) x in
  mret (out_value out).

Definition anonymize_2 (x : list Q) : M world (list Q) :=
  let* s := mget in
  let* out := call_autoencoder (autoencoder1 (self s)) x in
  mret (out_value out).

(** *** Well-formed objects *)

Definition is_encoder (o : option module_obj) : bool :=
  match o with Some {| w := EncoderW _ |} => true | _ => false end.

Definition is_decoder (o : option module_obj) : bool :=
  match o with Some {| w := DecoderW _ |} => true | _ => false end.

(** The shape [__init__] establishes: three distinct modules of the right
    kinds, two autoencoders over them, each optimizer over the parameters
    of its autoencoder. *)
Definition wf (s : world) : bool :=
  let m := self s in
  bool_decide (encoder m <> decoder1 m)
  && bool_decide (encoder m <> decoder2 m)
  && bool_decide (decoder1 m <> decoder2 m)
  && bool_decide (autoencoder1 m = {| ae_encoder := encoder m; ae_decoder := decoder1 m |})
  && bool_decide (autoencoder2 m = {| ae_encoder := encoder m; ae_decoder := decoder2 m |})
  && bool_decide (param_groups (optimizer1 m) = [encoder m; decoder1 m])
  && bool_decide (param_groups (optimizer2 m) = [encoder m; decoder2 m])
  && is_encoder (heap s !! encoder m)
  && is_decoder (heap s !! decoder1 m)
  && is_decoder (heap s !! decoder2 m).

(** The three modules of a well-formed object, as found in the store. *)
Record view : Type := {
  v_encoder : EP;  g_encoder : list loss_term;
  v_decoder1 : DP; g_decoder1 : list loss_term;
  v_decoder2 : DP; g_decoder2 : list loss_term
}.

Definition has_view (s : world) (v : view) : Prop :=
  heap s !! encoder (self s) = Some {| w := EncoderW (v_encoder v); grad := g_encoder v |}
  /\ heap s !! decoder1 (self s) = Some {| w := DecoderW (v_decoder1 v); grad := g_decoder1 v |}
  /\ heap s !! decoder2 (self s) = Some {| w := DecoderW (v_decoder2 v); grad := g_decoder2 v |}.

(** What one iteration of the loop does to the three modules, given the
    states of the two optimizers. *)
Definition batch_view (a1 a2 : AS) (b : batch) (v : view) : view :=
  let '((face1_warped, face1), (face2_warped, face2)) := b in
  let t1 := {| lt_encoder := v_encoder v; lt_decoder := v_decoder1 v;
               lt_input := face1_warped; lt_target := face1 |} in
  let e1 := adam_encoder a1 (v_encoder v) [t1] in
  let t2 := {| lt_encoder := e1; lt_decoder := v_decoder2 v;
               lt_input := face2_warped; lt_target := face2 |} in
  {| v_encoder := adam_encoder a2 e1 [t2];             g_encoder := [t2];
     v_decoder1 := adam_decoder a1 (v_decoder1 v) [t1]; g_decoder1 := [t1];
     v_decoder2 := adam_decoder a2 (v_decoder2 v) [t2]; g_decoder2 := [t2] |}.

Definition batch_locals (b : batch) (v : view) (a1 : AS) (acc : locals) : locals :=
  let '((face1_warped, face1), (face2_warped, face2)) := b in
  let output1 := decoder_forward (v_decoder1 v) (encoder_forward (v_encoder v) face1_warped) in
  let t1 := {| lt_encoder := v_encoder v; lt_decoder := v_decoder1 v;
               lt_input := face1_warped; lt_target := face1 |} in
  let e1 := adam_encoder a1 (v_encoder v) [t1] in
  let output2 := decoder_forward (v_decoder2 v) (encoder_forward e1 face2_warped) in
  {| loss1_mean := (loss1_mean acc + L1Loss output1 face1)%Q;
     loss2_mean := (loss2_mean acc + L1Loss output2 face2)%Q;
     images := [face1_warped; output1; face1; face2_warped; output2; face2];
     iterations := iterations acc + 1 |}.

Definition batch_events (m : DeepFakeOriginal) (b : batch) : list event :=
  let '((face1_warped, face1), (face2_warped, face2)) := b in
  [ZeroGrad Opt1; Forward (autoencoder1 m) face1_warped;
   Backward (autoencoder1 m) face1_warped face1;
   AdamStep Opt1 (parameters (autoencoder1 m));
   ZeroGrad Opt2; Forward (autoencoder2 m) face2_warped;
   Backward (autoencoder2 m) face2_warped face2;
   AdamStep Opt2 (parameters (autoencoder2 m))].


(** *** Facts about the store *)

Lemma for_modules_pair (f : module_obj -> module_obj) (a b c : nat)
    (h : gmap nat module_obj) (oa ob oc : module_obj) :
  a <> b -> a <> c -> b <> c ->
  h !! a = Some oa -> h !! b = Some ob -> h !! c = Some oc ->
  for_modules f [a; b] h !! a = Some (f oa)
  /\ for_modules f [a; b] h !! b = Some (f ob)
  /\ for_modules f [a; b] h !! c = Some oc
  /\ forall r, r <> a -> r <> b -> for_modules f [a; b] h !! r = h !! r.
Proof.
  intros Hab Hac Hbc Ha Hb Hc. unfold for_modules. simpl.
  repeat split.
  - rewrite lookup_alter_eq, lookup_alter_ne, Ha by congruence. reflexivity.
  - rewrite lookup_alter_ne, lookup_alter_eq, Hb by congruence. reflexivity.
  - rewrite !lookup_alter_ne, Hc by congruence. reflexivity.
  - intros r Hra Hrb. rewrite !lookup_alter_ne by congruence. reflexivity.
Qed.

Lemma wf_inv (s : world) :
  wf s = true ->
  let m := self s in
  encoder m <> decoder1 m /\ encoder m <> decoder2 m /\ decoder1 m <> decoder2 m
  /\ autoencoder1 m = {| ae_encoder := encoder m; ae_decoder := decoder1 m |}
  /\ autoencoder2 m = {| ae_encoder := encoder m; ae_decoder := decoder2 m |}
  /\ param_groups (optimizer1 m) = [encoder m; decoder1 m]
  /\ param_groups (optimizer2 m) = [encoder m; decoder2 m]
  /\ exists v, has_view s v.
Proof.
  intros H m. unfold wf in H. fold m in H.
  repeat (apply andb_prop in H as [H ?]).
  repeat match goal with
         | H : bool_decide _ = true |- _ => apply bool_decide_eq_true in H
         end.
  repeat (split; [assumption|]).
  unfold has_view. fold m.
  destruct (heap s !! encoder m) as [[[e|?] ge]|]; try discriminate.
  destruct (heap s !! decoder1 m) as [[[?|d1] g1]|]; try discriminate.
  destruct (heap s !! decoder2 m) as [[[?|d2] g2]|]; try discriminate.
  exists {| v_encoder := e; g_encoder := ge; v_decoder1 := d1; g_decoder1 := g1;
            v_decoder2 := d2; g_decoder2 := g2 |}.
  simpl. auto.
Qed.

Lemma wf_intro (s : world) (v : view) :
  let m := self s in
  encoder m <> decoder1 m -> encoder m <> decoder2 m -> decoder1 m <> decoder2 m ->
  autoencoder1 m = {| ae_encoder := encoder m; ae_decoder := decoder1 m |} ->
  autoencoder2 m = {| ae_encoder := encoder m; ae_decoder := decoder2 m |} ->
  param_groups (optimizer1 m) = [encoder m; decoder1 m] ->
  param_groups (optimizer2 m) = [encoder m; decoder2 m] ->
  has_view s v ->
  wf s = true.
Proof.
  intros m H1 H2 H3 H4 H5 H6 H7 (He & Hd1 & Hd2). unfold wf. fold m.
  fold m in He, Hd1, Hd2. rewrite He, Hd1, Hd2. simpl.
  rewrite !andb_true_r. repeat (apply andb_true_intro; split);
    apply bool_decide_eq_true; assumption.
Qed.

Lemma forward_view (h : gmap nat module_obj) (e d : nat) (ep : EP) (dp : DP)
    (ge gd : list loss_term) (x : list Q) :
  h !! e = Some {| w := EncoderW ep; grad := ge |} ->
  h !! d = Some {| w := DecoderW dp; grad := gd |} ->
  autoencoder_forward h {| ae_encoder := e; ae_decoder := d |} x
  = Ok {| out_value := decoder_forward dp (encoder_forward ep x);
          out_ae := {| ae_encoder := e; ae_decoder := d |};
          out_encoder := ep; out_decoder := dp; out_input := x |}.
Proof.
  intros He Hd. unfold autoencoder_forward, lookup_encoder, lookup_decoder. simpl.
  rewrite He. simpl. rewrite Hd. reflexivity.
Qed.

Lemma train_batch_spec (s : world) (v : view) (acc : locals) (b : batch) :
  wf s = true -> has_view s v ->
  let a1 := adam_state (optimizer1 (self s)) in
  let a2 := adam_state (optimizer2 (self s)) in
  exists s',
    train_batch acc b s = (s', Ok (batch_locals b v a1 acc))
    /\ wf s' = true
    /\ has_view s' (batch_view a1 a2 b v)
    /\ self s' = set_optimizer_state Opt2 (adam_tick a2)
                   (set_optimizer_state Opt1 (adam_tick a1) (self s))
    /\ trace s' = trace s ++ batch_events (self s) b
    /\ (forall r, r <> encoder (self s) -> r <> decoder1 (self s) ->
                  r <> decoder2 (self s) -> heap s' !! r = heap s !! r).
Proof.
  intros Hwf Hv a1 a2.
  destruct (wf_inv s Hwf) as (Hed1 & Hed2 & Hd12 & Hae1 & Hae2 & Hp1 & Hp2 & _).
  destruct s as [h m t]. destruct Hv as (He & Hd1 & Hd2). simpl in *.
  destruct b as [[face1_warped face1] [face2_warped face2]].
  destruct v as [e0 ge d10 g1 d20 g2]. simpl in *.
  set (re := encoder m) in *. set (r1 := decoder1 m) in *. set (r2 := decoder2 m) in *.
  (* the first autoencoder *)
  set (h1 := for_modules clear_grad [re; r1] h).
  destruct (for_modules_pair clear_grad re r1 r2 h _ _ _ Hed1 Hed2 Hd12 He Hd1 Hd2)
    as (He1 & Hd11 & Hd21 & Hr1). fold h1 in He1, Hd11, Hd21, Hr1.
  set (t1 := {| lt_encoder := e0; lt_decoder := d10;
                lt_input := face1_warped; lt_target := face1 |}).
  set (h2 := for_modules (add_grad t1) [re; r1] h1).
  destruct (for_modules_pair (add_grad t1) re r1 r2 h1 _ _ _ Hed1 Hed2 Hd12 He1 Hd11 Hd21)
    as (He2 & Hd12' & Hd22 & Hr2). fold h2 in He2, Hd12', Hd22, Hr2.
  set (h3 := for_modules (step_module a1) [re; r1] h2).
  destruct (for_modules_pair (step_module a1) re r1 r2 h2 _ _ _ Hed1 Hed2 Hd12 He2 Hd12' Hd22)
    as (He3 & Hd13 & Hd23 & Hr3). fold h3 in He3, Hd13, Hd23, Hr3.
  (* the second autoencoder *)
  assert (Hd21' : r2 <> r1) by congruence.
  set (h4 := for_modules clear_grad [re; r2] h3).
  destruct (for_modules_pair clear_grad re r2 r1 h3 _ _ _ Hed2 Hed1 Hd21' He3 Hd23 Hd13)
    as (He4 & Hd24 & Hd14 & Hr4). fold h4 in He4, Hd24, Hd14, Hr4.
  simpl in He4, Hd24, Hd14.
  set (e1 := adam_encoder a1 e0 [t1]) in *.
  set (t2 := {| lt_encoder := e1; lt_decoder := d20;
                lt_input := face2_warped; lt_target := face2 |}).
  set (h5 := for_modules (add_grad t2) [re; r2] h4).
  destruct (for_modules_pair (add_grad t2) re r2 r1 h4 _ _ _ Hed2 Hed1 Hd21' He4 Hd24 Hd14)
    as (He5 & Hd25 & Hd15 & Hr5). fold h5 in He5, Hd25, Hd15, Hr5.
  set (h6 := for_modules (step_module a2) [re; r2] h5).
  destruct (for_modules_pair (step_module a2) re r2 r1 h5 _ _ _ Hed2 Hed1 Hd21' He5 Hd25 Hd15)
    as (He6 & Hd26 & Hd16 & Hr6). fold h6 in He6, Hd26, Hd16, Hr6.
  simpl in He6, Hd26, Hd16.
  exists {| heap := h6;
            self := set_optimizer_state Opt2 (adam_tick a2)
                      (set_optimizer_state Opt1 (adam_tick a1) m);
            trace := t ++ batch_events m (face1_warped, face1, (face2_warped, face2)) |}.
  split.
  { unfold train_batch, mbind, mget, zero_grad, call_autoencoder, backward, step, mbind,
      mget, update_heap, log, mmodify, mlift, mret. simpl.
    rewrite ?Hp1, ?Hae1. fold h1.
    rewrite (forward_view h1 re r1 e0 d10 [] [] face1_warped He1 Hd11). simpl.
    rewrite ?Hp1, ?Hp2, ?Hae1, ?Hae2. unfold parameters. simpl.
    fold t1. fold h2. fold a1. fold h3. fold h4.
    rewrite (forward_view h4 re r2 e1 d20 [] [] face2_warped He4 Hd24). simpl.
    rewrite ?Hp1, ?Hp2, ?Hae1, ?Hae2. unfold parameters. simpl.
    fold t2. fold h5. fold a2. fold h6.
    unfold batch_events. rewrite ?Hae1, ?Hae2. unfold parameters. simpl.
    rewrite <- !app_assoc. simpl. reflexivity. }
  assert (Hview : has_view
            {| heap := h6;
               self := set_optimizer_state Opt2 (adam_tick a2)
                         (set_optimizer_state Opt1 (adam_tick a1) m);
               trace := t ++ batch_events m (face1_warped, face1, (face2_warped, face2)) |}
            (batch_view a1 a2 (face1_warped, face1, (face2_warped, face2))
               {| v_encoder := e0; g_encoder := ge; v_decoder1 := d10; g_decoder1 := g1;
                  v_decoder2 := d20; g_decoder2 := g2 |})).
  { unfold has_view. simpl. fold re r1 r2. fold t1. fold e1. fold t2. auto. }
  split.
  { apply (wf_intro _ _) with (8 := Hview); simpl; assumption. }
  split; [exact Hview|].
  split; [reflexivity|]. split; [reflexivity|].
  simpl. intros r Hre Hr1' Hr2'.
  rewrite Hr6, Hr5, Hr4, Hr3, Hr2, Hr1 by assumption. reflexivity.
Qed.

Lemma batch_events_set_optimizer_state (o : optimizer_id) (a : AS)
    (m : DeepFakeOriginal) (b : batch) :
  batch_events (set_optimizer_state o a m) b = batch_events m b.
Proof. destruct b as [[? ?] [? ?]]. reflexivity. Qed.

Lemma train_loop_spec (bs : list batch) : forall (s : world) (acc : locals),
  wf s = true ->
  exists s' acc',
    train_loop bs acc s = (s', Ok acc')
    /\ wf s' = true
    /\ trace s' = trace s ++ flat_map (batch_events (self s)) bs
    /\ iterations acc' = iterations acc + Z.of_nat (length bs)
    /\ (forall b, batch_events (self s') b = batch_events (self s) b)
    /\ (forall r, r <> encoder (self s) -> r <> decoder1 (self s) ->
                  r <> decoder2 (self s) -> heap s' !! r = heap s !! r)
    /\ encoder (self s') = encoder (self s)
    /\ decoder1 (self s') = decoder1 (self s)
    /\ decoder2 (self s') = decoder2 (self s).
Proof.
  induction bs as [|b bs IH]; intros s acc Hwf.
  - exists s, acc. simpl. rewrite app_nil_r, Z.add_0_r. repeat split; auto.
  - destruct (wf_inv s Hwf) as (_ & _ & _ & _ & _ & _ & _ & v & Hv).
    destruct (train_batch_spec s v acc b Hwf Hv) as (s1 & Hrun & Hwf1 & _ & Hself & Ht & Hh).
    destruct (IH s1 (batch_locals b v (adam_state (optimizer1 (self s))) acc) Hwf1)
      as (s' & acc' & Hrun' & Hwf' & Ht' & Hit & Hev & Hh' & Hre & Hr1 & Hr2).
    exists s', acc'. simpl. unfold mbind at 1. rewrite Hrun, Hrun'.
    assert (Hev1 : forall b, batch_events (self s1) b = batch_events (self s) b).
    { intros b'. rewrite Hself, !batch_events_set_optimizer_state. reflexivity. }
    rewrite Hself in Hre, Hr1, Hr2, Hh'. simpl in Hre, Hr1, Hr2, Hh'.
    split; [reflexivity|]. split; [assumption|]. split.
    { rewrite Ht', Ht, <- app_assoc. f_equal. f_equal.
      apply flat_map_ext. intros b'. apply Hev1. }
    split.
    { rewrite Hit. destruct b as [[? ?] [? ?]]. simpl. lia. }
    split; [intros b'; rewrite Hev; apply Hev1|].
    split; [|auto].
    intros r H1 H2 H3. rewrite Hh', Hh by assumption. reflexivity.
Qed.

Lemma anonymize_spec (s : world) (v : view) (x : list Q) :
  wf s = true -> has_view s v ->
  anonymize x s
  = ({| heap := heap s; self := self s;
        trace := trace s ++ [Forward (autoencoder2 (self s)) x] |},
     Ok (decoder_forward (v_decoder2 v) (encoder_forward (v_encoder v) x)))
  /\ anonymize_2 x s
    = ({| heap := heap s; self := self s;
          trace := trace s ++ [Forward (autoencoder1 (self s)) x] |},
       Ok (decoder_forward (v_decoder1 v) (encoder_forward (v_encoder v) x))).
Proof.
  intros Hwf (He & Hd1 & Hd2).
  destruct (wf_inv s Hwf) as (_ & _ & _ & Hae1 & Hae2 & _).
  unfold anonymize, anonymize_2, call_autoencoder, mbind, mget, mlift, log, mmodify, mret.
  rewrite Hae1, Hae2.
  rewrite (forward_view _ _ _ _ _ _ _ x He Hd2), (forward_view _ _ _ _ _ _ _ x He Hd1).
  split; reflexivity.
Qed.


Lemma scheduler_call_spec (o : optimizer_id) (l : Q) (epoch : Z) (s : world) :
  wf s = true ->
  exists s',
    scheduler_call o l epoch s = (s', Ok tt)
    /\ wf s' = true
    /\ trace s' = trace s ++ [SchedulerStep o l epoch]
    /\ heap s' = heap s
    /\ autoencoder1 (self s') = autoencoder1 (self s)
    /\ autoencoder2 (self s') = autoencoder2 (self s).
Proof.
  intros Hwf.
  destruct (wf_inv s Hwf) as (H1 & H2 & H3 & H4 & H5 & H6 & H7 & v & Hv).
  unfold scheduler_call, mmodify.
  destruct (scheduler_step _ l epoch _) as [sched' a].
  eexists. split; [reflexivity|].
  split; [|destruct o; simpl; auto].
  apply (wf_intro _ v); destruct o; simpl; auto.
Qed.



End Model.

(** *** A concrete instance

    Weights are single rationals: the encoder scales its input, a decoder
    shifts it; an Adam step moves a weight by the number of accumulated
    loss terms. *)

Definition demo_encoder_forward (p : Q) (x : list Q) : list Q := map (Qmult p) x.
Definition demo_decoder_forward (p : Q) (x : list Q) : list Q := map (Qplus p) x.
Definition demo_adam (a : nat) (p : Q) (g : list (loss_term Q Q)) : Q :=
  (p - inject_Z (Z.of_nat (length g)))%Q.
Definition demo_scheduler_step (ss : unit) (l : Q) (epoch : Z) (a : nat) : unit * nat :=
  (tt, a).

Definition demo_world : world Q Q nat unit unit :=
  init Q Q nat unit unit O tt (fun _ => 2%Q) (fun _ => 1%Q) tt Build_AutoEncoder ∅.

Definition demo_view : view Q Q :=
  {| v_encoder := 2%Q; g_encoder := []; v_decoder1 := 1%Q; g_decoder1 := [];
     v_decoder2 := 1%Q; g_decoder2 := [] |}.

Definition demo_batch : batch := (([1%Q], [3%Q]), ([2%Q], [4%Q])).

Definition demo_anonymize (x : list Q) : M (world Q Q nat unit unit) (list Q) :=
  anonymize Q Q nat unit unit demo_encoder_forward demo_decoder_forward x.

Definition demo_train (bs : list batch)
  : M (world Q Q nat unit unit) (Q * Q * list (list Q)) :=
  train Q Q nat unit unit demo_encoder_forward demo_decoder_forward
        demo_adam demo_adam S demo_scheduler_step bs 64 0.

Example demo_refs :
  let m := self Q Q nat unit unit demo_world in
  (encoder _ _ _ m, decoder1 _ _ _ m, decoder2 _ _ _ m) = (0, 1, 2)%nat.
Proof. vm_compute. reflexivity. Qed.

Example demo_anonymize_value : snd (demo_anonymize [1%Q; 2%Q] demo_world) = Ok [3%Q; 5%Q].
Proof. vm_compute. reflexivity. Qed.


End DeepFake.

(** ** Models/CPGGAN/CPGGAN.py *)

Module CPGGAN.

(** The value added to the previous level when the fade-in quotient is
    zero: [1e-10]. *)
Definition tiny : Q := (1 # 10000000000)%Q.

(** The values of a [log_info] dictionary: a number, or a dictionary of
    numbers. *)
Inductive log_value : Type :=
| LNum (q : Q)
| LDict (d : list (string * Q)).

Inductive flow : Set := Continue | Break.



(** [resolution_level - 1 + (f if f != 0 else 1e-10)]: the integer
    [resolution_level - 1] is converted to a float and the sum is
    rounded; [1e-10] is the float nearest to [tiny]. *)
Definition fading_level (fl : Q -> Q) (level : Z) (factor : Q) : Q :=
  fl (fl (inject_Z (level - 1)) + (if negb (Qeq_bool factor 0) then factor else fl tiny))%Q.

(** [a / b] on two Python integers. *)
Definition quotient (a b : Z) : Q := (inject_Z a / inject_Z b)%Q.



















Section Model.
(** Two-dimensional tensors (noise, features), image batches, the weights
    of the generator and of the discriminator, and the states of their
    optimizers. *)
Variables Vec Img GP DP GO DO : Type.

(** The rounding of float arithmetic in the level computation. *)
Variable fl : Q -> Q.

(** Tensor primitives: [torch.cat([a, b], 1)] on vectors and on images,
    [x[:n]], and [features.view((n, -1, 1, 1)).repeat((1, 1, h, h))] with
    [h = images.shape[2]]. *)
Variable cat_vec : Vec -> Vec -> Vec.
Variable cat_img : Img -> Img -> Img.
Variable slice : Vec -> Z -> Vec.
Variable fill : Vec -> Z -> Img -> Img.

(** [self.noise(n)]: the [k]-th draw of [n] noise vectors. *)
Variable noise : Z -> nat -> Vec.

(** The forward passes: [G(input_vec, cur_level=l)] and
    [D(input_img, cur_level=l)], the latter in training or evaluation
    mode, one critic value per image. *)
Variable G_forward : GP -> Vec -> Q -> Img.
Variable D_forward : DP -> bool -> Img -> Q -> list Q.

(** [self.calculate_gradient_penalty(real, fake, cur_level)], defined in
    the parent class. *)
Variable calculate_gradient_penalty : DP -> bool -> Img -> Img -> Q -> Q.

(** The scalars on which [backward()] is called, with the weights and the
    mode they were computed under. *)
Inductive loss_term : Type :=
| LossReal (d : DP) (mode : bool) (real : Img) (level : Q)
| LossFake (d : DP) (mode : bool) (fake : Img) (level : Q)
| LossPenalty (d : DP) (mode : bool) (real fake : Img) (level : Q)
| LossGenerator (g : GP) (d : DP) (mode : bool) (input_vec : Vec)
                (features_fill : Img) (level : Q).

(** One optimizer step from the accumulated gradient. *)
Variable D_step : DO -> DP -> list loss_term -> DO * DP.
Variable G_step : GO -> GP -> list loss_term -> GO * GP.

Record CPGGAN : Type := {
  stabilization_phase : bool;
  resolution_level : Z;
  images_faded_in : Z;
  images_per_fading_phase : Z;
  batch_size : Z;
  static_noise : Vec;
  static_landmarks : Vec;
  static_lowres : Vec;
  G : GP;
  D : DP;
  D_training : bool;
  G_optimizer : GO;
  D_optimizer : DO;
  G_grad : list loss_term;
  D_grad : list loss_term;
  noise_draws : nat
}.

(** [self.schedule_resolution()] and
    [self.data_loader.get_train_data_loader()], both defined outside
    CPGGAN.py. A loader is the list of its batches [(images, features)]. *)
Variable schedule_resolution : CPGGAN -> CPGGAN.
Variable get_train_data_loader : CPGGAN -> list (Img * Vec).

(** Calls on the networks and optimizers, in program order. *)
Inductive event : Type :=
| D_train (mode : bool)
| D_zero_grad
| D_call (input_img : Img) (cur_level : Q)
| G_call (input_vec : Vec) (cur_level : Q)
| GP_call (real fake : Img) (cur_level : Q)
| Backward (t : loss_term)
| D_optimizer_step (grad : list loss_term)
| G_zero_grad
| G_optimizer_step (grad : list loss_term).

Record st : Type := { self : CPGGAN; trace : list event }.

(** The value of the scalar a term stands for. *)
Definition term_value (t : loss_term) : Q :=
  match t with
  | LossReal d mode real level =>
      let out := D_forward d mode real level in
      (- Qmean out + (1 # 1000) * Qmean (map (fun x => x * x) out))%Q
  | LossFake d mode fake level => Qmean (D_forward d mode fake level)
  | LossPenalty d mode real fake level => calculate_gradient_penalty d mode real fake level
  | LossGenerator g d mode input_vec features_fill level =>
      (- Qmean (D_forward d mode (cat_img (G_forward g input_vec level) features_fill)
                          level))%Q
  end.

(** *** Updates of [self] *)

Definition with_schedule (faded : Z) (s : CPGGAN) : CPGGAN :=
  {| stabilization_phase := stabilization_phase s;
     resolution_level := resolution_level s;
     images_faded_in := faded;
     images_per_fading_phase := images_per_fading_phase s;
     batch_size := batch_size s;
     static_noise := static_noise s;
     static_landmarks := static_landmarks s;
     static_lowres := static_lowres s;
     G := G s; D := D s; D_training := D_training s;
     G_optimizer := G_optimizer s; D_optimizer := D_optimizer s;
     G_grad := G_grad s; D_grad := D_grad s;
     noise_draws := noise_draws s |}.

Definition with_networks (g : GP) (d : DP) (mode : bool) (go : GO) (d_o : DO)
    (gg dg : list loss_term) (draws : nat) (s : CPGGAN) : CPGGAN :=
  {| stabilization_phase := stabilization_phase s;
     resolution_level := resolution_level s;
     images_faded_in := images_faded_in s;
     images_per_fading_phase := images_per_fading_phase s;
     batch_size := batch_size s;
     static_noise := static_noise s;
     static_landmarks := static_landmarks s;
     static_lowres := static_lowres s;
     G := g; D := d; D_training := mode;
     G_optimizer := go; D_optimizer := d_o;
     G_grad := gg; D_grad := dg;
     noise_draws := draws |}.

Definition modify_self (f : CPGGAN -> CPGGAN) : M st unit :=
  mmodify (fun x => {| self := f (self x); trace := trace x |}).

Definition get_self : M st CPGGAN :=
  fun x => (x, Ok (self x)).

Definition emit (ev : event) : M st unit :=
  mmodify (fun x => {| self := self x; trace := trace x ++ [ev] |}).

Definition when (c : bool) (m : M st unit) : M st unit :=
  if c then m else mret tt.

(** [self.D.train(mode)] *)
Definition D_set_train (mode : bool) : M st unit :=
  modify_self (fun s => with_networks (G s) (D s) mode (G_optimizer s) (D_optimizer s)
                                      (G_grad s) (D_grad s) (noise_draws s) s) ;;
  emit (D_train mode).

(** [self.D_optimizer.zero_grad()] and [self.G_optimizer.zero_grad()] *)
Definition D_optimizer_zero_grad : M st unit :=
  modify_self (fun s => with_networks (G s) (D s) (D_training s) (G_optimizer s)
                                      (D_optimizer s) (G_grad s) [] (noise_draws s) s) ;;
  emit D_zero_grad.

Definition G_optimizer_zero_grad : M st unit :=
  modify_self (fun s => with_networks (G s) (D s) (D_training s) (G_optimizer s)
                                      (D_optimizer s) [] (D_grad s) (noise_draws s) s) ;;
  emit G_zero_grad.

(** [self.noise(self.batch_size)] *)
Definition draw_noise : M st Vec :=
  let* s := get_self in
  modify_self (fun s => with_networks (G s) (D s) (D_training s) (G_optimizer s)
                                      (D_optimizer s) (G_grad s) (D_grad s)
                                      (S (noise_draws s)) s) ;;
  mret (noise (batch_size s) (noise_draws s)).

(** [self.D(x, cur_level=l)] and [self.G(z, cur_level=l)] *)
Definition call_D (x : Img) (level : Q) : M st (list Q) :=
  let* s := get_self in
  emit (D_call x level) ;;
  mret (D_forward (D s) (D_training s) x level).

Definition call_G (z : Vec) (level : Q) : M st Img :=
  let* s := get_self in
  emit (G_call z level) ;;
  mret (G_forward (G s) z level).

Definition call_gradient_penalty (real fake : Img) (level : Q) : M st Q :=
  let* s := get_self in
  emit (GP_call real fake level) ;;
  mret (calculate_gradient_penalty (D s) (D_training s) real fake level).

(** [loss.backward()]: the gradient is accumulated in the parameters the
    loss depends on; only the generator loss depends on the generator. *)
Definition backward (t : loss_term) : M st unit :=
  modify_self (fun s =>
    with_networks (G s) (D s) (D_training s) (G_optimizer s) (D_optimizer s)
                  (match t with
                   | LossGenerator _ _ _ _ _ _ => G_grad s ++ [t]
                   | _ => G_grad s
                   end)
                  (D_grad s ++ [t]) (noise_draws s) s) ;;
  emit (Backward t).

(** [self.D_optimizer.step()] and [self.G_optimizer.step()] *)
Definition D_optimizer_do_step : M st unit :=
  let* s := get_self in
  let (d_o, d) := D_step (D_optimizer s) (D s) (D_grad s) in
  modify_self (fun s => with_networks (G s) d (D_training s) (G_optimizer s) d_o
                                      (G_grad s) (D_grad s) (noise_draws s) s) ;;
  emit (D_optimizer_step (D_grad s)).

Definition G_optimizer_do_step : M st unit :=
  let* s := get_self in
  let (go, g) := G_step (G_optimizer s) (G s) (G_grad s) in
  modify_self (fun s => with_networks g (D s) (D_training s) go (D_optimizer s)
                                      (G_grad s) (D_grad s) (noise_draws s) s) ;;
  emit (G_optimizer_step (G_grad s)).

(** *** The training loop *)

(** The locals of [train] that outlive an iteration; [cur_level] and
    [G_fake] are unbound before the first batch. *)
Record locals : Type := {
  g_loss_summed : Q;
  d_loss_summed : Q;
  wasserstein_d_summed : Q;
  eps_summed : Q;
  iterations : Z;
  cur_level : option Q;
  G_fake : option Img
}.

Definition initial_locals : locals :=
  {| g_loss_summed := 0; d_loss_summed := 0; wasserstein_d_summed := 0; eps_summed := 0;
     iterations := 0; cur_level := None; G_fake := None |}.

(** Lines 71-77: the fade-in factor and the effective level. The
    quotient of the two integers and the sum are rounded. *)
Definition effective_level (s : CPGGAN) : result (Q * Q) :=
  if stabilization_phase s then
    Ok (0%Q, inject_Z (resolution_level s))
  else
    q <-! py_div (inject_Z (images_faded_in s)) (images_per_fading_phase s);
    let fade_in_factor := fl q in
    Ok (fade_in_factor,
        fl (fl (inject_Z (resolution_level s - 1))
            + (if negb (Qeq_bool fade_in_factor 0) then fade_in_factor else fl tiny))%Q).

(** The body of the loop of [train]. *)
Definition train_batch (validate : bool) (acc : locals) (b : Img * Vec)
  : M st (flow * locals) :=
  let (images, features) := b in
  let* s := get_self in
  let* fl := mlift (effective_level s) in
  let (fade_in_factor, cur_level) := (fl : Q * Q) in
  (* differentiate between validation and training *)
  let* nf :=
    (if validate then
       mret (slice (static_noise s) (batch_size s),
             cat_vec (slice (static_landmarks s) (batch_size s))
                     (slice (static_lowres s) (batch_size s)))
     else
       let* noise := draw_noise in mret (noise, features)) in
  let (noise, features) := (nf : Vec * Vec) in
  let input_vec := cat_vec noise features in
  let features_fill := fill features (batch_size s) images in
  let input_img_real := cat_img images features_fill in
  (* (1) Update D network *)
  when (negb validate) (D_set_train true ;; D_optimizer_zero_grad) ;;
  let* s1 := get_self in
  let* D_real := call_D input_img_real cur_level in
  let eps_loss := Qmean (map (fun x => x * x)%Q D_real) in
  let eps_loss := ((1 # 1000) * eps_loss)%Q in
  let D_real := (- Qmean D_real + eps_loss)%Q in
  when (negb validate)
       (backward (LossReal (D s1) (D_training s1) input_img_real cur_level)) ;;
  let* G_fake := call_G input_vec cur_level in
  if validate then
    (* Validate only generated image *)
    mret (Break,
          {| g_loss_summed := g_loss_summed acc; d_loss_summed := d_loss_summed acc;
             wasserstein_d_summed := wasserstein_d_summed acc;
             eps_summed := eps_summed acc; iterations := iterations acc;
             cur_level := Some cur_level; G_fake := Some G_fake |})
  else
    let input_img_fake := cat_img G_fake features_fill in
    let* D_fake := call_D input_img_fake cur_level in
    let D_fake := Qmean D_fake in
    when (negb validate)
         (backward (LossFake (D s1) (D_training s1) input_img_fake cur_level)) ;;
    let* gp := call_gradient_penalty input_img_real input_img_fake cur_level in
    when (negb validate)
         (backward (LossPenalty (D s1) (D_training s1) input_img_real input_img_fake
                                cur_level)) ;;
    let D_loss := (D_fake - D_real + gp)%Q in
    let Wasserstein_D := (D_real - D_fake)%Q in
    when (negb validate) D_optimizer_do_step ;;
    (* (2) Update G network *)
    when (negb validate) (D_set_train false ;; G_optimizer_zero_grad) ;;
    let* s2 := get_self in
    let* D_fake := call_D input_img_fake cur_level in
    let D_fake := (- Qmean D_fake)%Q in
    when (negb validate)
         (backward (LossGenerator (G s2) (D s2) (D_training s2) input_vec features_fill
                                  cur_level) ;;
          G_optimizer_do_step) ;;
    let G_loss := D_fake in
    when (negb (stabilization_phase s) && negb validate)
         (modify_self (fun s => with_schedule (images_faded_in s + batch_size s) s)) ;;
    mret (Continue,
          {| g_loss_summed := (g_loss_summed acc + G_loss)%Q;
             d_loss_summed := (d_loss_summed acc + D_loss)%Q;
             wasserstein_d_summed := (wasserstein_d_summed acc + Wasserstein_D)%Q;
             eps_summed := (eps_summed acc + eps_loss)%Q;
             iterations := iterations acc + 1;
             cur_level := Some cur_level; G_fake := Some G_fake |}).

(** [for images, features in train_data_loader: ...] with [break]. *)
Fixpoint train_loop (validate : bool) (loader : list (Img * Vec)) (acc : locals)
  : M st locals :=
  match loader with
  | [] => mret acc
  | b :: rest =>
      let* r := train_batch validate acc b in
      match r with
      | (Break, acc) => mret acc
      | (Continue, acc) => train_loop validate rest acc
      end
  end.

(** Reading a local that may be unbound. *)
Definition local {A} (x : option A) : M st A :=
  mlift (match x with Some a => Ok a | None => Raise UnboundLocalError end).

(** [train(self, train_data_loader, batch_size, validate, **kwargs)] *)
Definition train (train_data_loader : list (Img * Vec)) (batch_size_arg : Z)
    (validate : bool) : M st (list (string * log_value) * Img) :=
  let* train_data_loader :=
    (if negb validate then
       modify_self schedule_resolution ;;
       let* s := get_self in mret (get_train_data_loader s)
     else mret train_data_loader) in
  let* acc := train_loop validate train_data_loader initial_locals in
  if negb validate then
    let* g_loss_summed := mlift (py_div (g_loss_summed acc) (iterations acc)) in
    let* d_loss_summed := mlift (py_div (d_loss_summed acc) (iterations acc)) in
    let* cur_level := local (cur_level acc) in
    let log_info := [("loss"%string, LDict [("lossG"%string, g_loss_summed);
                                            ("lossD"%string, d_loss_summed)]);
                     ("info/WassersteinDistance"%string, LNum (wasserstein_d_summed acc));
                     ("info/eps"%string, LNum (eps_summed acc));
                     ("info/curr_level"%string, LNum cur_level)] in
    let* log_img := local (G_fake acc) in
    mret (log_info, log_img)
  else
    let log_info := [] in
    let* log_img := local (G_fake acc) in
    mret (log_info, log_img).

(** *** One training iteration, value by value *)

(** The effective level as a number; the division is only meaningful when
    [can_level] holds. *)
Definition fade_in_factor_of (s : CPGGAN) : Q :=
  if stabilization_phase s then 0%Q
  else fl (quotient (images_faded_in s) (images_per_fading_phase s)).

Definition level_of (s : CPGGAN) : Q :=
  if stabilization_phase s then inject_Z (resolution_level s)
  else fading_level fl (resolution_level s) (fade_in_factor_of s).

Definition can_level (s : CPGGAN) : bool :=
  stabilization_phase s || negb (Z.eqb (images_per_fading_phase s) 0).

(** The tensors and loss terms of a training iteration started in state
    [s] on the batch [(images, features)]. *)
Definition b_noise (s : CPGGAN) : Vec := noise (batch_size s) (noise_draws s).

Definition b_input_vec (s : CPGGAN) (b : Img * Vec) : Vec := cat_vec (b_noise s) (snd b).

Definition b_features_fill (s : CPGGAN) (b : Img * Vec) : Img :=
  fill (snd b) (batch_size s) (fst b).

Definition b_input_img_real (s : CPGGAN) (b : Img * Vec) : Img :=
  cat_img (fst b) (b_features_fill s b).

Definition b_G_fake (s : CPGGAN) (b : Img * Vec) : Img :=
  G_forward (G s) (b_input_vec s b) (level_of s).

Definition b_input_img_fake (s : CPGGAN) (b : Img * Vec) : Img :=
  cat_img (b_G_fake s b) (b_features_fill s b).

Definition b_loss_real (s : CPGGAN) (b : Img * Vec) : loss_term :=
  LossReal (D s) true (b_input_img_real s b) (level_of s).

Definition b_loss_fake (s : CPGGAN) (b : Img * Vec) : loss_term :=
  LossFake (D s) true (b_input_img_fake s b) (level_of s).

Definition b_loss_penalty (s : CPGGAN) (b : Img * Vec) : loss_term :=
  LossPenalty (D s) true (b_input_img_real s b) (b_input_img_fake s b) (level_of s).

Definition b_D_grad (s : CPGGAN) (b : Img * Vec) : list loss_term :=
  [b_loss_real s b; b_loss_fake s b; b_loss_penalty s b].

Definition b_D_stepped (s : CPGGAN) (b : Img * Vec) : DO * DP :=
  D_step (D_optimizer s) (D s) (b_D_grad s b).

Definition b_loss_generator (s : CPGGAN) (b : Img * Vec) : loss_term :=
  LossGenerator (G s) (snd (b_D_stepped s b)) false (b_input_vec s b)
                (b_features_fill s b) (level_of s).

Definition b_G_stepped (s : CPGGAN) (b : Img * Vec) : GO * GP :=
  G_step (G_optimizer s) (G s) [b_loss_generator s b].

(** The reported scalars of the iteration, as the code computes them. *)
Definition b_D_real_out (s : CPGGAN) (b : Img * Vec) : list Q :=
  D_forward (D s) true (b_input_img_real s b) (level_of s).

Definition b_eps_loss (s : CPGGAN) (b : Img * Vec) : Q :=
  ((1 # 1000) * Qmean (map (fun x => x * x)%Q (b_D_real_out s b)))%Q.

Definition b_D_real (s : CPGGAN) (b : Img * Vec) : Q :=
  (- Qmean (b_D_real_out s b) + b_eps_loss s b)%Q.

Definition b_D_fake (s : CPGGAN) (b : Img * Vec) : Q :=
  Qmean (D_forward (D s) true (b_input_img_fake s b) (level_of s)).

Definition b_gp (s : CPGGAN) (b : Img * Vec) : Q :=
  calculate_gradient_penalty (D s) true (b_input_img_real s b) (b_input_img_fake s b)
                             (level_of s).

Definition b_D_loss (s : CPGGAN) (b : Img * Vec) : Q :=
  (b_D_fake s b - b_D_real s b + b_gp s b)%Q.

Definition b_Wasserstein_D (s : CPGGAN) (b : Img * Vec) : Q :=
  (b_D_real s b - b_D_fake s b)%Q.

Definition b_G_loss (s : CPGGAN) (b : Img * Vec) : Q :=
  (- Qmean (D_forward (snd (b_D_stepped s b)) false (b_input_img_fake s b) (level_of s)))%Q.

(** The calls of a training iteration. *)
Definition batch_events (s : CPGGAN) (b : Img * Vec) : list event :=
  [D_train true; D_zero_grad;
   D_call (b_input_img_real s b) (level_of s);
   Backward (b_loss_real s b);
   G_call (b_input_vec s b) (level_of s);
   D_call (b_input_img_fake s b) (level_of s);
   Backward (b_loss_fake s b);
   GP_call (b_input_img_real s b) (b_input_img_fake s b) (level_of s);
   Backward (b_loss_penalty s b);
   D_optimizer_step (b_D_grad s b);
   D_train false; G_zero_grad;
   D_call (b_input_img_fake s b) (level_of s);
   Backward (b_loss_generator s b);
   G_optimizer_step [b_loss_generator s b]].

(** [self] after a training iteration. *)
Definition batch_self (s : CPGGAN) (b : Img * Vec) : CPGGAN :=
  let s' := with_networks (snd (b_G_stepped s b)) (snd (b_D_stepped s b)) false
                          (fst (b_G_stepped s b)) (fst (b_D_stepped s b))
                          [b_loss_generator s b]
                          (b_D_grad s b ++ [b_loss_generator s b])
                          (S (noise_draws s)) s in
  if stabilization_phase s then s'
  else with_schedule (images_faded_in s + batch_size s) s'.

Definition batch_locals (s : CPGGAN) (b : Img * Vec) (acc : locals) : locals :=
  {| g_loss_summed := (g_loss_summed acc + b_G_loss s b)%Q;
     d_loss_summed := (d_loss_summed acc + b_D_loss s b)%Q;
     wasserstein_d_summed := (wasserstein_d_summed acc + b_Wasserstein_D s b)%Q;
     eps_summed := (eps_summed acc + b_eps_loss s b)%Q;
     iterations := iterations acc + 1;
     cur_level := Some (level_of s);
     G_fake := Some (b_G_fake s b) |}.

(** A whole training loop. *)
Fixpoint loop_self (s : CPGGAN) (loader : list (Img * Vec)) : CPGGAN :=
  match loader with
  | [] => s
  | b :: rest => loop_self (batch_self s b) rest
  end.

Fixpoint loop_events (s : CPGGAN) (loader : list (Img * Vec)) : list event :=
  match loader with
  | [] => []
  | b :: rest => batch_events s b ++ loop_events (batch_self s b) rest
  end.

Fixpoint loop_locals (s : CPGGAN) (loader : list (Img * Vec)) (acc : locals) : locals :=
  match loader with
  | [] => acc
  | b :: rest => loop_locals (batch_self s b) rest (batch_locals s b acc)
  end.

(** The state at the start of each iteration. *)
Fixpoint loop_states (s : CPGGAN) (loader : list (Img * Vec)) : list CPGGAN :=
  match loader with
  | [] => []
  | b :: rest => s :: loop_states (batch_self s b) rest
  end.

Lemma effective_level_ok (s : CPGGAN) :
  can_level s = true -> effective_level s = Ok (fade_in_factor_of s, level_of s).
Proof.
  unfold can_level, effective_level, level_of, fading_level, fade_in_factor_of, py_div.
  destruct (stabilization_phase s); simpl; [reflexivity|].
  destruct (Z.eqb (images_per_fading_phase s) 0); simpl; [discriminate|reflexivity].
Qed.

Lemma effective_level_zero_division (s : CPGGAN) :
  can_level s = false -> effective_level s = Raise ZeroDivisionError.
Proof.
  unfold can_level, effective_level, py_div.
  destruct (stabilization_phase s); simpl; [discriminate|].
  destruct (Z.eqb (images_per_fading_phase s) 0); simpl; [reflexivity|discriminate].
Qed.

Lemma train_batch_training (s : CPGGAN) (t : list event) (acc : locals) (b : Img * Vec) :
  can_level s = true ->
  train_batch false acc b {| self := s; trace := t |}
  = ({| self := batch_self s b; trace := t ++ batch_events s b |},
     Ok (Continue, batch_locals s b acc)).
Proof.
  intros Hlevel. destruct b as [images features].
  unfold train_batch, mbind, get_self, mlift. simpl.
  rewrite (effective_level_ok s Hlevel). simpl.
  unfold batch_self, batch_events, batch_locals, b_G_loss, b_D_loss, b_Wasserstein_D,
    b_gp, b_D_fake, b_D_real, b_eps_loss, b_D_real_out, b_G_stepped, b_loss_generator,
    b_D_stepped, b_D_grad, b_loss_penalty, b_loss_fake, b_loss_real, b_input_img_fake,
    b_G_fake, b_input_img_real, b_features_fill, b_input_vec, b_noise.
  unfold D_optimizer_do_step, G_optimizer_do_step, mbind, get_self. simpl.
  destruct (D_step _ _ _) as [d_o d] eqn:HD. simpl.
  destruct (G_step _ _ _) as [go g] eqn:HG. simpl.
  destruct (stabilization_phase s) eqn:Hstab; simpl;
    rewrite <- !app_assoc; simpl; reflexivity.
Qed.

Lemma batch_self_schedule (s : CPGGAN) (b : Img * Vec) :
  stabilization_phase (batch_self s b) = stabilization_phase s
  /\ resolution_level (batch_self s b) = resolution_level s
  /\ images_per_fading_phase (batch_self s b) = images_per_fading_phase s
  /\ batch_size (batch_self s b) = batch_size s
  /\ images_faded_in (batch_self s b)
     = (if stabilization_phase s then images_faded_in s
        else images_faded_in s + batch_size s)
  /\ noise_draws (batch_self s b) = S (noise_draws s).
Proof.
  unfold batch_self.
  destruct (stabilization_phase s) eqn:H; simpl; repeat split; try reflexivity; assumption.
Qed.

Lemma can_level_batch_self (s : CPGGAN) (b : Img * Vec) :
  can_level (batch_self s b) = can_level s.
Proof.
  destruct (batch_self_schedule s b) as (H1 & _ & H2 & _).
  unfold can_level. rewrite H1, H2. reflexivity.
Qed.

Lemma train_loop_training (loader : list (Img * Vec)) :
  forall (s : CPGGAN) (t : list event) (acc : locals),
    can_level s = true ->
    train_loop false loader acc {| self := s; trace := t |}
    = ({| self := loop_self s loader; trace := t ++ loop_events s loader |},
       Ok (loop_locals s loader acc)).
Proof.
  induction loader as [|b rest IH]; intros s t acc Hlevel; simpl.
  - rewrite app_nil_r. reflexivity.
  - unfold mbind at 1. rewrite train_batch_training by assumption.
    rewrite IH by (rewrite can_level_batch_self; assumption).
    rewrite <- app_assoc. reflexivity.
Qed.

(** In a fading phase without images to fade in, the first batch raises. *)
Lemma train_batch_zero_division (validate : bool) (s : CPGGAN) (t : list event)
    (acc : locals) (b : Img * Vec) :
  can_level s = false ->
  train_batch validate acc b {| self := s; trace := t |}
  = ({| self := s; trace := t |}, Raise ZeroDivisionError).
Proof.
  intros H. destruct b as [images features].
  unfold train_batch, mbind, get_self, mlift. simpl.
  rewrite (effective_level_zero_division s H). reflexivity.
Qed.

(** *** A validation call *)

Definition v_noise (s : CPGGAN) : Vec := slice (static_noise s) (batch_size s).

Definition v_features (s : CPGGAN) : Vec :=
  cat_vec (slice (static_landmarks s) (batch_size s))
          (slice (static_lowres s) (batch_size s)).

Definition v_input_vec (s : CPGGAN) : Vec := cat_vec (v_noise s) (v_features s).

Definition v_input_img_real (s : CPGGAN) (images : Img) : Img :=
  cat_img images (fill (v_features s) (batch_size s) images).

Definition v_G_fake (s : CPGGAN) : Img := G_forward (G s) (v_input_vec s) (level_of s).

Definition is_update (ev : event) : bool :=
  match ev with
  | Backward _ | D_optimizer_step _ | G_optimizer_step _ => true
  | _ => false
  end.

Lemma train_batch_validate (s : CPGGAN) (t : list event) (acc : locals) (b : Img * Vec) :
  can_level s = true ->
  train_batch true acc b {| self := s; trace := t |}
  = ({| self := s;
        trace := t ++ [D_call (v_input_img_real s (fst b)) (level_of s);
                       G_call (v_input_vec s) (level_of s)] |},
     Ok (Break,
         {| g_loss_summed := g_loss_summed acc; d_loss_summed := d_loss_summed acc;
            wasserstein_d_summed := wasserstein_d_summed acc;
            eps_summed := eps_summed acc; iterations := iterations acc;
            cur_level := Some (level_of s); G_fake := Some (v_G_fake s) |})).
Proof.
  intros Hlevel. destruct b as [images features].
  unfold train_batch, mbind, get_self, mlift. simpl.
  rewrite (effective_level_ok s Hlevel). simpl.
  rewrite <- app_assoc. reflexivity.
Qed.

(** *** Reported losses *)

Fixpoint loop_G_losses (s : CPGGAN) (loader : list (Img * Vec)) : list Q :=
  match loader with
  | [] => []
  | b :: rest => b_G_loss s b :: loop_G_losses (batch_self s b) rest
  end.

(** The values of the generator losses on which [backward()] was called. *)
Definition generator_losses (t : list event) : list Q :=
  omap (fun ev => match ev with
                  | Backward (LossGenerator g d mode z f l) =>
                      Some (term_value (LossGenerator g d mode z f l))
                  | _ => None
                  end) t.

Definition is_G_step (ev : event) : bool :=
  match ev with G_optimizer_step _ => true | _ => false end.

Lemma generator_losses_loop (loader : list (Img * Vec)) : forall s : CPGGAN,
  generator_losses (loop_events s loader) = loop_G_losses s loader.
Proof.
  induction loader as [|b rest IH]; intros s; [reflexivity|].
  cbn [loop_events loop_G_losses]. unfold generator_losses in *.
  rewrite omap_app, IH. reflexivity.
Qed.

Lemma loop_locals_iterations (loader : list (Img * Vec)) : forall s acc,
  iterations (loop_locals s loader acc) = iterations acc + Z.of_nat (length loader).
Proof.
  induction loader as [|b rest IH]; intros s acc; simpl; [lia|].
  rewrite IH. simpl. lia.
Qed.

Lemma loop_locals_g_loss (loader : list (Img * Vec)) : forall s acc,
  (g_loss_summed (loop_locals s loader acc)
   == g_loss_summed acc + Qsum (loop_G_losses s loader))%Q.
Proof.
  induction loader as [|b rest IH]; intros s acc; simpl.
  - ring.
  - rewrite IH. simpl. ring.
Qed.

Lemma loop_locals_bound (loader : list (Img * Vec)) : forall s acc,
  loader <> [] ->
  exists l img, cur_level (loop_locals s loader acc) = Some l
                /\ G_fake (loop_locals s loader acc) = Some img.
Proof.
  induction loader as [|b rest IH]; intros s acc Hne; [contradiction|].
  destruct rest as [|b' rest']; [simpl; eauto|].
  simpl in *. apply IH. discriminate.
Qed.

Lemma loop_length (loader : list (Img * Vec)) : forall s,
  length (loop_G_losses s loader) = length loader
  /\ length (loop_states s loader) = length loader.
Proof.
  induction loader as [|b rest IH]; intros s; simpl; [auto|].
  destruct (IH (batch_self s b)) as [-> ->]. auto.
Qed.

Lemma loop_events_batches (loader : list (Img * Vec)) : forall s,
  loop_events s loader = concat (zip_with batch_events (loop_states s loader) loader).
Proof.
  induction loader as [|b rest IH]; intros s; simpl; [reflexivity|].
  rewrite IH. reflexivity.
Qed.

(** *** The conditioning features *)

Definition with_static (n lm lr : Vec) (s : CPGGAN) : CPGGAN :=
  {| stabilization_phase := stabilization_phase s;
     resolution_level := resolution_level s;
     images_faded_in := images_faded_in s;
     images_per_fading_phase := images_per_fading_phase s;
     batch_size := batch_size s;
     static_noise := n;
     static_landmarks := lm;
     static_lowres := lr;
     G := G s; D := D s; D_training := D_training s;
     G_optimizer := G_optimizer s; D_optimizer := D_optimizer s;
     G_grad := G_grad s; D_grad := D_grad s;
     noise_draws := noise_draws s |}.

Lemma batch_events_with_static (n lm lr : Vec) (s : CPGGAN) (b : Img * Vec) :
  batch_events (with_static n lm lr s) b = batch_events s b
  /\ batch_self (with_static n lm lr s) b = with_static n lm lr (batch_self s b).
Proof.
  split; [reflexivity|].
  unfold batch_self. simpl. destruct (stabilization_phase s); reflexivity.
Qed.

Lemma loop_events_with_static (n lm lr : Vec) (loader : list (Img * Vec)) :
  forall s, loop_events (with_static n lm lr s) loader = loop_events s loader.
Proof.
  induction loader as [|b rest IH]; intros s; [reflexivity|].
  cbn [loop_events].
  destruct (batch_events_with_static n lm lr s b) as [-> ->]. rewrite IH. reflexivity.
Qed.

(** *** Whole calls of [train] *)

Definition training_log_info (acc : locals) (level : Q) : list (string * log_value) :=
  [("loss"%string,
    LDict [("lossG"%string, (g_loss_summed acc / inject_Z (iterations acc))%Q);
           ("lossD"%string, (d_loss_summed acc / inject_Z (iterations acc))%Q)]);
   ("info/WassersteinDistance"%string, LNum (wasserstein_d_summed acc));
   ("info/eps"%string, LNum (eps_summed acc));
   ("info/curr_level"%string, LNum level)].

Lemma train_training (s0 : CPGGAN) (t : list event) (loader_arg : list (Img * Vec))
    (batch_size_arg : Z) :
  let s := schedule_resolution s0 in
  let loader := get_train_data_loader s in
  let acc := loop_locals s loader initial_locals in
  can_level s = true -> loader <> [] ->
  exists level img,
    cur_level acc = Some level /\ G_fake acc = Some img
    /\ train loader_arg batch_size_arg false {| self := s0; trace := t |}
       = ({| self := loop_self s loader; trace := t ++ loop_events s loader |},
          Ok (training_log_info acc level, img)).
Proof.
  intros s loader acc Hlevel Hne.
  destruct (loop_locals_bound loader s initial_locals Hne) as (level & img & Hl & Hi).
  fold acc in Hl, Hi.
  exists level, img. split; [assumption|]. split; [assumption|].
  unfold train, mbind, modify_self, mmodify, get_self, mret. simpl.
  fold s. fold loader. rewrite train_loop_training by assumption. fold acc.
  assert (Hit : iterations acc <> 0).
  { unfold acc. rewrite loop_locals_iterations. simpl.
    destruct loader; [contradiction|simpl; lia]. }
  unfold mlift, py_div, local.
  destruct (Z.eqb_spec (iterations acc) 0) as [?|_]; [contradiction|].
  rewrite Hl, Hi. reflexivity.
Qed.

Lemma lossG_is_mean (s : CPGGAN) (loader : list (Img * Vec)) :
  let acc := loop_locals s loader initial_locals in
  (g_loss_summed acc / inject_Z (iterations acc) == Qmean (loop_G_losses s loader))%Q.
Proof.
  intros acc. unfold acc, Qmean.
  rewrite loop_locals_iterations, loop_locals_g_loss.
  destruct (loop_length loader s) as [-> _]. simpl.
  rewrite Qplus_0_l. reflexivity.
Qed.

(** C9. With [validate=True], on a loader with a first batch and a
    resolution schedule on which the level is defined, [train] looks at
    that batch only: it runs the discriminator on the batch's images with
    the static features and the generator on the static noise joined with
    the static landmark and low-resolution features, calls no
    [backward()] and no optimizer step, leaves [self] (all parameters,
    both optimizer states, the gradients, the counters) exactly as it was,
    and returns the empty dictionary with the generated image. *)
Theorem train_validate_frame (s : CPGGAN) (t : list event) (b : Img * Vec)
    (rest : list (Img * Vec)) (batch_size_arg : Z) :
  can_level s = true ->
  let features := cat_vec (slice (static_landmarks s) (batch_size s))
                          (slice (static_lowres s) (batch_size s)) in
  let input_vec := cat_vec (slice (static_noise s) (batch_size s)) features in
  let input_img_real := cat_img (fst b) (fill features (batch_size s) (fst b)) in
  let r := train (b :: rest) batch_size_arg true {| self := s; trace := t |} in
  snd r = Ok ([], G_forward (G s) input_vec (level_of s))
  /\ self (fst r) = s
  /\ trace (fst r) = t ++ [D_call input_img_real (level_of s);
                           G_call input_vec (level_of s)]
  /\ forallb (fun ev => negb (is_update ev))
             [D_call input_img_real (level_of s); G_call input_vec (level_of s)] = true.
Proof.
  intros Hlevel features input_vec input_img_real r.
  assert (Hr : r = ({| self := s;
                       trace := t ++ [D_call input_img_real (level_of s);
                                      G_call input_vec (level_of s)] |},
                    Ok ([], G_forward (G s) input_vec (level_of s)))).
  { unfold r, train, mbind, mret. simpl. unfold mbind at 1.
    rewrite train_batch_validate by assumption. reflexivity. }
  rewrite Hr. simpl. repeat split; reflexivity.
Qed.

(** C5. In a call of [train] with [validate=False] every batch ends with:
    the discriminator optimizer step, the discriminator put in evaluation
    mode, the generator gradient cleared, the discriminator run on the
    generated image joined with the feature channels, [backward()] on minus
    the mean of its output, and one generator optimizer step on exactly
    that gradient; there is no other generator step in the batch. The
    logged [lossG] is the arithmetic mean over the batches of these
    values. *)
Theorem generator_update (s0 : CPGGAN) (t : list event) (loader_arg : list (Img * Vec))
    (batch_size_arg : Z) :
  let s := schedule_resolution s0 in
  let loader := get_train_data_loader s in
  can_level s = true -> loader <> [] ->
  (exists log_info img lossG lossD rest,
      train loader_arg batch_size_arg false {| self := s0; trace := t |}
      = ({| self := loop_self s loader; trace := t ++ loop_events s loader |},
         Ok (log_info, img))
      /\ log_info = ("loss"%string, LDict [("lossG"%string, lossG);
                                           ("lossD"%string, lossD)]) :: rest
      /\ (lossG == Qmean (generator_losses (loop_events s loader)))%Q
      /\ length (generator_losses (loop_events s loader)) = length loader)
  /\ loop_events s loader = concat (zip_with batch_events (loop_states s loader) loader)
  /\ forall (sk : CPGGAN) (b : Img * Vec),
      let fake := cat_img (G_forward (G sk) (b_input_vec sk b) (level_of sk))
                          (fill (snd b) (batch_size sk) (fst b)) in
      let stepped := D_step (D_optimizer sk) (D sk) (b_D_grad sk b) in
      let loss := LossGenerator (G sk) (snd stepped) false (b_input_vec sk b)
                                (fill (snd b) (batch_size sk) (fst b)) (level_of sk) in
      (exists before,
          batch_events sk b
          = before ++ [D_optimizer_step (b_D_grad sk b); D_train false; G_zero_grad;
                       D_call fake (level_of sk); Backward loss; G_optimizer_step [loss]]
          /\ List.filter is_G_step before = [])
      /\ term_value loss = (- Qmean (D_forward (snd stepped) false fake (level_of sk)))%Q
      /\ generator_losses (batch_events sk b) = [term_value loss]
      /\ G (batch_self sk b) = snd (G_step (G_optimizer sk) (G sk) [loss])
      /\ D (batch_self sk b) = snd stepped
      /\ D_training (batch_self sk b) = false.
Proof.
  intros s loader Hlevel Hne. split; [|split].
  - destruct (train_training s0 t loader_arg batch_size_arg Hlevel Hne)
      as (level & img & _ & _ & Hrun).
    fold s loader in Hrun. rewrite Hrun.
    eexists _, img, _, _, _. split; [reflexivity|]. split; [reflexivity|].
    rewrite generator_losses_loop. split; [apply lossG_is_mean|].
    apply loop_length.
  - apply loop_events_batches.
  - intros sk b fake stepped loss. split; [|split; [|split; [|split; [|split]]]].
    + exists [D_train true; D_zero_grad;
              D_call (b_input_img_real sk b) (level_of sk);
              Backward (b_loss_real sk b);
              G_call (b_input_vec sk b) (level_of sk);
              D_call (b_input_img_fake sk b) (level_of sk);
              Backward (b_loss_fake sk b);
              GP_call (b_input_img_real sk b) (b_input_img_fake sk b) (level_of sk);
              Backward (b_loss_penalty sk b)].
      split; reflexivity.
    + reflexivity.
    + reflexivity.
    + unfold batch_self. destruct (stabilization_phase sk); reflexivity.
    + unfold batch_self. destruct (stabilization_phase sk); reflexivity.
    + unfold batch_self. destruct (stabilization_phase sk); reflexivity.
Qed.

(** C3 (amended). In a call of [train] with [validate=False] the
    conditioning features of every batch are the features the data loader
    delivers with it: the generator input is the drawn noise joined with
    them, the discriminator input is the image batch joined with the
    channels filled from them. The Gaussian samples stored at
    construction do not enter: the calls of a training loop are the same
    whatever the static tensors are. They are used with [validate=True]. *)
Theorem training_features (s : CPGGAN) (t : list event) (acc : locals)
    (loader : list (Img * Vec)) :
  can_level s = true ->
  train_loop false loader acc {| self := s; trace := t |}
  = ({| self := loop_self s loader; trace := t ++ loop_events s loader |},
     Ok (loop_locals s loader acc))
  /\ loop_events s loader = concat (zip_with batch_events (loop_states s loader) loader)
  /\ (forall (sk : CPGGAN) (images : Img) (features : Vec),
        let input_vec := cat_vec (noise (batch_size sk) (noise_draws sk)) features in
        let features_fill := fill features (batch_size sk) images in
        let fake := cat_img (G_forward (G sk) input_vec (level_of sk)) features_fill in
        In (G_call input_vec (level_of sk)) (batch_events sk (images, features))
        /\ List.filter (fun ev => match ev with G_call _ _ => true | _ => false end)
                       (batch_events sk (images, features))
           = [G_call input_vec (level_of sk)]
        /\ List.filter (fun ev => match ev with D_call _ _ => true | _ => false end)
                       (batch_events sk (images, features))
           = [D_call (cat_img images features_fill) (level_of sk);
              D_call fake (level_of sk); D_call fake (level_of sk)])
  /\ (forall n lm lr : Vec,
        loop_events (with_static n lm lr s) loader = loop_events s loader)
  /\ (forall (b : Img * Vec) (rest : list (Img * Vec)),
        trace (fst (train_loop true (b :: rest) acc {| self := s; trace := t |}))
        = t ++ [D_call (cat_img (fst b) (fill (v_features s) (batch_size s) (fst b)))
                       (level_of s);
                G_call (cat_vec (v_noise s) (v_features s)) (level_of s)]).
Proof.
  intros Hlevel. split; [|split; [|split; [|split]]].
  - apply train_loop_training. assumption.
  - apply loop_events_batches.
  - intros sk images features input_vec features_fill fake.
    split; [|split; reflexivity].
    simpl. do 4 right. left. reflexivity.
  - intros n lm lr. apply loop_events_with_static.
  - intros b rest. simpl. unfold mbind at 1.
    rewrite train_batch_validate by assumption. reflexivity.
Qed.

(** *** The level schedule inside a training loop *)

(** The levels handed to the discriminator, the generator and the
    gradient penalty. *)
Definition call_levels (t : list event) : list Q :=
  omap (fun ev => match ev with
                  | D_call _ l | G_call _ l | GP_call _ _ l => Some l
                  | _ => None
                  end) t.





(** *** What the reported discriminator values are *)

Lemma reported_discriminator_values (s : CPGGAN) (b : Img * Vec) :
  let mean_real := Qmean (D_forward (D s) true (b_input_img_real s b) (level_of s)) in
  let mean_fake := Qmean (D_forward (D s) true (b_input_img_fake s b) (level_of s)) in
  (b_D_loss s b == mean_fake + mean_real - b_eps_loss s b + b_gp s b)%Q
  /\ (b_Wasserstein_D s b == - mean_real + b_eps_loss s b - mean_fake)%Q
  /\ (Qsum (map term_value (b_D_grad s b))
      == mean_fake - mean_real + b_eps_loss s b + b_gp s b)%Q.
Proof.
  intros mean_real mean_fake.
  unfold b_D_loss, b_Wasserstein_D, b_D_real, b_D_fake, b_D_grad, b_eps_loss, b_gp,
    b_D_real_out. simpl. fold mean_real mean_fake.
  repeat split; ring.
Qed.

End Model.

(** *** A concrete instance

    Tensors are lists of rationals and joining is appending; the
    generator scales its input, the critic returns its weight times the
    first entry of its input, the gradient penalty is zero, and an
    optimizer step adds the number of accumulated loss terms to the
    weight. *)

(** Arithmetic without rounding error. *)
Definition exact_arithmetic (q : Q) : Q := q.



(** The arithmetic of Python floats: [binary64 x] is the binary64 number
    nearest to [x], ties to even. The quotient is cut after at least 63
    bits, with one more bit that tells whether anything was cut, and
    rounded by the library; numbers beyond the range of the format are
    not modelled. *)
Definition float_value (x : spec_float) : Q :=
  match x with
  | S754_finite s m e => (inject_Z (if s then Z.neg m else Z.pos m) * 2 ^ e)%Q
  | _ => 0%Q
  end.

Definition binary64 (q : Q) : Q :=
  let n := Qnum q in
  let d := Z.pos (Qden q) in
  let k := Z.max 0 (64 + Z.log2 d - Z.log2 (Z.abs n)) in
  let a := Z.abs n * 2 ^ k in
  let sticky := if Z.eqb (a mod d) 0 then 0 else 1 in
  float_value (binary_normalize 53 1024 (Z.sgn n * (2 * (a / d) + sticky)) (- k - 1) false).

(** [0.1], [1e-10] and [2 ** 53 + 1] as Python prints their exact
    values. *)
Example binary64_values :
  Qred (binary64 (1 # 10)) = (3602879701896397 # 36028797018963968)%Q
  /\ Qred (binary64 tiny) = (7737125245533627 # 77371252455336267181195264)%Q
  /\ Qred (binary64 (inject_Z 9007199254740993)) = inject_Z 9007199254740992.
Proof. vm_compute. repeat split; reflexivity. Qed.

Definition demo_slice (v : list Q) (n : Z) : list Q := take (Z.to_nat n) v.
Definition demo_fill (features : list Q) (n : Z) (images : list Q) : list Q := features.
Definition demo_noise (n : Z) (k : nat) : list Q := [inject_Z (Z.of_nat k)].
Definition demo_G (g : Q) (z : list Q) (level : Q) : list Q := map (Qmult g) z.
Definition demo_D (d : Q) (mode : bool) (x : list Q) (level : Q) : list Q :=
  [(d * hd 0%Q x)%Q].
Definition demo_penalty (d : Q) (mode : bool) (real fake : list Q) (level : Q) : Q := 0%Q.
Definition demo_step (o : nat) (w : Q) (g : list (loss_term (list Q) (list Q) Q Q))
  : nat * Q :=
  (S o, (w + inject_Z (Z.of_nat (length g)))%Q).

Definition demo_state (stabilization : bool) (level faded per_phase size : Z) (g d : Q)
  : CPGGAN (list Q) (list Q) Q Q nat nat :=
  {| stabilization_phase := stabilization;
     resolution_level := level;
     images_faded_in := faded;
     images_per_fading_phase := per_phase;
     batch_size := size;
     static_noise := [0%Q];
     static_landmarks := [7%Q];
     static_lowres := [8%Q];
     G := g; D := d; D_training := false;
     G_optimizer := O; D_optimizer := O;
     G_grad := []; D_grad := [];
     noise_draws := O |}.

Definition demo_batch : list Q * list Q := ([1%Q], [5%Q]).

Definition demo_train_loop (validate : bool) (loader : list (list Q * list Q))
  : M (st (list Q) (list Q) Q Q nat nat) (locals (list Q)) :=
  train_loop (list Q) (list Q) Q Q nat nat exact_arithmetic app app demo_slice demo_fill demo_noise
             demo_G demo_D demo_penalty demo_step demo_step validate loader
             (initial_locals (list Q)).

Definition demo_train (loader : list (list Q * list Q)) (validate : bool)
  : M (st (list Q) (list Q) Q Q nat nat) (list (string * log_value) * list Q) :=
  train (list Q) (list Q) Q Q nat nat exact_arithmetic app app demo_slice demo_fill demo_noise
        demo_G demo_D demo_penalty demo_step demo_step (fun s => s) (fun _ => loader)
        loader 1 validate.

Definition start (s : CPGGAN (list Q) (list Q) Q Q nat nat)
  : st (list Q) (list Q) Q Q nat nat :=
  {| self := s; trace := [] |}.

Definition demo_call_levels (r : st (list Q) (list Q) Q Q nat nat) : list Q :=
  call_levels (list Q) (list Q) Q Q (trace (list Q) (list Q) Q Q nat nat r).


(** A fading phase towards level 3 over 256 images in batches of 64, a
    stabilization phase at level 1, and two fading phases whose counters
    leave the admissible range. *)
Definition fading : CPGGAN (list Q) (list Q) Q Q nat nat :=
  demo_state false 3 0 256 64 0%Q 1%Q.

Definition stabilizing : CPGGAN (list Q) (list Q) Q Q nat nat :=
  demo_state true 1 0 0 1 0%Q 1%Q.



Example fading_levels :
  map Qred (demo_call_levels
              (fst (demo_train_loop false [demo_batch; demo_batch; demo_batch; demo_batch]
                                    (start fading))))
  = flat_map (fun l => repeat l 5)
             [(20000000001 # 10000000000)%Q; (9 # 4)%Q; (5 # 2)%Q; (11 # 4)%Q].
Proof. vm_compute. reflexivity. Qed.



(** The same with the arithmetic of Python floats: the level 3.28 above
    the resolution level 3 and the step down from [2 + 1e-10] to
    [2 + 1e-11] remain. Moreover a quotient that is not zero can be
    absorbed by the sum: with the counter at 1 and [10^17] images to fade
    in, the level is [resolution_level - 1] itself. *)
Example float_levels :
  let level_of := level_of (list Q) (list Q) Q Q nat nat binary64 in
  let factor_of := fade_in_factor_of (list Q) (list Q) Q Q nat nat binary64 in
  (inject_Z 3 < level_of (demo_state false 3 128 100 64 0%Q 1%Q))%Q
  /\ (level_of (demo_state false 3 1 100000000000 1 0%Q 1%Q)
      < level_of (demo_state false 3 0 100000000000 1 0%Q 1%Q))%Q
  /\ ~ (factor_of (demo_state false 3 1 100000000000000000 1 0%Q 1%Q) == 0)%Q
  /\ (level_of (demo_state false 3 1 100000000000000000 1 0%Q 1%Q) == inject_Z 3 - 1)%Q.
Proof.
  intros level_of factor_of. split; [vm_compute; reflexivity|].
  split; [vm_compute; reflexivity|]. split; [|vm_compute; reflexivity].
  vm_compute. discriminate.
Qed.

(** C2 at a concrete batch. The critic gives 1 to the real input and 0
    to the generated one and the penalty is 0, so that
    [mean D(fake) - mean D(real) + gp] is [-1] and
    [mean D(real) - mean D(fake)] is [1]; the logged discriminator loss is
    [0.999] and the logged Wasserstein distance is [-0.999]. *)
Theorem discriminator_loss_reported :
  let r := demo_train [demo_batch] false (start stabilizing) in
  let real := [1%Q; 5%Q] in
  let fake := [0%Q; 0%Q; 5%Q] in
  let mean_real := Qmean (demo_D 1%Q true real 1%Q) in
  let mean_fake := Qmean (demo_D 1%Q true fake 1%Q) in
  let gp := demo_penalty 1%Q true real fake 1%Q in
  List.filter (fun ev => match ev with D_call _ _ _ _ _ _ => true | _ => false end)
              (trace _ _ _ _ _ _ (fst r))
  = [D_call _ _ _ _ real 1%Q; D_call _ _ _ _ fake 1%Q; D_call _ _ _ _ fake 1%Q]
  /\ (mean_fake - mean_real + gp == -1)%Q
  /\ (mean_real - mean_fake == 1)%Q
  /\ exists lossG lossD wasserstein eps level img,
      snd r = Ok ([("loss"%string, LDict [("lossG"%string, lossG);
                                          ("lossD"%string, lossD)]);
                   ("info/WassersteinDistance"%string, LNum wasserstein);
                   ("info/eps"%string, LNum eps);
                   ("info/curr_level"%string, LNum level)], img)
      /\ (lossD == 999 # 1000)%Q
      /\ (wasserstein == - (999 # 1000))%Q
      /\ (eps == 1 # 1000)%Q.
Proof.
  intros r real fake mean_real mean_fake gp.
  split; [vm_compute; reflexivity|].
  split; [vm_compute; reflexivity|].
  split; [vm_compute; reflexivity|].
  vm_compute. do 6 eexists. split; [reflexivity|].
  repeat split; reflexivity.
Qed.

(** C3 does not hold: in a training call the generator input is the
    noise joined with the features [5] of the batch, not with the stored
    samples [7] and [8], and no discriminator input carries them. *)
Lemma training_features_counterexample :
  let s := stabilizing in
  let r := demo_train [demo_batch] false (start s) in
  let sampled := static_landmarks _ _ _ _ _ _ s ++ static_lowres _ _ _ _ _ _ s in
  sampled = [7%Q; 8%Q]
  /\ List.filter (fun ev => match ev with G_call _ _ _ _ _ _ => true | _ => false end)
                 (trace _ _ _ _ _ _ (fst r))
     = [G_call _ _ _ _ (demo_noise 1 0 ++ [5%Q]) 1%Q]
  /\ List.filter (fun ev => match ev with D_call _ _ _ _ _ _ => true | _ => false end)
                 (trace _ _ _ _ _ _ (fst r))
     = [D_call _ _ _ _ ([1%Q] ++ [5%Q]) 1%Q;
        D_call _ _ _ _ ([0%Q; 0%Q] ++ [5%Q]) 1%Q;
        D_call _ _ _ _ ([0%Q; 0%Q] ++ [5%Q]) 1%Q]
  /\ demo_noise 1 0 ++ [5%Q] <> demo_noise 1 0 ++ sampled.
Proof.
  intros s r sampled. split; [reflexivity|].
  split; [vm_compute; reflexivity|]. split; [vm_compute; reflexivity|].
  vm_compute. discriminate.
Qed.

Lemma training_features_witness :
  can_level _ _ _ _ _ _ stabilizing = true
  /\ trace _ _ _ _ _ _ (fst (demo_train_loop false [demo_batch] (start stabilizing)))
     = loop_events (list Q) (list Q) Q Q nat nat exact_arithmetic app app demo_fill demo_noise demo_G
                   demo_step demo_step stabilizing [demo_batch].
Proof.
  assert (H : can_level _ _ _ _ _ _ stabilizing = true) by reflexivity.
  split; [exact H|].
  destruct (training_features (list Q) (list Q) Q Q nat nat exact_arithmetic app app demo_slice
              demo_fill demo_noise demo_G demo_D demo_penalty demo_step demo_step
              stabilizing [] (initial_locals (list Q)) [demo_batch] H) as (Hrun & _).
  unfold demo_train_loop, start. rewrite Hrun. reflexivity.
Defined.

Lemma generator_update_witness :
  can_level _ _ _ _ _ _ stabilizing = true
  /\ [demo_batch; demo_batch] <> []
  /\ exists log_info img,
      snd (demo_train [demo_batch; demo_batch] false (start stabilizing))
      = Ok (log_info, img).
Proof.
  assert (H : can_level _ _ _ _ _ _ stabilizing = true) by reflexivity.
  assert (Hne : [demo_batch; demo_batch] <> []) by discriminate.
  split; [exact H|]. split; [exact Hne|].
  destruct (generator_update (list Q) (list Q) Q Q nat nat exact_arithmetic app app demo_slice
              demo_fill demo_noise demo_G demo_D demo_penalty demo_step demo_step
              (fun s => s) (fun _ => [demo_batch; demo_batch])
              stabilizing [] [demo_batch; demo_batch] 1 H Hne)
    as ((log_info & img & lossG & lossD & rest & Hrun & _) & _).
  exists log_info, img. unfold demo_train, start. rewrite Hrun. reflexivity.
Defined.

Lemma train_validate_frame_witness :
  can_level _ _ _ _ _ _ fading = true
  /\ self _ _ _ _ _ _ (fst (demo_train [demo_batch; demo_batch] true (start fading)))
     = fading.
Proof.
  assert (H : can_level _ _ _ _ _ _ fading = true) by reflexivity.
  split; [exact H|].
  destruct (train_validate_frame (list Q) (list Q) Q Q nat nat exact_arithmetic app app demo_slice
              demo_fill demo_noise demo_G demo_D demo_penalty demo_step demo_step
              (fun s => s) (fun _ => [demo_batch; demo_batch])
              fading [] demo_batch [demo_batch] 1 H) as (_ & Hself & _).
  exact Hself.
Defined.

End CPGGAN.

(** * Further properties of the modelled code *)

(** ** Utils/Trainer.py: when the schedule completes, and what a failing
    run leaves behind *)

Module TrainerProperties.

Import Trainer.

(** The layout [class Config] uses: the index starts at 0, there is a
    frequency for every threshold but the last, no frequency is 0, and the
    last threshold lies beyond the last epoch. *)
Definition sentinel_config (cfg : Config) : bool :=
  Z.eqb (validate_index cfg) 0
  && Nat.leb 2 (length (validation_periods cfg))
  && Nat.leb (length (validation_periods cfg) - 1) (length (validation_frequencies cfg))
  && forallb (fun f => negb (Z.eqb f 0)) (validation_frequencies cfg)
  && match last (validation_periods cfg) with
     | Some p => Z.ltb (max_epochs cfg - 1) p
     | None => false
     end.

(** A subclass of [Config] that overrides [max_epochs] and possibly the
    frequencies: [validation_periods] was evaluated in the body of
    [Config], with [max_epochs = 101]. *)
Definition Config_subclass (epochs : Z) (frequencies : list Z) : Config :=
  {| batch_size := 64;
     max_epochs := epochs;
     validate_index := 0;
     validation_frequencies := frequencies;
     validation_periods := validation_periods Config_default |}.

Lemma py_getitem_In {A} (l : list A) (k : Z) (a : A) :
  py_getitem l k = Ok a -> In a l.
Proof.
  unfold py_getitem. destruct (Z.ltb _ 0); [discriminate|].
  destruct (l !! _) as [x|] eqn:Hx; [|discriminate].
  intros [= <-]. apply list_elem_of_In. eapply list_elem_of_lookup_2. exact Hx.
Qed.

Lemma sentinel_inv (cfg : Config) :
  sentinel_config cfg = true ->
  validate_index cfg = 0
  /\ (2 <= length (validation_periods cfg))%nat
  /\ (length (validation_periods cfg) - 1 <= length (validation_frequencies cfg))%nat
  /\ (forall f, In f (validation_frequencies cfg) -> f <> 0)
  /\ exists p, validation_periods cfg !! (length (validation_periods cfg) - 1)%nat = Some p
               /\ max_epochs cfg - 1 < p.
Proof.
  unfold sentinel_config. intros H.
  apply andb_prop in H as [H Hlast]. apply andb_prop in H as [H Hnz].
  apply andb_prop in H as [H Hfl]. apply andb_prop in H as [H0 Hlen].
  apply Z.eqb_eq in H0. apply Nat.leb_le in Hlen. apply Nat.leb_le in Hfl.
  repeat (split; [assumption|]). split.
  - intros f Hf. rewrite forallb_forall in Hnz. specialize (Hnz f Hf).
    destruct (Z.eqb_spec f 0); [discriminate|assumption].
  - destruct (last (validation_periods cfg)) as [p|] eqn:Hl; [|discriminate].
    exists p. rewrite last_lookup in Hl. split; [|apply Z.ltb_lt; assumption].
    rewrite <- Hl. f_equal. lia.
Qed.

Lemma sentinel_index (cfg : Config) :
  sentinel_config cfg = true ->
  forall e : nat, Z.of_nat e <= max_epochs cfg ->
    exists i, index_before (validation_periods cfg) (validate_index cfg) e = Ok i
              /\ 0 <= i /\ i + 2 <= Z.of_nat (length (validation_periods cfg)).
Proof.
  intros Hs. destruct (sentinel_inv cfg Hs) as (H0 & Hlen & _ & _ & p & Hp & Hlast).
  induction e as [|e IH]; intros He.
  - exists 0. simpl. rewrite H0. repeat split; lia.
  - destruct IH as (i & Hi & Hi0 & Hi1); [lia|].
    simpl. rewrite Hi. simpl. unfold next_index.
    destruct (py_getitem_in_range (validation_periods cfg) (i + 1)) as (q & Hq & Hget); [lia|].
    rewrite Hget. simpl. eexists. split; [reflexivity|].
    destruct (Z.geb_spec (Z.of_nat e) q) as [Hge|Hlt]; [|lia].
    split; [lia|].
    destruct (Z.eq_dec (i + 1) (Z.of_nat (length (validation_periods cfg)) - 1)) as [Heq|Hne];
      [|lia].
    exfalso.
    replace (Z.to_nat (i + 1)) with (length (validation_periods cfg) - 1)%nat in Hq by lia.
    rewrite Hp in Hq. injection Hq as <-. lia.
Qed.

Lemma sentinel_schedule_ok (cfg : Config) :
  sentinel_config cfg = true -> schedule_ok cfg = true.
Proof.
  intros Hs. destruct (sentinel_inv cfg Hs) as (_ & _ & Hfl & Hnz & _).
  unfold schedule_ok. apply forallb_forall. intros e He. apply in_seq in He.
  destruct (sentinel_index cfg Hs (S e)) as (i & Hi & Hi0 & Hi1); [lia|].
  unfold validates, index_at. rewrite Hi. simpl.
  destruct (py_getitem_in_range (validation_frequencies cfg) i) as (f & Hf & Hget); [lia|].
  rewrite Hget. simpl. unfold py_mod.
  assert (f <> 0) by (apply Hnz; eapply py_getitem_In; exact Hget).
  destruct (Z.eqb_spec f 0); [contradiction|reflexivity].
Qed.

Lemma mfor_app {S A} (l1 l2 : list A) (body : A -> M S unit) (s : S) :
  mfor (l1 ++ l2) body s
  = match mfor l1 body s with
    | (s', Ok _) => mfor l2 body s'
    | (s', Raise x) => (s', Raise x)
    end.
Proof.
  revert s. induction l1 as [|a l1 IH]; intros s; simpl; [reflexivity|].
  unfold mbind. destruct (body a s) as [s1 [[]|x]]; [apply IH|reflexivity].
Qed.

Lemma index_before_bounds (periods : list Z) (i0 : Z) (e : nat) : forall i,
  index_before periods i0 e = Ok i -> i0 <= i <= i0 + Z.of_nat e.
Proof.
  induction e as [|e IH]; intros i Hi; simpl in Hi.
  - injection Hi as <-. lia.
  - destruct (index_before periods i0 e) as [j|]; simpl in Hi; [|discriminate].
    specialize (IH j eq_refl). unfold next_index in Hi.
    destruct (py_getitem periods (j + 1)) as [p|]; simpl in Hi; [|discriminate].
    injection Hi as <-. destruct (Z.geb (Z.of_nat e) p); lia.
Qed.

(** The argument of the last [set_train_mode] call of the trainer in a
    sequence of calls ([mode] when there is none), and whether the last
    [set_train_mode] call before every call of [model.train] asked for the
    mode of that call: on for training, off for validation. These are the
    requests of the trainer; what [model.train] does to the modes of its
    own networks is not part of them. *)
Fixpoint requested_mode (mode : bool) (t : list event) : bool :=
  match t with
  | [] => mode
  | SetTrainMode b :: t' => requested_mode b t'
  | _ :: t' => requested_mode mode t'
  end.

Fixpoint requests_ok (mode : bool) (t : list event) : bool :=
  match t with
  | [] => true
  | SetTrainMode b :: t' => requests_ok b t'
  | Train _ validate :: t' => Bool.eqb mode (negb validate) && requests_ok mode t'
  | _ :: t' => requests_ok mode t'
  end.

Lemma requests_ok_app (t1 t2 : list event) : forall mode,
  requests_ok mode (t1 ++ t2) = requests_ok mode t1 && requests_ok (requested_mode mode t1) t2.
Proof.
  induction t1 as [|ev t1 IH]; intros mode; [reflexivity|].
  destruct ev; simpl; rewrite ?IH, ?andb_assoc; reflexivity.
Qed.

Lemma requested_mode_app (t1 t2 : list event) : forall mode,
  requested_mode mode (t1 ++ t2) = requested_mode (requested_mode mode t1) t2.
Proof.
  induction t1 as [|ev t1 IH]; intros mode; [reflexivity|].
  destruct ev; simpl; rewrite ?IH; reflexivity.
Qed.

Lemma requests_ok_expected (cfg : Config) (l : list nat) : forall mode,
  requests_ok mode (concat (map (expected_events cfg) l)) = true
  /\ (l <> [] -> (forall e, In e l -> is_ok (validates cfg e) = true) ->
      requested_mode mode (concat (map (expected_events cfg) l)) = true).
Proof.
  induction l as [|e l IH]; intros mode; [split; [reflexivity|intros H; contradiction]|].
  simpl. rewrite requests_ok_app, requested_mode_app.
  assert (Hblock : requests_ok mode (expected_events cfg e) = true
                   /\ (is_ok (validates cfg e) = true ->
                       requested_mode mode (expected_events cfg e) = true)).
  { unfold expected_events. destruct (validates cfg e) as [[|]|]; simpl; auto.
    split; [reflexivity|discriminate]. }
  destruct Hblock as [Hb Hf]. rewrite Hb. simpl. split; [apply IH|].
  intros _ Hok. rewrite Hf by (apply Hok; left; reflexivity).
  destruct l as [|e' l']; [reflexivity|].
  apply IH; [discriminate|]. intros e0 He0. apply Hok. right. exact He0.
Qed.

Definition validation_calls (t : list event) : list Z :=
  omap (fun ev => match ev with Train e true => Some e | _ => None end) t.

Lemma validation_calls_all (cfg : Config) (l : list nat) :
  (forall e, In e l -> validates cfg e = Ok true) ->
  validation_calls (concat (map (expected_events cfg) l)) = map Z.of_nat l.
Proof.
  induction l as [|e l IH]; intros H; [reflexivity|].
  simpl. unfold validation_calls in *. rewrite omap_app, IH by (intros; apply H; right; assumption).
  unfold expected_events. rewrite (H e (or_introl eq_refl)). reflexivity.
Qed.

Section Run.
Variables World Loader Info : Type.
Variable set_train_mode : bool -> World -> World.
Variable get_train_data_loader : World -> Loader.
Variable get_validation_data_loader : World -> Loader.
Variable model_train : Loader -> Z -> Z -> bool -> World -> Info * World.
Variable model_log : Z -> Info -> bool -> World -> World.
Variable model_log_validation : Z -> Info -> World -> World.

Let train_epoch := train_epoch World Loader Info set_train_mode get_train_data_loader
                     get_validation_data_loader model_train model_log model_log_validation.
Let train := train World Loader Info set_train_mode get_train_data_loader
               get_validation_data_loader model_train model_log model_log_validation.

(** A complete run, for a schedule that raises nowhere. *)
Lemma run_ok (cfg : Config) (w : World) :
  schedule_ok cfg = true ->
  exists s' i,
    train (initial World cfg w) = (s', Ok tt)
    /\ config World s' = cfg
    /\ index_before (validation_periods cfg) (validate_index cfg)
                    (Z.to_nat (max_epochs cfg)) = Ok i
    /\ cur_validate_index World s' = i
    /\ trace World s'
       = concat (map (expected_events cfg) (seq 0 (Z.to_nat (max_epochs cfg)))).
Proof.
  intros Hok. unfold schedule_ok in Hok. rewrite forallb_forall in Hok.
  destruct (loop_ok World Loader Info set_train_mode get_train_data_loader
              get_validation_data_loader model_train model_log model_log_validation
              cfg (Z.to_nat (max_epochs cfg)) 0%nat (initial World cfg w))
    as (s' & Hrun & Hcfg & Hidx & Htrace); try reflexivity.
  { intros e He. apply Hok. apply in_seq. lia. }
  exists s', (cur_validate_index World s').
  split; [exact Hrun|]. repeat split; assumption.
Qed.

(** An epoch whose schedule lookup raises: the training call has been
    made, nothing is logged. *)
Lemma train_epoch_raises (cfg : Config) (s : state World) (e : nat) (x : exn) :
  config World s = cfg ->
  index_before (validation_periods cfg) (validate_index cfg) e
  = Ok (cur_validate_index World s) ->
  validates cfg e = Raise x ->
  exists s',
    train_epoch (Z.of_nat e) s = (s', Raise x)
    /\ trace World s' = trace World s ++ [SetTrainMode true; Train (Z.of_nat e) false].
Proof.
  intros Hcfg Hidx Hv. unfold validates, index_at in Hv. simpl in Hv.
  rewrite Hidx in Hv. simpl in Hv. unfold next_index in Hv.
  destruct s as [c idx w t]. simpl in *. subst c.
  unfold train_epoch, Trainer.train_epoch, mbind, call, call_train, mmodify, mget, mlift,
    set_validate_index, mret; simpl.
  destruct (model_train _ _ (Z.of_nat e) false _) as [info w1]; simpl.
  destruct (py_getitem (validation_periods cfg) (idx + 1)) as [p|x1]; simpl in *.
  - destruct (Z.geb (Z.of_nat e) p); unfold mmodify; simpl;
      (destruct (py_getitem (validation_frequencies cfg) _) as [f|x2]; simpl in *;
       [ destruct (py_mod (Z.of_nat e) f) as [r|x3]; simpl in *;
         [discriminate|]
       | ]);
      injection Hv as <-; eexists; split; try reflexivity; simpl;
      rewrite <- app_assoc; reflexivity.
  - injection Hv as <-. eexists. split; [reflexivity|]. simpl.
    rewrite <- app_assoc. reflexivity.
Qed.

(** A run whose first failing epoch is [e]. *)
Lemma run_fails (cfg : Config) (w : World) (e : nat) (x : exn) :
  Z.of_nat e < max_epochs cfg ->
  (forall e', (e' < e)%nat -> is_ok (validates cfg e') = true) ->
  validates cfg e = Raise x ->
  exists s',
    train (initial World cfg w) = (s', Raise x)
    /\ trace World s'
       = concat (map (expected_events cfg) (seq 0 e))
         ++ [SetTrainMode true; Train (Z.of_nat e) false]
    /\ training_epochs (trace World s') = map Z.of_nat (seq 0 (S e)).
Proof.
  intros He Hbefore Hv.
  destruct (loop_ok World Loader Info set_train_mode get_train_data_loader
              get_validation_data_loader model_train model_log model_log_validation
              cfg e 0%nat (initial World cfg w))
    as (s1 & Hrun & Hcfg & Hidx & Htrace); try reflexivity.
  { intros e' He'. apply Hbefore. lia. }
  simpl in Hidx, Htrace.
  destruct (train_epoch_raises cfg s1 e x Hcfg Hidx Hv) as (s2 & Hrun2 & Htrace2).
  exists s2. split; [|split].
  - unfold train, Trainer.train, mbind, mget. cbv beta iota.
    change (config World (initial World cfg w)) with cfg. unfold py_range.
    replace (Z.to_nat (max_epochs cfg)) with (e + S (Z.to_nat (max_epochs cfg) - S e))%nat
      by lia.
    rewrite seq_app, map_app, mfor_app. rewrite Hrun.
    simpl. unfold mbind at 1. unfold train_epoch in Hrun2. rewrite Hrun2. reflexivity.
  - rewrite Htrace2, Htrace. reflexivity.
  - rewrite Htrace2, Htrace, training_epochs_app, training_epochs_expected.
    + replace (S e) with (e + 1)%nat by lia. rewrite seq_app, map_app. reflexivity.
    + intros e' He'. apply Hbefore. apply in_seq in He'. lia.
Qed.

(** X1. A configuration laid out like [class Config] (index starting at
    0, a non-zero frequency for every threshold but the last, the last
    threshold beyond the last epoch) never raises: [train] returns after
    the training epochs [0 .. max_epochs - 1]. *)
Theorem sentinel_run_completes (cfg : Config) (w : World) :
  sentinel_config cfg = true ->
  schedule_ok cfg = true
  /\ exists s',
      train (initial World cfg w) = (s', Ok tt)
      /\ training_epochs (trace World s') = py_range (max_epochs cfg).
Proof.
  intros Hs. pose proof (sentinel_schedule_ok cfg Hs) as Hok.
  split; [exact Hok|].
  destruct (run_ok cfg w Hok) as (s' & i & Hrun & _ & _ & _ & Htrace).
  exists s'. split; [exact Hrun|].
  rewrite Htrace. apply training_epochs_expected.
  intros e He. unfold schedule_ok in Hok. rewrite forallb_forall in Hok. apply Hok, He.
Qed.

(** X2. When epoch [e] is the first whose schedule lookup raises (an index
    outside one of the two lists, or a zero frequency), [train] raises
    that exception in epoch [e]: the epochs before it ran as scheduled,
    the training call of epoch [e] has been made, and nothing of epoch
    [e] is logged. *)
Theorem first_failing_epoch (cfg : Config) (w : World) (e : nat) (x : exn) :
  Z.of_nat e < max_epochs cfg ->
  (forall e', (e' < e)%nat -> is_ok (validates cfg e') = true) ->
  validates cfg e = Raise x ->
  exists s',
    train (initial World cfg w) = (s', Raise x)
    /\ trace World s'
       = concat (map (expected_events cfg) (seq 0 e))
         ++ [SetTrainMode true; Train (Z.of_nat e) false]
    /\ training_epochs (trace World s') = map Z.of_nat (seq 0 (S e)).
Proof. apply run_fails. Qed.

(** X3. [train] advances [config.validate_index] in place and never
    resets it: after a complete run the configuration is otherwise
    unchanged and the index is the one reached in the last epoch, at least
    the initial index and at most the initial index plus the number of
    epochs. *)
Theorem validate_index_persists (cfg : Config) (w : World) :
  schedule_ok cfg = true ->
  exists s' i,
    train (initial World cfg w) = (s', Ok tt)
    /\ config World s' = cfg
    /\ cur_validate_index World s' = i
    /\ index_before (validation_periods cfg) (validate_index cfg)
                    (Z.to_nat (max_epochs cfg)) = Ok i
    /\ validate_index cfg <= i <= validate_index cfg + Z.of_nat (Z.to_nat (max_epochs cfg)).
Proof.
  intros Hok. destruct (run_ok cfg w Hok) as (s' & i & Hrun & Hcfg & Hidx & Hcur & _).
  exists s', i. repeat (split; [assumption|]).
  apply (index_before_bounds _ _ _ _ Hidx).
Qed.

(** X4. In a complete run the last [set_train_mode] call of the trainer
    before every training call is [set_train_mode(True)] and before every
    validation call [set_train_mode(False)], whatever was requested before
    the run; after at least one epoch the last [set_train_mode] call of the
    run is [set_train_mode(True)]. *)
Theorem train_modes (cfg : Config) (w : World) :
  schedule_ok cfg = true ->
  exists s',
    train (initial World cfg w) = (s', Ok tt)
    /\ forall mode : bool,
        requests_ok mode (trace World s') = true
        /\ (0 < max_epochs cfg -> requested_mode mode (trace World s') = true).
Proof.
  intros Hok. destruct (run_ok cfg w Hok) as (s' & i & Hrun & _ & _ & _ & Htrace).
  exists s'. split; [exact Hrun|]. intros mode. rewrite Htrace.
  destruct (requests_ok_expected cfg (seq 0 (Z.to_nat (max_epochs cfg))) mode) as [Hm Hf].
  split; [exact Hm|]. intros Hpos. apply Hf.
  - destruct (Z.to_nat (max_epochs cfg)) eqn:E; [lia|discriminate].
  - unfold schedule_ok in Hok. rewrite forallb_forall in Hok. exact Hok.
Qed.

Lemma subclass_sentinel (epochs : Z) (frequencies : list Z) :
  length frequencies = 3%nat ->
  (forall f, In f frequencies -> f <> 0) ->
  epochs <= 102 ->
  sentinel_config (Config_subclass epochs frequencies) = true.
Proof.
  intros Hlen Hnz He. unfold sentinel_config. simpl. rewrite Hlen. simpl.
  assert (Hall : forallb (fun f => negb (Z.eqb f 0)) frequencies = true).
  { apply forallb_forall. intros f Hf. specialize (Hnz f Hf).
    destruct (Z.eqb_spec f 0); [contradiction|reflexivity]. }
  rewrite Hall. simpl. apply Z.ltb_lt. lia.
Qed.

(** X5. A configuration that inherits the thresholds [0, 10, 20, 102] of
    [class Config] and has three non-zero frequencies trains to completion
    if [max_epochs <= 102]; with more epochs [train] raises [IndexError]
    in epoch 102, after 103 training calls. *)
Theorem inherited_thresholds (epochs : Z) (frequencies : list Z) (w : World) :
  length frequencies = 3%nat ->
  (forall f, In f frequencies -> f <> 0) ->
  let cfg := Config_subclass epochs frequencies in
  (epochs <= 102 ->
   exists s', train (initial World cfg w) = (s', Ok tt)
              /\ training_epochs (trace World s') = py_range epochs)
  /\ (102 < epochs ->
      schedule_ok cfg = false
      /\ exists s', train (initial World cfg w) = (s', Raise IndexError)
                    /\ training_epochs (trace World s') = py_range 103).
Proof.
  intros Hlen Hnz cfg. split.
  - intros He.
    pose proof (sentinel_schedule_ok cfg (subclass_sentinel epochs frequencies Hlen Hnz He))
      as Hok.
    destruct (run_ok cfg w Hok) as (s' & i & Hrun & _ & _ & _ & Htrace).
    exists s'. split; [exact Hrun|]. rewrite Htrace.
    apply (training_epochs_expected cfg).
    intros e He'. unfold schedule_ok in Hok. rewrite forallb_forall in Hok. apply Hok, He'.
  - intros He.
    assert (Hbefore : forall e', (e' < 102)%nat -> is_ok (validates cfg e') = true).
    { pose proof (sentinel_schedule_ok _ (subclass_sentinel 102 frequencies Hlen Hnz
                                            ltac:(lia))) as Hok.
      unfold schedule_ok in Hok. rewrite forallb_forall in Hok.
      intros e' He'. apply (Hok e'). apply in_seq. simpl. lia. }
    assert (Hfail : validates cfg 102 = Raise IndexError).
    { unfold validates.
      replace (index_at (validation_periods cfg) (validate_index cfg) 102) with (Ok 3 : result Z)
        by (vm_compute; reflexivity).
      simpl. rewrite py_getitem_above by (rewrite Hlen; simpl; lia). reflexivity. }
    split.
    + unfold schedule_ok. apply not_true_is_false. intros Hok.
      rewrite forallb_forall in Hok. specialize (Hok 102%nat).
      rewrite Hfail in Hok. simpl in Hok. discriminate Hok.
      apply in_seq. simpl. lia.
    + destruct (run_fails cfg w 102 IndexError) as (s' & Hrun & _ & Htr);
        [simpl; lia|exact Hbefore|exact Hfail|].
      exists s'. split; [exact Hrun|exact Htr].
Qed.

(** X6. When every frequency is 1, as in [GAN_CONFIG], a complete run
    validates in every epoch. *)
Theorem unit_frequencies_validate_every_epoch (cfg : Config) (w : World) :
  schedule_ok cfg = true ->
  (forall f, In f (validation_frequencies cfg) -> f = 1) ->
  exists s',
    train (initial World cfg w) = (s', Ok tt)
    /\ validation_calls (trace World s') = py_range (max_epochs cfg).
Proof.
  intros Hok Hone. destruct (run_ok cfg w Hok) as (s' & i & Hrun & _ & _ & _ & Htrace).
  exists s'. split; [exact Hrun|]. rewrite Htrace.
  apply validation_calls_all. intros e He.
  unfold schedule_ok in Hok. rewrite forallb_forall in Hok. specialize (Hok e He).
  assert (Hb : exists idx, index_before (validation_periods cfg) (validate_index cfg) e = Ok idx).
  { unfold validates, index_at in Hok. simpl in Hok.
    destruct (index_before (validation_periods cfg) (validate_index cfg) e) as [idx|];
      [eauto|discriminate]. }
  destruct Hb as [idx Hb].
  destruct (validates_inv cfg e idx Hb Hok) as (j & f & _ & _ & Hf & _ & Hv).
  rewrite Hv. rewrite (Hone f (py_getitem_In _ _ _ Hf)).
  rewrite Z.mod_1_r. reflexivity.
Qed.

End Run.

(** *** Concrete runs *)

Definition GAN_CONFIG : Config := Config_subclass 101 [1; 1; 1].

(** [PGGAN_CONFIG] with [target_resolution = 128] and four epochs per
    phase: 48 epochs. *)
Definition PGGAN_CONFIG : Config := Config_subclass 48 [1; 1; 1].

Definition demo_run (cfg : Config) : state nat * result unit :=
  Trainer.demo_train cfg (initial nat cfg 0%nat).

Example PGGAN_validations :
  validation_calls (trace nat (fst (demo_run PGGAN_CONFIG))) = py_range 48.
Proof. vm_compute. reflexivity. Qed.

Lemma sentinel_run_completes_witness :
  sentinel_config Config_default = true
  /\ snd (demo_run Config_default) = Ok tt.
Proof.
  assert (H : sentinel_config Config_default = true) by (vm_compute; reflexivity).
  split; [exact H|].
  destruct (sentinel_run_completes nat unit unit (fun _ w => S w) (fun _ => tt) (fun _ => tt)
              (fun _ _ _ _ w => (tt, S w)) (fun _ _ _ w => S w) (fun _ _ w => S w)
              Config_default 0%nat H) as (_ & s' & Hrun & _).
  unfold demo_run, Trainer.demo_train. rewrite Hrun. reflexivity.
Defined.

Lemma first_failing_epoch_witness :
  Z.of_nat 102 < max_epochs Config_long
  /\ validates Config_long 102 = Raise IndexError
  /\ snd (demo_run Config_long) = Raise IndexError.
Proof.
  assert (H1 : Z.of_nat 102 < max_epochs Config_long) by (vm_compute; reflexivity).
  assert (H2 : forall e', (e' < 102)%nat -> is_ok (validates Config_long e') = true).
  { assert (Hall : forallb (fun e => is_ok (validates Config_long e)) (seq 0 102) = true)
      by (vm_compute; reflexivity).
    rewrite forallb_forall in Hall. intros e' He'. apply Hall. apply in_seq. simpl. lia. }
  assert (H3 : validates Config_long 102 = Raise IndexError) by (vm_compute; reflexivity).
  split; [exact H1|]. split; [exact H3|].
  destruct (first_failing_epoch nat unit unit (fun _ w => S w) (fun _ => tt) (fun _ => tt)
              (fun _ _ _ _ w => (tt, S w)) (fun _ _ _ w => S w) (fun _ _ w => S w)
              Config_long 0%nat 102%nat IndexError H1 H2 H3) as (s' & Hrun & _).
  unfold demo_run, Trainer.demo_train. rewrite Hrun. reflexivity.
Defined.

Lemma validate_index_persists_witness :
  schedule_ok Config_default = true
  /\ cur_validate_index nat (fst (demo_run Config_default)) = 2.
Proof.
  assert (H : schedule_ok Config_default = true) by (vm_compute; reflexivity).
  split; [exact H|].
  destruct (validate_index_persists nat unit unit (fun _ w => S w) (fun _ => tt)
              (fun _ => tt) (fun _ _ _ _ w => (tt, S w)) (fun _ _ _ w => S w)
              (fun _ _ w => S w) Config_default 0%nat H)
    as (s' & i & Hrun & _ & Hcur & Hidx & _).
  unfold demo_run, Trainer.demo_train. rewrite Hrun. simpl. rewrite Hcur.
  assert (Hi : index_before (validation_periods Config_default)
                 (validate_index Config_default) (Z.to_nat (max_epochs Config_default))
               = Ok 2) by (vm_compute; reflexivity).
  rewrite Hi in Hidx. injection Hidx as <-. reflexivity.
Defined.

Lemma train_modes_witness :
  schedule_ok Config_default = true
  /\ requests_ok false (trace nat (fst (demo_run Config_default))) = true.
Proof.
  assert (H : schedule_ok Config_default = true) by (vm_compute; reflexivity).
  split; [exact H|].
  destruct (train_modes nat unit unit (fun _ w => S w) (fun _ => tt)
              (fun _ => tt) (fun _ _ _ _ w => (tt, S w)) (fun _ _ _ w => S w)
              (fun _ _ w => S w) Config_default 0%nat H) as (s' & Hrun & Hmodes).
  unfold demo_run, Trainer.demo_train. rewrite Hrun. simpl. apply Hmodes.
Defined.

Lemma inherited_thresholds_witness :
  length [2; 5; 20] = 3%nat
  /\ (forall f, In f [2; 5; 20] -> f <> 0)
  /\ snd (demo_run (Config_subclass 200 [2; 5; 20])) = Raise IndexError
  /\ snd (demo_run (Config_subclass 102 [2; 5; 20])) = Ok tt.
Proof.
  assert (H1 : length [2; 5; 20] = 3%nat) by reflexivity.
  assert (H2 : forall f, In f [2; 5; 20] -> f <> 0).
  { intros f [<-|[<-|[<-|[]]]]; discriminate. }
  split; [exact H1|]. split; [exact H2|]. split.
  - destruct (inherited_thresholds nat unit unit (fun _ w => S w) (fun _ => tt)
                (fun _ => tt) (fun _ _ _ _ w => (tt, S w)) (fun _ _ _ w => S w)
                (fun _ _ w => S w) 200 [2; 5; 20] 0%nat H1 H2) as [_ Hlong].
    destruct (Hlong ltac:(lia)) as (_ & s' & Hrun & _).
    unfold demo_run, Trainer.demo_train. rewrite Hrun. reflexivity.
  - destruct (inherited_thresholds nat unit unit (fun _ w => S w) (fun _ => tt)
                (fun _ => tt) (fun _ _ _ _ w => (tt, S w)) (fun _ _ _ w => S w)
                (fun _ _ w => S w) 102 [2; 5; 20] 0%nat H1 H2) as [Hshort _].
    destruct (Hshort ltac:(lia)) as (s' & Hrun & _).
    unfold demo_run, Trainer.demo_train. rewrite Hrun. reflexivity.
Defined.

Lemma unit_frequencies_validate_every_epoch_witness :
  schedule_ok GAN_CONFIG = true
  /\ (forall f, In f (validation_frequencies GAN_CONFIG) -> f = 1)
  /\ validation_calls (trace nat (fst (demo_run GAN_CONFIG))) = py_range 101.
Proof.
  assert (H1 : schedule_ok GAN_CONFIG = true) by (vm_compute; reflexivity).
  assert (H2 : forall f, In f (validation_frequencies GAN_CONFIG) -> f = 1).
  { intros f [<-|[<-|[<-|[]]]]; reflexivity. }
  split; [exact H1|]. split; [exact H2|].
  destruct (unit_frequencies_validate_every_epoch nat unit unit (fun _ w => S w)
              (fun _ => tt) (fun _ => tt) (fun _ _ _ _ w => (tt, S w)) (fun _ _ _ w => S w)
              (fun _ _ w => S w) GAN_CONFIG 0%nat H1 H2) as (s' & Hrun & Hv).
  unfold demo_run, Trainer.demo_train. rewrite Hrun. exact Hv.
Defined.

End TrainerProperties.

(** ** Preprocessor/ImageDataset.py: which combined datasets are usable *)

Module ImageDatasetProperties.

Import ImageDataset.

Section Usable.
Context {Sample Image Label : Type}.
Variable transform : Sample -> Image.

Lemma getitem_mod (self : @ImageDatesetCombined Sample Label) (i : Z) :
  size_multiplicator self <> 0 ->
  getitem transform self i
  = (a <-! folder_getitem transform (dataset_a self) (i mod size_multiplicator self);
     b <-! folder_getitem transform (dataset_b self) (i mod size_multiplicator self);
     Ok (fst a, fst b)).
Proof.
  intros Hm. unfold getitem, py_mod.
  destruct (Z.eqb_spec (size_multiplicator self) 0); [contradiction|reflexivity].
Qed.

Lemma getitem_succeeds (self : @ImageDatesetCombined Sample Label) (i : Z) :
  0 < size_multiplicator self ->
  i mod size_multiplicator self < smaller_len self ->
  exists x, getitem transform self i = Ok x.
Proof.
  intros Hm Hk. rewrite getitem_mod by lia.
  pose proof (Z.mod_pos_bound i _ Hm) as Hb. unfold smaller_len in Hk.
  destruct (folder_getitem_in_range transform (dataset_a self) (i mod size_multiplicator self))
    as (sa & ta & _ & Ha); [lia|].
  destruct (folder_getitem_in_range transform (dataset_b self) (i mod size_multiplicator self))
    as (sb & tb & _ & Hb'); [lia|].
  rewrite Ha, Hb'. simpl. eauto.
Qed.

Lemma getitem_index_error (self : @ImageDatesetCombined Sample Label) (i : Z) :
  0 < size_multiplicator self ->
  smaller_len self <= i mod size_multiplicator self ->
  getitem transform self i = Raise IndexError.
Proof.
  intros Hm Hk. rewrite getitem_mod by lia.
  pose proof (Z.mod_pos_bound i _ Hm) as Hb. unfold smaller_len in Hk.
  set (k := i mod size_multiplicator self) in *.
  destruct (Z_lt_le_dec k (folder_len (dataset_a self))) as [Hka|Hka].
  - destruct (folder_getitem_in_range transform (dataset_a self) k) as (sa & ta & _ & Ha);
      [lia|].
    rewrite Ha. simpl. rewrite folder_getitem_above by lia. reflexivity.
  - rewrite folder_getitem_above by lia. reflexivity.
Qed.

(** X7. A combined dataset with at least one valid index answers every
    valid index without [IndexError] exactly when its size multiplicator
    is at most the size of the smaller folder; otherwise the index equal
    to that size is valid and raises. With multiplicator 0 every lookup
    raises [ZeroDivisionError]. *)
Theorem usable_iff_small_multiplicator (self : @ImageDatesetCombined Sample Label) :
  (0 < len self ->
   ((forall i, 0 <= i < len self -> exists x, getitem transform self i = Ok x)
    <-> size_multiplicator self <= smaller_len self)
   /\ (smaller_len self < size_multiplicator self ->
       0 <= smaller_len self < len self
       /\ getitem transform self (smaller_len self) = Raise IndexError))
  /\ (size_multiplicator self = 0 ->
      len self = 0 /\ forall i, getitem transform self i = Raise ZeroDivisionError).
Proof.
  split.
  - intros Hlen.
    destruct (valid_index_multiplicator_pos self 0) as [Hm Hs]; [lia|].
    assert (Hbad : smaller_len self < size_multiplicator self ->
                   0 <= smaller_len self < len self
                   /\ getitem transform self (smaller_len self) = Raise IndexError).
    { intros Hlt.
      assert (Hin : 0 <= smaller_len self < len self).
      { unfold len. fold (smaller_len self). nia. }
      split; [exact Hin|].
      apply getitem_index_error; [assumption|].
      rewrite Z.mod_small by lia. lia. }
    split; [|exact Hbad]. split.
    + intros Hall. destruct (Z_lt_le_dec (smaller_len self) (size_multiplicator self))
        as [Hlt|Hle]; [|lia].
      destruct (Hbad Hlt) as [Hin Hraise].
      destruct (Hall _ Hin) as [x Hx]. rewrite Hraise in Hx. discriminate.
    + intros Hle i Hi. apply getitem_succeeds; [assumption|].
      pose proof (Z.mod_pos_bound i _ Hm). lia.
  - intros H0. split.
    + unfold len. rewrite H0. lia.
    + intros i. unfold getitem, py_mod. rewrite H0. reflexivity.
Qed.

End Usable.

(** Two folders of twelve and eleven samples under the default
    multiplicator 10. *)
Definition twelve_eleven : @ImageDatesetCombined nat nat :=
  {| size_multiplicator := 10;
     dataset_a := {| samples := map (fun n => (n, O)) (seq 0 12) |};
     dataset_b := {| samples := map (fun n => (n, 1%nat)) (seq 100 11) |} |}.

Lemma usable_iff_small_multiplicator_witness :
  0 < len twelve_eleven
  /\ (forall i, 0 <= i < len twelve_eleven ->
      exists x, getitem (fun s => s) twelve_eleven i = Ok x)
  /\ smaller_len demo < size_multiplicator demo
  /\ getitem (fun s => s) demo (smaller_len demo) = Raise IndexError.
Proof.
  assert (H1 : 0 < len twelve_eleven) by (vm_compute; reflexivity).
  assert (H2 : 0 < len demo) by (vm_compute; reflexivity).
  assert (H3 : smaller_len demo < size_multiplicator demo) by (vm_compute; reflexivity).
  split; [exact H1|]. split; [|split; [exact H3|]].
  - destruct (usable_iff_small_multiplicator (fun s => s) twelve_eleven) as [H _].
    destruct (H H1) as [[_ Hok] _]. apply Hok. vm_compute. discriminate.
  - destruct (usable_iff_small_multiplicator (fun s => s) demo) as [H _].
    destruct (H H2) as [_ Hbad]. apply (Hbad H3).
Defined.

End ImageDatasetProperties.

(** ** Models/DeepFake/DeepFakeOriginal.py: validation, empty loaders and
    what training leaves alone *)

Module DeepFakeProperties.

Import DeepFake.

#[local] Arguments heap {EP DP AS SS ImgSize} w.
#[local] Arguments self {EP DP AS SS ImgSize} w.
#[local] Arguments trace {EP DP AS SS ImgSize} w.
#[local] Arguments wf {EP DP AS SS ImgSize} s.
#[local] Arguments has_view {EP DP AS SS ImgSize} s v.
#[local] Arguments encoder {AS SS ImgSize} d.
#[local] Arguments decoder1 {AS SS ImgSize} d.
#[local] Arguments decoder2 {AS SS ImgSize} d.
#[local] Arguments autoencoder1 {AS SS ImgSize} d.
#[local] Arguments autoencoder2 {AS SS ImgSize} d.
#[local] Arguments optimizer1 {AS SS ImgSize} d.
#[local] Arguments optimizer2 {AS SS ImgSize} d.
#[local] Arguments v_encoder {EP DP} v.
#[local] Arguments v_decoder1 {EP DP} v.
#[local] Arguments v_decoder2 {EP DP} v.
#[local] Arguments g_encoder {EP DP} v.
#[local] Arguments g_decoder1 {EP DP} v.
#[local] Arguments g_decoder2 {EP DP} v.
#[local] Arguments out_value {EP DP} o.
#[local] Arguments loss_value {EP DP} l.
#[local] Arguments lossfn {EP DP} o target.
#[local] Arguments w {EP DP} m.
#[local] Arguments grad {EP DP} m.

Section Model.
Variables EP DP AS SS ImgSize : Type.
Variable encoder_forward : EP -> list Q -> list Q.
Variable decoder_forward : DP -> list Q -> list Q.
Variable adam_encoder : AS -> EP -> list (loss_term EP DP) -> EP.
Variable adam_decoder : AS -> DP -> list (loss_term EP DP) -> DP.
Variable adam_tick : AS -> AS.
Variable scheduler_step : SS -> Q -> Z -> AS -> SS * AS.

Let world := world EP DP AS SS ImgSize.
Let call_autoencoder := call_autoencoder EP DP AS SS ImgSize encoder_forward decoder_forward.
Let train := train EP DP AS SS ImgSize encoder_forward decoder_forward adam_encoder
               adam_decoder adam_tick scheduler_step.
Let train_loop := train_loop EP DP AS SS ImgSize encoder_forward decoder_forward adam_encoder
                    adam_decoder adam_tick.

(** The body of the loop of [validate], run under [torch.no_grad()]. *)
Definition validate_batch (acc : locals) (b : batch) : M world locals :=
  let '((face1_warped, face1), (face2_warped, face2)) := b in
  let* s := mget in
  let* output1 := call_autoencoder (autoencoder1 (self s)) face1_warped in
  let loss1_valid_mean := (loss1_mean acc + loss_value (lossfn output1 face1))%Q in
  let* s := mget in
  let* output2 := call_autoencoder (autoencoder2 (self s)) face2_warped in
  let loss2_valid_mean := (loss2_mean acc + loss_value (lossfn output2 face2))%Q in
  mret {| loss1_mean := loss1_valid_mean;
          loss2_mean := loss2_valid_mean;
          images := [face1_warped; out_value output1; face1;
                     face2_warped; out_value output2; face2];
          iterations := iterations acc + 1 |}.

Fixpoint validate_loop (l : list batch) (acc : locals) : M world locals :=
  match l with
  | [] => mret acc
  | b :: l' => let* acc := validate_batch acc b in validate_loop l' acc
  end.

(** [validate(self, validation_data_loader, batch_size, **kwargs)] *)
Definition validate (validation_data_loader : list batch) (batch_size : Z)
  : M world (Q * Q * list (list Q)) :=
  let* acc := validate_loop validation_data_loader
                {| loss1_mean := 0; loss2_mean := 0; images := []; iterations := 0 |} in
  let* loss1_valid_mean := mlift (py_div (loss1_mean acc) (iterations acc)) in
  let* loss2_valid_mean := mlift (py_div (loss2_mean acc) (iterations acc)) in
  mret (loss1_valid_mean, loss2_valid_mean, images acc).

(** The outputs and losses of the two autoencoders on a batch, for given
    weights. *)
Definition output1_of (v : view EP DP) (b : batch) : list Q :=
  decoder_forward (v_decoder1 v) (encoder_forward (v_encoder v) (fst (fst b))).

Definition output2_of (v : view EP DP) (b : batch) : list Q :=
  decoder_forward (v_decoder2 v) (encoder_forward (v_encoder v) (fst (snd b))).

Definition loss1_of (v : view EP DP) (b : batch) : Q :=
  L1Loss (output1_of v b) (snd (fst b)).

Definition loss2_of (v : view EP DP) (b : batch) : Q :=
  L1Loss (output2_of v b) (snd (snd b)).

Definition forwards (m : DeepFakeOriginal AS SS ImgSize) (b : batch) : list event :=
  [Forward (autoencoder1 m) (fst (fst b)); Forward (autoencoder2 m) (fst (snd b))].

Definition images_of (v : view EP DP) (b : batch) : list (list Q) :=
  [fst (fst b); output1_of v b; snd (fst b); fst (snd b); output2_of v b; snd (snd b)].

Definition is_forward (ev : event) : bool :=
  match ev with Forward _ _ => true | _ => false end.

Lemma validate_batch_spec (s : world) (v : view EP DP) (acc : locals) (b : batch) :
  wf s = true -> has_view s v ->
  validate_batch acc b s
  = ({| heap := heap s; self := self s; trace := trace s ++ forwards (self s) b |},
     Ok {| loss1_mean := (loss1_mean acc + loss1_of v b)%Q;
           loss2_mean := (loss2_mean acc + loss2_of v b)%Q;
           images := images_of v b;
           iterations := iterations acc + 1 |}).
Proof.
  intros Hwf (He & Hd1 & Hd2).
  destruct (wf_inv _ _ _ _ _ s Hwf) as (_ & _ & _ & Hae1 & Hae2 & _).
  destruct b as [[face1_warped face1] [face2_warped face2]].
  unfold validate_batch, call_autoencoder, DeepFake.call_autoencoder, mbind, mget, mlift,
    log, mmodify, mret, forwards, loss1_of, loss2_of, images_of, output1_of, output2_of.
  simpl.
  rewrite Hae1, (forward_view _ _ _ _ _ _ _ _ _ _ _ face1_warped He Hd1). simpl.
  rewrite Hae2, (forward_view _ _ _ _ _ _ _ _ _ _ _ face2_warped He Hd2). simpl.
  rewrite <- app_assoc. reflexivity.
Qed.

Lemma validate_loop_spec (l : list batch) : forall (s : world) (v : view EP DP) (acc : locals),
  wf s = true -> has_view s v ->
  exists acc',
    validate_loop l acc s
    = ({| heap := heap s; self := self s;
          trace := trace s ++ flat_map (forwards (self s)) l |}, Ok acc')
    /\ (loss1_mean acc' == loss1_mean acc + Qsum (map (loss1_of v) l))%Q
    /\ (loss2_mean acc' == loss2_mean acc + Qsum (map (loss2_of v) l))%Q
    /\ iterations acc' = iterations acc + Z.of_nat (length l)
    /\ images acc' = match last l with Some b => images_of v b | None => images acc end.
Proof.
  induction l as [|b l IH]; intros s v acc Hwf Hv.
  - exists acc. simpl. unfold mret. rewrite app_nil_r. destruct s. simpl.
    repeat split; try reflexivity; try ring; try lia.
  - simpl. unfold mbind at 1. rewrite (validate_batch_spec s v acc b Hwf Hv).
    set (s1 := {| heap := heap s; self := self s; trace := trace s ++ forwards (self s) b |}).
    assert (Hwf1 : wf s1 = true) by exact Hwf.
    assert (Hv1 : has_view s1 v) by exact Hv.
    destruct (IH s1 v {| loss1_mean := (loss1_mean acc + loss1_of v b)%Q;
                         loss2_mean := (loss2_mean acc + loss2_of v b)%Q;
                         images := images_of v b;
                         iterations := iterations acc + 1 |} Hwf1 Hv1)
      as (acc' & Hrun & H1 & H2 & H3 & H4).
    exists acc'. rewrite Hrun. simpl. rewrite <- app_assoc.
    split; [reflexivity|].
    split; [rewrite H1; simpl; ring|]. split; [rewrite H2; simpl; ring|].
    split; [rewrite H3; simpl; lia|].
    rewrite H4. destruct l as [|b' l']; [reflexivity|].
    change (last (b :: b' :: l')) with (last (b' :: l')).
    destruct (last (b' :: l')) eqn:E; [reflexivity|].
    apply last_None in E. discriminate.
Qed.

(** X8. [validate] changes nothing: the store (weights and gradients of
    every module) and the object are as before, and the only calls are one
    forward pass per autoencoder and batch. On a non-empty loader it
    returns the arithmetic means of the two L1 losses over the batches,
    with inputs, outputs and targets of the last batch. *)
Theorem validate_frame (s : world) (v : view EP DP) (loader : list batch) (batch_size : Z) :
  wf s = true -> has_view s v ->
  let r := validate loader batch_size s in
  heap (fst r) = heap s
  /\ self (fst r) = self s
  /\ trace (fst r) = trace s ++ flat_map (forwards (self s)) loader
  /\ forallb is_forward (flat_map (forwards (self s)) loader) = true
  /\ (loader <> [] ->
      exists l1 l2 b,
        last loader = Some b
        /\ snd r = Ok (l1, l2, images_of v b)
        /\ (l1 == Qmean (map (loss1_of v) loader))%Q
        /\ (l2 == Qmean (map (loss2_of v) loader))%Q).
Proof.
  intros Hwf Hv r.
  destruct (validate_loop_spec loader s v
              {| loss1_mean := 0; loss2_mean := 0; images := []; iterations := 0 |} Hwf Hv)
    as (acc & Hrun & H1 & H2 & H3 & H4).
  simpl in H1, H2, H3, H4.
  assert (Hfst : fst r = {| heap := heap s; self := self s;
                            trace := trace s ++ flat_map (forwards (self s)) loader |}).
  { unfold r, validate, mbind, mlift, py_div, mret. rewrite Hrun.
    destruct (Z.eqb (iterations acc) 0); reflexivity. }
  rewrite Hfst. simpl. repeat (split; [reflexivity|]). split.
  { clear. induction loader as [|b l IH]; [reflexivity|]. simpl. exact IH. }
  intros Hne.
  assert (Hit : iterations acc <> 0) by (destruct loader; [contradiction|simpl in H3; lia]).
  destruct (last loader) as [b|] eqn:Hlast;
    [|apply last_None in Hlast; contradiction].
  exists (loss1_mean acc / inject_Z (iterations acc))%Q,
         (loss2_mean acc / inject_Z (iterations acc))%Q, b.
  split; [reflexivity|]. split.
  { unfold r, validate, mbind, mlift, py_div, mret. rewrite Hrun.
    destruct (Z.eqb_spec (iterations acc) 0); [contradiction|]. simpl. rewrite H4.
    reflexivity. }
  unfold Qmean. rewrite !length_map, H1, H2, H3, !Qplus_0_l. simpl. split; reflexivity.
Qed.

(** X9. On an empty loader [train] and [validate] raise
    [ZeroDivisionError] when dividing the summed losses, before any
    scheduler step: store, object and trace are as before. *)
Theorem empty_loader_raises (s : world) (batch_size current_epoch : Z) :
  train [] batch_size current_epoch s = (s, Raise ZeroDivisionError)
  /\ validate [] batch_size s = (s, Raise ZeroDivisionError).
Proof. split; reflexivity. Qed.

(** A whole call of [train], with what it does not touch. *)
Lemma train_frame_run (s : world) (bs : list batch) (batch_size current_epoch : Z) :
  wf s = true -> bs <> [] ->
  exists s' r,
    train bs batch_size current_epoch s = (s', Ok r)
    /\ wf s' = true
    /\ encoder (self s') = encoder (self s)
    /\ decoder1 (self s') = decoder1 (self s)
    /\ decoder2 (self s') = decoder2 (self s)
    /\ autoencoder1 (self s') = autoencoder1 (self s)
    /\ autoencoder2 (self s') = autoencoder2 (self s)
    /\ (forall r, r <> encoder (self s) -> r <> decoder1 (self s) ->
                  r <> decoder2 (self s) -> heap s' !! r = heap s !! r)
    /\ dom (heap s') = dom (heap s).
Proof.
  intros Hwf Hbs.
  destruct (train_loop_spec _ _ _ _ _ encoder_forward decoder_forward adam_encoder
              adam_decoder adam_tick bs s
              {| loss1_mean := 0; loss2_mean := 0; images := []; iterations := 0 |} Hwf)
    as (s1 & acc & Hrun & Hwf1 & _ & Hit & _ & Hh & He & Hd1 & Hd2).
  simpl in Hit.
  assert (Hpos : iterations acc <> 0) by (destruct bs; [contradiction|simpl in Hit; lia]).
  set (l1 := (loss1_mean acc / inject_Z (iterations acc))%Q).
  set (l2 := (loss2_mean acc / inject_Z (iterations acc))%Q).
  destruct (scheduler_call_spec _ _ _ _ _ scheduler_step Opt1 l1 current_epoch s1 Hwf1)
    as (s2 & Hrun2 & Hwf2 & _ & Hh2 & Ha2 & Hb2).
  destruct (scheduler_call_spec _ _ _ _ _ scheduler_step Opt2 l2 current_epoch s2 Hwf2)
    as (s3 & Hrun3 & Hwf3 & _ & Hh3 & Ha3 & Hb3).
  destruct (wf_inv _ _ _ _ _ s Hwf) as (_ & _ & _ & Hae1 & Hae2 & _ & _ & v & Hv).
  destruct (wf_inv _ _ _ _ _ s1 Hwf1) as (_ & _ & _ & Hae11 & Hae21 & _).
  destruct (wf_inv _ _ _ _ _ s3 Hwf3) as (_ & _ & _ & Hae13 & Hae23 & _ & _ & v3 & Hv3).
  assert (Hrefs : encoder (self s3) = encoder (self s)
                  /\ decoder1 (self s3) = decoder1 (self s)
                  /\ decoder2 (self s3) = decoder2 (self s)).
  { rewrite Ha2, Hae11 in Ha3. rewrite Hb2, Hae21 in Hb3.
    rewrite Hae13 in Ha3. rewrite Hae23 in Hb3.
    injection Ha3 as Ha3e Ha3d. injection Hb3 as _ Hb3d.
    rewrite Ha3e, Ha3d, Hb3d. auto. }
  destruct Hrefs as (Hr1 & Hr2 & Hr3).
  assert (Hframe : forall r, r <> encoder (self s) -> r <> decoder1 (self s) ->
                             r <> decoder2 (self s) -> heap s3 !! r = heap s !! r).
  { intros r H1 H2 H3. rewrite Hh3, Hh2. apply Hh; assumption. }
  exists s3, (l1, l2, images acc).
  split.
  { unfold train, DeepFake.train, mbind, mlift, py_div, mret. fold train_loop.
    unfold train_loop. rewrite Hrun.
    destruct (Z.eqb_spec (iterations acc) 0) as [?|_]; [contradiction|].
    fold l1 l2. rewrite Hrun2, Hrun3. reflexivity. }
  split; [assumption|]. repeat (split; [assumption|]).
  split; [congruence|]. split; [congruence|]. split; [exact Hframe|].
  apply set_eq. intros r. rewrite !elem_of_dom.
  destruct Hv as (Hve & Hvd1 & Hvd2). destruct Hv3 as (Hve3 & Hvd13 & Hvd23).
  rewrite Hr1 in Hve3. rewrite Hr2 in Hvd13. rewrite Hr3 in Hvd23.
  destruct (decide (r = encoder (self s))) as [->|H1];
    [rewrite Hve, Hve3; split; eauto|].
  destruct (decide (r = decoder1 (self s))) as [->|H2];
    [rewrite Hvd1, Hvd13; split; eauto|].
  destruct (decide (r = decoder2 (self s))) as [->|H3];
    [rewrite Hvd2, Hvd23; split; eauto|].
  rewrite Hframe by assumption. reflexivity.
Qed.

(** X10. A call of [train] on a non-empty loader keeps the object well
    formed, allocates nothing, keeps the three module references and the
    two autoencoders, and leaves every other object of the store as it
    was. *)
Theorem train_frame (s : world) (bs : list batch) (batch_size current_epoch : Z) :
  wf s = true -> bs <> [] ->
  exists s' r,
    train bs batch_size current_epoch s = (s', Ok r)
    /\ wf s' = true
    /\ encoder (self s') = encoder (self s)
    /\ decoder1 (self s') = decoder1 (self s)
    /\ decoder2 (self s') = decoder2 (self s)
    /\ autoencoder1 (self s') = autoencoder1 (self s)
    /\ autoencoder2 (self s') = autoencoder2 (self s)
    /\ (forall r, r <> encoder (self s) -> r <> decoder1 (self s) ->
                  r <> decoder2 (self s) -> heap s' !! r = heap s !! r)
    /\ dom (heap s') = dom (heap s).
Proof. apply train_frame_run. Qed.

End Model.

(** *** Checkpoints: Models/ModelUtils/ModelUtils.py, [CustomModule.save],
    [CustomModule.load], [CombinedModel.save_model] and
    [CombinedModel.load_model], with [get_models] and [get_model_names] of
    DeepFakeOriginal.py *)

(** Exceptions of the file and tensor libraries, besides the built-in
    ones. *)
Inductive raised : Set :=
| Builtin (e : exn)
| ValueError
| FileNotFoundError
| StateDictError.

Inductive outcome (A : Type) : Type :=
| Returns (a : A)
| Raises (e : raised).
Arguments Returns {A} a.
Arguments Raises {A} e.

Definition obind {A B} (r : outcome A) (k : A -> outcome B) : outcome B :=
  match r with
  | Returns a => k a
  | Raises e => Raises e
  end.

Definition lift {A} (r : result A) : outcome A :=
  match r with
  | Ok a => Returns a
  | Raise e => Raises (Builtin e)
  end.

Notation "x <-? r ; k" := (obind r (fun x => k))
  (at level 100, r at next level, right associativity, only parsing).

Section Checkpoint.
Variables EP DP AS SS ImgSize : Type.
Variable encoder_forward : EP -> list Q -> list Q.
Variable decoder_forward : DP -> list Q -> list Q.

Let world := world EP DP AS SS ImgSize.
Let anonymize := anonymize EP DP AS SS ImgSize encoder_forward decoder_forward.

(** [get_models] and [get_model_names] *)
Definition get_models (m : DeepFakeOriginal AS SS ImgSize) : list nat :=
  [encoder m; decoder1 m; decoder2 m].

Definition get_model_names : list string :=
  ["encoder"%string; "decoder1"%string; "decoder2"%string].

(** [name + '.model'] *)
Definition model_file (name : string) : string := String.append name ".model".

(** [CustomModule.save]: [torch.save(self.state_dict(), path)]. A path is
    the list of its components; directories are not modelled. *)
Definition module_save (h : gmap nat (module_obj EP DP)) (r : nat) (path : list string)
    (files : gmap (list string) (weights EP DP)) : outcome (gmap (list string) (weights EP DP)) :=
  match h !! r with
  | Some m => Returns (<[path := w m]> files)
  | None => Raises (Builtin TypeError)
  end.

Definition same_kind (a b : weights EP DP) : bool :=
  match a, b with
  | EncoderW _ _ _, EncoderW _ _ _ | DecoderW _ _ _, DecoderW _ _ _ => true
  | _, _ => false
  end.

(** [CustomModule.load]: [self.load_state_dict(torch.load(path))]; the
    weights are replaced in place, the gradients stay. *)
Definition module_load (h : gmap nat (module_obj EP DP)) (r : nat) (path : list string)
    (files : gmap (list string) (weights EP DP)) : outcome (gmap nat (module_obj EP DP)) :=
  match files !! path with
  | None => Raises FileNotFoundError
  | Some state_dict =>
      match h !! r with
      | Some m =>
          if same_kind (w m) state_dict
          then Returns (<[r := {| w := state_dict; grad := grad m |}]> h)
          else Raises StateDictError
      | None => Raises (Builtin TypeError)
      end
  end.

(** [for name, model in zip(names, models): model.save(path / (name + '.model'))] *)
Fixpoint save_each (h : gmap nat (module_obj EP DP)) (path : list string)
    (l : list (string * nat)) (files : gmap (list string) (weights EP DP))
  : outcome (gmap (list string) (weights EP DP)) :=
  match l with
  | [] => Returns files
  | (name, model) :: l' =>
      files <-? module_save h model (path ++ [model_file name]) files;
      save_each h path l' files
  end.

Fixpoint load_each (h : gmap nat (module_obj EP DP)) (path : list string)
    (l : list (string * nat)) (files : gmap (list string) (weights EP DP))
  : outcome (gmap nat (module_obj EP DP)) :=
  match l with
  | [] => Returns h
  | (name, model) :: l' =>
      h <-? module_load h model (path ++ [model_file name]) files;
      load_each h path l' files
  end.

(** [CombinedModel.save_model]: everything goes below [path / 'model']. *)
Definition save_model (s : world) (path : list string)
    (files : gmap (list string) (weights EP DP)) : outcome (gmap (list string) (weights EP DP)) :=
  let path := path ++ ["model"%string] in
  save_each (heap s) path (zip get_model_names (get_models (self s))) files.

(** [CombinedModel.load_model]: the files are read from [path] itself. *)
Definition load_model (s : world) (path : list string)
    (files : gmap (list string) (weights EP DP)) : outcome world :=
  h <-? load_each (heap s) path (zip get_model_names (get_models (self s))) files;
  Returns {| heap := h; self := self s; trace := trace s |}.

Definition saved_paths (path : list string) : list (list string) :=
  map (fun name => path ++ ["model"%string; model_file name]) get_model_names.

Lemma checkpoint_run (s s2 : world) (v v2 : view EP DP) (path : list string)
    (files : gmap (list string) (weights EP DP)) (x : list Q) :
  wf s = true -> has_view s v -> wf s2 = true -> has_view s2 v2 ->
  exists files',
    save_model s path files = Returns files'
    /\ (forall p, ~ In p (saved_paths path) -> files' !! p = files !! p)
    /\ (exists s3,
          load_model s2 (path ++ ["model"%string]) files' = Returns s3
          /\ self s3 = self s2
          /\ wf s3 = true
          /\ has_view s3 {| v_encoder := v_encoder v; g_encoder := g_encoder v2;
                            v_decoder1 := v_decoder1 v; g_decoder1 := g_decoder1 v2;
                            v_decoder2 := v_decoder2 v; g_decoder2 := g_decoder2 v2 |}
          /\ snd (anonymize x s3) = snd (anonymize x s))
    /\ (files !! (path ++ [model_file "encoder"]) = None ->
        load_model s2 path files' = Raises FileNotFoundError).
Proof.
  intros Hwf Hv Hwf2 Hv2.
  destruct (wf_inv _ _ _ _ _ s2 Hwf2) as (Hn1 & Hn2 & Hn3 & Hae1 & Hae2 & Hp1 & Hp2 & _).
  pose proof Hv as (He & Hd1 & Hd2). pose proof Hv2 as (He2 & Hd12 & Hd22).
  set (dir := path ++ ["model"%string]).
  set (pe := dir ++ [model_file "encoder"]).
  set (p1 := dir ++ [model_file "decoder1"]).
  set (p2 := dir ++ [model_file "decoder2"]).
  assert (Hpe1 : pe <> p1) by (intros H; apply app_inv_head in H; discriminate).
  assert (Hpe2 : pe <> p2) by (intros H; apply app_inv_head in H; discriminate).
  assert (Hp12 : p1 <> p2) by (intros H; apply app_inv_head in H; discriminate).
  set (files' := <[p2 := DecoderW EP DP (v_decoder2 v)]>
                   (<[p1 := DecoderW EP DP (v_decoder1 v)]>
                      (<[pe := EncoderW EP DP (v_encoder v)]> files))).
  exists files'. split; [|split; [|split]].
  - unfold save_model, save_each, module_save, get_models, get_model_names. simpl.
    rewrite He. simpl. rewrite Hd1. simpl. rewrite Hd2. reflexivity.
  - intros p Hp. unfold saved_paths, get_model_names in Hp. simpl in Hp.
    unfold files'. rewrite !lookup_insert_ne; [reflexivity| | |].
    + intros <-. apply Hp. left. unfold pe, dir. rewrite <- app_assoc. reflexivity.
    + intros <-. apply Hp. right. left. unfold p1, dir. rewrite <- app_assoc. reflexivity.
    + intros <-. apply Hp. right. right. left. unfold p2, dir. rewrite <- app_assoc.
      reflexivity.
  - set (h1 := <[encoder (self s2) := {| w := EncoderW EP DP (v_encoder v);
                                          grad := g_encoder v2 |}]> (heap s2)).
    set (h2 := <[decoder1 (self s2) := {| w := DecoderW EP DP (v_decoder1 v);
                                           grad := g_decoder1 v2 |}]> h1).
    set (h3 := <[decoder2 (self s2) := {| w := DecoderW EP DP (v_decoder2 v);
                                           grad := g_decoder2 v2 |}]> h2).
    set (s3 := {| heap := h3; self := self s2; trace := trace s2 |} : world).
    assert (Hv3 : has_view s3
              {| v_encoder := v_encoder v; g_encoder := g_encoder v2;
                 v_decoder1 := v_decoder1 v; g_decoder1 := g_decoder1 v2;
                 v_decoder2 := v_decoder2 v; g_decoder2 := g_decoder2 v2 |}).
    { unfold has_view, s3, h3, h2, h1. simpl. repeat split.
      - rewrite !lookup_insert_ne, lookup_insert_eq by congruence. reflexivity.
      - rewrite lookup_insert_ne, lookup_insert_eq by congruence. reflexivity.
      - rewrite lookup_insert_eq. reflexivity. }
    assert (Hwf3 : wf s3 = true).
    { apply (wf_intro _ _ _ _ _ _ _) with (8 := Hv3); simpl; assumption. }
    exists s3. split; [|split; [reflexivity|split; [exact Hwf3|split; [exact Hv3|]]]].
    + unfold load_model, load_each, module_load, get_models, get_model_names. simpl.
      fold dir. fold pe p1 p2.
      assert (Hfe : files' !! pe = Some (EncoderW EP DP (v_encoder v))).
      { unfold files'. rewrite !lookup_insert_ne, lookup_insert_eq by congruence.
        reflexivity. }
      assert (Hf1 : files' !! p1 = Some (DecoderW EP DP (v_decoder1 v))).
      { unfold files'. rewrite lookup_insert_ne, lookup_insert_eq by congruence.
        reflexivity. }
      assert (Hf2 : files' !! p2 = Some (DecoderW EP DP (v_decoder2 v))).
      { unfold files'. rewrite lookup_insert_eq. reflexivity. }
      rewrite Hfe, He2. simpl. fold h1.
      rewrite Hf1. unfold h1 at 1. rewrite lookup_insert_ne, Hd12 by congruence. simpl.
      fold h2. rewrite Hf2. unfold h2 at 1, h1 at 1.
      rewrite !lookup_insert_ne, Hd22 by congruence. simpl. reflexivity.
    + destruct (anonymize_spec _ _ _ _ _ encoder_forward decoder_forward s3 _ x Hwf3 Hv3)
        as [H3 _].
      destruct (anonymize_spec _ _ _ _ _ encoder_forward decoder_forward s v x Hwf Hv)
        as [H0 _].
      unfold anonymize. rewrite H3, H0. reflexivity.
  - intros Hnone. unfold load_model, load_each, module_load, get_models, get_model_names.
    simpl.
    assert (Hmiss : files' !! (path ++ [model_file "encoder"]) = None).
    { unfold files'. rewrite !lookup_insert_ne; [exact Hnone| | |];
        unfold pe, p1, p2, dir; rewrite <- app_assoc; intros H; apply app_inv_head in H;
        discriminate. }
    rewrite Hmiss. reflexivity.
Qed.

(** X11. [save_model(path)] writes the weights of the encoder and of the
    two decoders to [path/model/encoder.model], [path/model/decoder1.model]
    and [path/model/decoder2.model] and touches no other file. Loading
    from [path/model] into any well-formed object puts these weights into
    its three modules, keeps their gradients, and makes [anonymize] answer
    as the saved object did. Loading from [path] itself, the directory
    given to [save_model], raises [FileNotFoundError] unless
    [path/encoder.model] was there before. *)
Theorem checkpoint_round_trip (s s2 : world) (v v2 : view EP DP) (path : list string)
    (files : gmap (list string) (weights EP DP)) (x : list Q) :
  wf s = true -> has_view s v -> wf s2 = true -> has_view s2 v2 ->
  exists files',
    save_model s path files = Returns files'
    /\ (forall p, ~ In p (saved_paths path) -> files' !! p = files !! p)
    /\ (exists s3,
          load_model s2 (path ++ ["model"%string]) files' = Returns s3
          /\ self s3 = self s2
          /\ wf s3 = true
          /\ has_view s3 {| v_encoder := v_encoder v; g_encoder := g_encoder v2;
                            v_decoder1 := v_decoder1 v; g_decoder1 := g_decoder1 v2;
                            v_decoder2 := v_decoder2 v; g_decoder2 := g_decoder2 v2 |}
          /\ snd (anonymize x s3) = snd (anonymize x s))
    /\ (files !! (path ++ [model_file "encoder"]) = None ->
        load_model s2 path files' = Raises FileNotFoundError).
Proof. apply checkpoint_run. Qed.

End Checkpoint.

(** *** [log_images] of DeepFakeOriginal.py *)

Lemma py_range_length (n : Z) : length (py_range n) = Z.to_nat n.
Proof. unfold py_range. rewrite length_map, length_seq. reflexivity. Qed.

Lemma py_range_In (n i : Z) : In i (py_range n) -> 0 <= i < n.
Proof.
  unfold py_range. rewrite in_map_iff. intros (k & <- & Hk). apply in_seq in Hk. lia.
Qed.

(** [enumerate(l)] *)
Definition enumerate {A} (l : list A) : list (Z * A) :=
  zip (map Z.of_nat (seq 0 (length l))) l.

Lemma Forall_enumerate_from {A} (P : A -> Prop) (l : list A) : forall k : nat,
  (forall a, In a l -> P a) ->
  Forall (fun p => Z.of_nat k <= fst p < Z.of_nat k + Z.of_nat (length l) /\ P (snd p))
         (zip (map Z.of_nat (seq k (length l))) l).
Proof.
  induction l as [|a l IH]; intros k HP; simpl; constructor.
  - simpl. split; [lia|]. apply HP. left. reflexivity.
  - eapply Forall_impl; [apply (IH (S k)); intros; apply HP; right; assumption|].
    intros [idx i] [H1 H2]. simpl in *. split; [lia|assumption].
Qed.

Section LogImages.
(** One image of a batch; the two networks applied to a batch; and what
    [random.sample(population, k)] picks when it does not raise. *)
Variable Item : Type.
Variable anonymize : list Item -> list Item.
Variable anonymize_2 : list Item -> list Item.
Variable sample : list Z -> nat -> list Z.

(** [random.sample]: a sample larger than the population is refused. *)
Definition random_sample (population : list Z) (k : nat) : outcome (list Z) :=
  if Nat.leb k (length population) then Returns (sample population k)
  else Raises ValueError.

(** [t[indices]] with a list of indices. *)
Fixpoint gather (t : list Item) (indices : list Z) : outcome (list Item) :=
  match indices with
  | [] => Returns []
  | i :: rest =>
      x <-? lift (py_getitem t i);
      xs <-? gather t rest;
      Returns (x :: xs)
  end.

Record log_state : Type := { A : list Item; B : list Item; tag : option string }.

(** [for j in range(3): A.append(images[j].cpu()[i]);
    B.append(images[3 + j].cpu()[i])] *)
Fixpoint append_triples (images : list (list Item)) (i : Z) (js : list Z) (st : log_state)
  : outcome log_state :=
  match js with
  | [] => Returns st
  | j :: rest =>
      t <-? lift (py_getitem images j);
      a <-? lift (py_getitem t i);
      t <-? lift (py_getitem images (3 + j));
      b <-? lift (py_getitem t i);
      append_triples images i rest {| A := A st ++ [a]; B := B st ++ [b]; tag := tag st |}
  end.

(** [for idx, i in enumerate(example_indices): ...] *)
Fixpoint append_rows (images : list (list Item)) (trump cage : list Item) (validation : bool)
    (l : list (Z * Z)) (st : log_state) : outcome log_state :=
  match l with
  | [] => Returns st
  | (idx, i) :: rest =>
      st <-? append_triples images i (py_range 3) st;
      a <-? lift (py_getitem trump idx);
      b <-? lift (py_getitem cage idx);
      append_rows images trump cage validation rest
        {| A := A st ++ [a]; B := B st ++ [b];
           tag := Some (if validation then "validation_output" else "training_output")%string |}
  end.

(** [log_images(self, logger, epoch, images, validation)]; the result is
    the list of the calls [logger.log_images(epoch, images, tag, nrow)]. *)
Definition log_images (images : list (list Item)) (validation : bool)
  : outcome (list (string * list Item * Z)) :=
  t <-? lift (py_getitem images 0);
  let examples := Z.of_nat (length t) in
  example_indices <-? random_sample (py_range (examples - 1)) 5;
  t <-? lift (py_getitem images 2);
  g <-? gather t example_indices;
  let anonymized_images_trump := anonymize g in
  t <-? lift (py_getitem images 5);
  g <-? gather t example_indices;
  let anonymized_images_cage := anonymize_2 g in
  st <-? append_rows images anonymized_images_trump anonymized_images_cage validation
                     (enumerate example_indices) {| A := []; B := []; tag := None |};
  tag <-? lift (match tag st with Some t => Ok t | None => Raise UnboundLocalError end);
  Returns [(String.append tag "/A", A st, 4); (String.append tag "/B", B st, 4)].

(** A row of four: three images taken at position [i], then the swapped
    face at position [idx]. *)
Definition is_row (a b c swapped : list Item) (p : Z * Z) (row : list Item) : Prop :=
  exists x y z u,
    row = [x; y; z; u]
    /\ a !! Z.to_nat (snd p) = Some x
    /\ b !! Z.to_nat (snd p) = Some y
    /\ c !! Z.to_nat (snd p) = Some z
    /\ swapped !! Z.to_nat (fst p) = Some u.

Lemma gather_ok (t : list Item) (indices : list Z) :
  (forall i, In i indices -> 0 <= i < Z.of_nat (length t)) ->
  exists g, gather t indices = Returns g /\ length g = length indices.
Proof.
  induction indices as [|i l IH]; intros H; [exists []; auto|].
  destruct (py_getitem_in_range t i) as (x & _ & Hx); [apply H; left; reflexivity|].
  destruct IH as (g & Hg & Hlen); [intros; apply H; right; assumption|].
  exists (x :: g). simpl. rewrite Hx. simpl. rewrite Hg. simpl. auto.
Qed.

Lemma append_triples_ok (t0 t1 t2 t3 t4 t5 : list Item) (i : Z) (st : log_state) :
  0 <= i ->
  i < Z.of_nat (length t0) -> i < Z.of_nat (length t1) -> i < Z.of_nat (length t2) ->
  i < Z.of_nat (length t3) -> i < Z.of_nat (length t4) -> i < Z.of_nat (length t5) ->
  exists x0 x1 x2 x3 x4 x5,
    t0 !! Z.to_nat i = Some x0 /\ t1 !! Z.to_nat i = Some x1 /\ t2 !! Z.to_nat i = Some x2
    /\ t3 !! Z.to_nat i = Some x3 /\ t4 !! Z.to_nat i = Some x4
    /\ t5 !! Z.to_nat i = Some x5
    /\ append_triples [t0; t1; t2; t3; t4; t5] i (py_range 3) st
       = Returns {| A := A st ++ [x0; x1; x2]; B := B st ++ [x3; x4; x5]; tag := tag st |}.
Proof.
  intros Hi H0 H1 H2 H3 H4 H5.
  destruct (py_getitem_in_range t0 i) as (x0 & L0 & G0); [lia|].
  destruct (py_getitem_in_range t1 i) as (x1 & L1 & G1); [lia|].
  destruct (py_getitem_in_range t2 i) as (x2 & L2 & G2); [lia|].
  destruct (py_getitem_in_range t3 i) as (x3 & L3 & G3); [lia|].
  destruct (py_getitem_in_range t4 i) as (x4 & L4 & G4); [lia|].
  destruct (py_getitem_in_range t5 i) as (x5 & L5 & G5); [lia|].
  exists x0, x1, x2, x3, x4, x5. repeat (split; [assumption|]).
  change (py_range 3) with [0; 1; 2]. simpl.
  change (py_getitem [t0; t1; t2; t3; t4; t5] 0) with (Ok t0).
  change (py_getitem [t0; t1; t2; t3; t4; t5] 1) with (Ok t1).
  change (py_getitem [t0; t1; t2; t3; t4; t5] 2) with (Ok t2).
  change (py_getitem [t0; t1; t2; t3; t4; t5] 3) with (Ok t3).
  change (py_getitem [t0; t1; t2; t3; t4; t5] 4) with (Ok t4).
  change (py_getitem [t0; t1; t2; t3; t4; t5] 5) with (Ok t5).
  simpl. rewrite G0. simpl. rewrite G3. simpl. rewrite G1. simpl. rewrite G4. simpl.
  rewrite G2. simpl. rewrite G5. simpl. rewrite <- !app_assoc. reflexivity.
Qed.

Lemma append_rows_ok (t0 t1 t2 t3 t4 t5 trump cage : list Item) (validation : bool)
    (n : Z) (l : list (Z * Z)) : forall st,
  Z.of_nat (length t0) = n -> Z.of_nat (length t1) = n -> Z.of_nat (length t2) = n ->
  Z.of_nat (length t3) = n -> Z.of_nat (length t4) = n -> Z.of_nat (length t5) = n ->
  Forall (fun p => (0 <= fst p < Z.of_nat (length trump)
                    /\ 0 <= fst p < Z.of_nat (length cage))
                   /\ 0 <= snd p < n) l ->
  exists rowsA rowsB,
    append_rows [t0; t1; t2; t3; t4; t5] trump cage validation l st
    = Returns {| A := A st ++ concat rowsA; B := B st ++ concat rowsB;
                 tag := match l with
                        | [] => tag st
                        | _ => Some (if validation then "validation_output"
                                     else "training_output")%string
                        end |}
    /\ Forall2 (is_row t0 t1 t2 trump) l rowsA
    /\ Forall2 (is_row t3 t4 t5 cage) l rowsB.
Proof.
  induction l as [|[idx i] l IH]; intros st H0 H1 H2 H3 H4 H5 Hl.
  - exists [], []. simpl. rewrite !app_nil_r. destruct st. simpl.
    repeat split; constructor.
  - inversion Hl as [|p l' [[Hidx1 Hidx2] Hi] Hrest Ep]; subst p l'.
    simpl in Hidx1, Hidx2, Hi.
    destruct (append_triples_ok t0 t1 t2 t3 t4 t5 i st)
      as (x0 & x1 & x2 & x3 & x4 & x5 & L0 & L1 & L2 & L3 & L4 & L5 & Hrun); try lia.
    destruct (py_getitem_in_range trump idx) as (u & Lu & Gu); [lia|].
    destruct (py_getitem_in_range cage idx) as (u' & Lu' & Gu'); [lia|].
    destruct (IH {| A := (A st ++ [x0; x1; x2]) ++ [u]; B := (B st ++ [x3; x4; x5]) ++ [u'];
                    tag := Some (if validation then "validation_output"
                                 else "training_output")%string |}
                H0 H1 H2 H3 H4 H5 Hrest) as (rowsA & rowsB & Hrows & FA & FB).
    exists ([x0; x1; x2; u] :: rowsA), ([x3; x4; x5; u'] :: rowsB).
    split; [|split].
    + cbn [append_rows]. rewrite Hrun. cbn [obind A B tag]. rewrite Gu. cbn [lift obind].
      rewrite Gu'. cbn [lift obind]. rewrite Hrows. cbn [A B tag concat].
      rewrite <- !app_assoc. f_equal. f_equal. destruct l; reflexivity.
    + constructor; [|exact FA]. exists x0, x1, x2, u. simpl. auto.
    + constructor; [|exact FB]. exists x3, x4, x5, u'. simpl. auto.
Qed.

Hypothesis sample_spec : forall (population : list Z) (k : nat),
  (k <= length population)%nat ->
  length (sample population k) = k
  /\ forall i, In i (sample population k) -> In i population.

Lemma log_images_run (t0 t1 t2 t3 t4 t5 : list Item) (validation : bool) (n : nat) :
  length t0 = n -> length t1 = n -> length t2 = n ->
  length t3 = n -> length t4 = n -> length t5 = n ->
  (forall l, length (anonymize l) = length l) ->
  (forall l, length (anonymize_2 l) = length l) ->
  let images := [t0; t1; t2; t3; t4; t5] in
  let example_indices := sample (py_range (Z.of_nat n - 1)) 5 in
  let tag := (if validation then "validation_output" else "training_output")%string in
  ((n < 6)%nat -> log_images images validation = Raises ValueError)
  /\ ((6 <= n)%nat ->
      exists g2 g5 rowsA rowsB,
        log_images images validation
        = Returns [(String.append tag "/A", concat rowsA, 4);
                   (String.append tag "/B", concat rowsB, 4)]
        /\ length example_indices = 5%nat
        /\ (forall i, In i example_indices -> 0 <= i < Z.of_nat n - 1)
        /\ gather t2 example_indices = Returns g2
        /\ gather t5 example_indices = Returns g5
        /\ Forall2 (is_row t0 t1 t2 (anonymize g2)) (enumerate example_indices) rowsA
        /\ Forall2 (is_row t3 t4 t5 (anonymize_2 g5)) (enumerate example_indices) rowsB
        /\ length (concat rowsA) = 20%nat /\ length (concat rowsB) = 20%nat).
Proof.
  intros H0 H1 H2 H3 H4 H5 Han Han2 images example_indices tag0.
  assert (Hget0 : py_getitem images 0 = Ok t0) by reflexivity.
  assert (Hget2 : py_getitem images 2 = Ok t2) by reflexivity.
  assert (Hget5 : py_getitem images 5 = Ok t5) by reflexivity.
  split.
  - intros Hn. unfold log_images. rewrite Hget0. cbn [lift obind]. unfold random_sample.
    rewrite py_range_length, H0.
    destruct (Nat.leb_spec 5 (Z.to_nat (Z.of_nat n - 1))) as [Hle|_]; [lia|reflexivity].
  - intros Hn.
    assert (Hpop : (5 <= length (py_range (Z.of_nat n - 1)))%nat)
      by (rewrite py_range_length; lia).
    destruct (sample_spec (py_range (Z.of_nat n - 1)) 5 Hpop) as [Hlen Hin].
    fold example_indices in Hlen, Hin.
    assert (Hrange : forall i, In i example_indices -> 0 <= i < Z.of_nat n - 1).
    { intros i Hi. apply py_range_In. apply Hin. exact Hi. }
    destruct (gather_ok t2 example_indices) as (g2 & Hg2 & Hl2);
      [intros i Hi; specialize (Hrange i Hi); lia|].
    destruct (gather_ok t5 example_indices) as (g5 & Hg5 & Hl5);
      [intros i Hi; specialize (Hrange i Hi); lia|].
    assert (Hpairs : Forall (fun p => (0 <= fst p < Z.of_nat (length (anonymize g2))
                                       /\ 0 <= fst p < Z.of_nat (length (anonymize_2 g5)))
                                      /\ 0 <= snd p < Z.of_nat n)
                            (enumerate example_indices)).
    { eapply Forall_impl; [apply (Forall_enumerate_from _ example_indices 0%nat Hrange)|].
      intros [idx i] [Hidx Hi]. simpl in *. rewrite Han, Han2, Hl2, Hl5. lia. }
    destruct (append_rows_ok t0 t1 t2 t3 t4 t5 (anonymize g2) (anonymize_2 g5) validation
                (Z.of_nat n) (enumerate example_indices) {| A := []; B := []; tag := None |}
                (f_equal Z.of_nat H0) (f_equal Z.of_nat H1) (f_equal Z.of_nat H2)
                (f_equal Z.of_nat H3) (f_equal Z.of_nat H4) (f_equal Z.of_nat H5) Hpairs)
      as (rowsA & rowsB & Hrows & FA & FB).
    assert (Hlen4 : forall (a b c d : list Item) (l : list (Z * Z)) (rows : list (list Item)),
               Forall2 (is_row a b c d) l rows -> length (concat rows) = (4 * length l)%nat).
    { clear. intros a b c d l rows F. induction F as [|p row l rows Hrow F IH]; [reflexivity|].
      destruct Hrow as (x & y & z & u & -> & _). simpl. rewrite IH. lia. }
    assert (Henum : length (enumerate example_indices) = 5%nat).
    { unfold enumerate. rewrite length_zip, length_map, length_seq, Hlen. reflexivity. }
    exists g2, g5, rowsA, rowsB.
    split; [|split; [exact Hlen|split; [exact Hrange|split; [exact Hg2|split; [exact Hg5|
             split; [exact FA|split; [exact FB|]]]]]]].
    + unfold log_images. rewrite Hget0. cbn [lift obind]. unfold random_sample.
      rewrite H0. fold example_indices.
      destruct (Nat.leb_spec 5 (length (py_range (Z.of_nat n - 1)))) as [_|Hlt]; [|lia].
      cbn [obind]. rewrite Hget2. cbn [lift obind]. rewrite Hg2. cbn [obind].
      rewrite Hget5. cbn [lift obind]. rewrite Hg5. cbn [obind].
      unfold images. rewrite Hrows. cbn [obind A B tag app].
      destruct (enumerate example_indices) as [|p l] eqn:E; [discriminate Henum|].
      reflexivity.
    + rewrite (Hlen4 _ _ _ _ _ _ FA), (Hlen4 _ _ _ _ _ _ FB), Henum. split; reflexivity.
Qed.

(** X12. [log_images] on six tensors of [n] images each, with networks
    that keep the batch size: for [n < 6] it raises [ValueError], because
    five examples are drawn from the [n - 1] positions
    [0 .. n - 2]; for [n >= 6] it logs two grids of twenty images in rows
    of four (warped input, output, target, swapped face) under the tag of
    the mode, and no row shows the last image of the batch. *)
Theorem log_images_spec (t0 t1 t2 t3 t4 t5 : list Item) (validation : bool) (n : nat) :
  length t0 = n -> length t1 = n -> length t2 = n ->
  length t3 = n -> length t4 = n -> length t5 = n ->
  (forall l, length (anonymize l) = length l) ->
  (forall l, length (anonymize_2 l) = length l) ->
  let images := [t0; t1; t2; t3; t4; t5] in
  let example_indices := sample (py_range (Z.of_nat n - 1)) 5 in
  let tag := (if validation then "validation_output" else "training_output")%string in
  ((n < 6)%nat -> log_images images validation = Raises ValueError)
  /\ ((6 <= n)%nat ->
      exists g2 g5 rowsA rowsB,
        log_images images validation
        = Returns [(String.append tag "/A", concat rowsA, 4);
                   (String.append tag "/B", concat rowsB, 4)]
        /\ length example_indices = 5%nat
        /\ (forall i, In i example_indices -> 0 <= i < Z.of_nat n - 1)
        /\ gather t2 example_indices = Returns g2
        /\ gather t5 example_indices = Returns g5
        /\ Forall2 (is_row t0 t1 t2 (anonymize g2)) (enumerate example_indices) rowsA
        /\ Forall2 (is_row t3 t4 t5 (anonymize_2 g5)) (enumerate example_indices) rowsB
        /\ length (concat rowsA) = 20%nat /\ length (concat rowsB) = 20%nat).
Proof. apply log_images_run. Qed.

(** *** [log] and [log_validation] of DeepFakeOriginal.py *)

(** The calls made on the logger. *)
Inductive logger_call : Type :=
| Log_loss (epoch : Z) (loss : list (string * Q))
| Log_fps (epoch : Z)
| Log_images (epoch : Z) (images : list Item) (tag : string) (nrow : Z)
| Save_model (epoch : Z).

(** [self.log_images(logger, epoch, images, validation)] with its calls on
    the logger; an exception leaves the calls made before it. *)
Definition log_images_calls (epoch : Z) (images : list (list Item)) (validation : bool)
  : list logger_call * outcome unit :=
  match log_images images validation with
  | Returns calls =>
      (map (fun c => Log_images epoch (snd (fst c)) (fst (fst c)) (snd c)) calls, Returns tt)
  | Raises e => ([], Raises e)
  end.

(** [log(self, logger, epoch, loss1, loss2, images, log_images=False)] *)
Definition log (epoch : Z) (loss1 loss2 : Q) (images : list (list Item)) (log_images : bool)
  : list logger_call * outcome unit :=
  let calls := [Log_loss epoch [("lossA"%string, loss1); ("lossB"%string, loss2)];
                Log_fps epoch] in
  if log_images then
    match log_images_calls epoch images false with
    | (calls', Returns _) => (calls ++ calls' ++ [Save_model epoch], Returns tt)
    | (calls', Raises e) => (calls ++ calls', Raises e)
    end
  else (calls ++ [Save_model epoch], Returns tt).

(** [log_validation(self, logger, epoch, loss1, loss2, images)] *)
Definition log_validation (epoch : Z) (loss1 loss2 : Q) (images : list (list Item))
  : list logger_call * outcome unit :=
  let calls := [Log_loss epoch [("lossA_val"%string, loss1); ("lossB_val"%string, loss2)]] in
  match log_images_calls epoch images true with
  | (calls', r) => (calls ++ calls', r)
  end.

Lemma log_run (epoch : Z) (loss1 loss2 : Q) (t0 t1 t2 t3 t4 t5 : list Item) (n : nat) :
  length t0 = n -> length t1 = n -> length t2 = n ->
  length t3 = n -> length t4 = n -> length t5 = n ->
  (forall l, length (anonymize l) = length l) ->
  (forall l, length (anonymize_2 l) = length l) ->
  let images := [t0; t1; t2; t3; t4; t5] in
  let losses := Log_loss epoch [("lossA"%string, loss1); ("lossB"%string, loss2)] in
  let losses_val :=
    Log_loss epoch [("lossA_val"%string, loss1); ("lossB_val"%string, loss2)] in
  log epoch loss1 loss2 images false
  = ([losses; Log_fps epoch; Save_model epoch], Returns tt)
  /\ ((n < 6)%nat ->
      log epoch loss1 loss2 images true = ([losses; Log_fps epoch], Raises ValueError)
      /\ log_validation epoch loss1 loss2 images = ([losses_val], Raises ValueError))
  /\ ((6 <= n)%nat ->
      exists A B A' B',
        log epoch loss1 loss2 images true
        = ([losses; Log_fps epoch;
            Log_images epoch A "training_output/A" 4;
            Log_images epoch B "training_output/B" 4;
            Save_model epoch], Returns tt)
        /\ log_validation epoch loss1 loss2 images
           = ([losses_val;
               Log_images epoch A' "validation_output/A" 4;
               Log_images epoch B' "validation_output/B" 4], Returns tt)
        /\ length A = 20%nat /\ length B = 20%nat
        /\ length A' = 20%nat /\ length B' = 20%nat).
Proof.
  intros H0 H1 H2 H3 H4 H5 Han Han2 images losses losses_val.
  split; [reflexivity|].
  destruct (log_images_run t0 t1 t2 t3 t4 t5 false n H0 H1 H2 H3 H4 H5 Han Han2)
    as [Hsmall Hbig].
  destruct (log_images_run t0 t1 t2 t3 t4 t5 true n H0 H1 H2 H3 H4 H5 Han Han2)
    as [Hsmall' Hbig'].
  fold images in Hsmall, Hbig, Hsmall', Hbig'.
  split.
  - intros Hn. unfold log, log_validation, log_images_calls.
    rewrite (Hsmall Hn), (Hsmall' Hn). split; reflexivity.
  - intros Hn.
    destruct (Hbig Hn) as (g2 & g5 & rowsA & rowsB & Hrun & _ & _ & _ & _ & _ & _ & LA & LB).
    destruct (Hbig' Hn)
      as (g2' & g5' & rowsA' & rowsB' & Hrun' & _ & _ & _ & _ & _ & _ & LA' & LB').
    exists (concat rowsA), (concat rowsB), (concat rowsA'), (concat rowsB').
    unfold log, log_validation, log_images_calls. rewrite Hrun, Hrun'.
    repeat split; assumption.
Qed.

(** X13. The logger calls of [log] and [log_validation] on six tensors of
    [n] images each. Without image logging [log] reports the two losses,
    the frame rate and saves the model, whatever the tensors are. With
    image logging and [n < 6], [log] raises [ValueError] after the loss and
    frame-rate calls and before [logger.save_model]: the model of that
    epoch is not saved; [log_validation] raises after its loss call. With
    [n >= 6] the two image grids (tags [training_output] and
    [validation_output]) are logged between them. *)
Theorem log_calls (epoch : Z) (loss1 loss2 : Q) (t0 t1 t2 t3 t4 t5 : list Item) (n : nat) :
  length t0 = n -> length t1 = n -> length t2 = n ->
  length t3 = n -> length t4 = n -> length t5 = n ->
  (forall l, length (anonymize l) = length l) ->
  (forall l, length (anonymize_2 l) = length l) ->
  let images := [t0; t1; t2; t3; t4; t5] in
  let losses := Log_loss epoch [("lossA"%string, loss1); ("lossB"%string, loss2)] in
  let losses_val :=
    Log_loss epoch [("lossA_val"%string, loss1); ("lossB_val"%string, loss2)] in
  log epoch loss1 loss2 images false
  = ([losses; Log_fps epoch; Save_model epoch], Returns tt)
  /\ ((n < 6)%nat ->
      log epoch loss1 loss2 images true = ([losses; Log_fps epoch], Raises ValueError)
      /\ log_validation epoch loss1 loss2 images = ([losses_val], Raises ValueError))
  /\ ((6 <= n)%nat ->
      exists A B A' B',
        log epoch loss1 loss2 images true
        = ([losses; Log_fps epoch;
            Log_images epoch A "training_output/A" 4;
            Log_images epoch B "training_output/B" 4;
            Save_model epoch], Returns tt)
        /\ log_validation epoch loss1 loss2 images
           = ([losses_val;
               Log_images epoch A' "validation_output/A" 4;
               Log_images epoch B' "validation_output/B" 4], Returns tt)
        /\ length A = 20%nat /\ length B = 20%nat
        /\ length A' = 20%nat /\ length B' = 20%nat).
Proof. apply log_run. Qed.

End LogImages.

(** *** Concrete runs on the instance of [DeepFake] *)

Definition demo_validate (bs : list batch) : M (world Q Q nat unit unit) (Q * Q * list (list Q)) :=
  validate Q Q nat unit unit demo_encoder_forward demo_decoder_forward bs 64.

Definition demo_trained : world Q Q nat unit unit :=
  fst (demo_train [demo_batch; demo_batch] demo_world).

Definition demo_trained_view : view Q Q :=
  batch_view Q Q nat demo_adam demo_adam 1%nat 1%nat demo_batch
    (batch_view Q Q nat demo_adam demo_adam 0%nat 0%nat demo_batch demo_view).

Example demo_validate_losses :
  match snd (demo_validate [demo_batch; demo_batch] demo_world) with
  | Ok (l1, l2, _) => (Qred l1, Qred l2)
  | Raise _ => (0%Q, 0%Q)
  end = (0%Q, 1%Q).
Proof. vm_compute. reflexivity. Qed.

Lemma validate_frame_witness :
  wf demo_world = true
  /\ has_view demo_world demo_view
  /\ heap (fst (demo_validate [demo_batch; demo_batch] demo_world)) = heap demo_world.
Proof.
  assert (Hwf : wf demo_world = true) by (vm_compute; reflexivity).
  assert (Hv : has_view demo_world demo_view) by (vm_compute; repeat split; reflexivity).
  split; [exact Hwf|]. split; [exact Hv|].
  destruct (validate_frame Q Q nat unit unit demo_encoder_forward demo_decoder_forward
              demo_world demo_view [demo_batch; demo_batch] 64 Hwf Hv) as (H & _).
  exact H.
Defined.

Lemma train_frame_witness :
  wf demo_world = true
  /\ [demo_batch; demo_batch] <> []
  /\ exists s' r, demo_train [demo_batch; demo_batch] demo_world = (s', Ok r)
                  /\ dom (heap s') = dom (heap demo_world).
Proof.
  assert (Hwf : wf demo_world = true) by (vm_compute; reflexivity).
  assert (Hbs : [demo_batch; demo_batch] <> []) by discriminate.
  split; [exact Hwf|]. split; [exact Hbs|].
  destruct (train_frame Q Q nat unit unit demo_encoder_forward demo_decoder_forward
              demo_adam demo_adam S demo_scheduler_step demo_world
              [demo_batch; demo_batch] 64 0 Hwf Hbs)
    as (s' & r & Hrun & _ & _ & _ & _ & _ & _ & _ & Hdom).
  exists s', r. split; [exact Hrun|exact Hdom].
Defined.

Lemma checkpoint_round_trip_witness :
  wf demo_world = true
  /\ has_view demo_world demo_view
  /\ wf demo_trained = true
  /\ has_view demo_trained demo_trained_view
  /\ exists files',
      save_model Q Q nat unit unit demo_world ["runs"%string] ∅ = Returns files'
      /\ exists s3,
          load_model Q Q nat unit unit demo_trained ["runs"%string; "model"%string] files'
          = Returns s3
          /\ snd (demo_anonymize [1%Q; 2%Q] s3) = snd (demo_anonymize [1%Q; 2%Q] demo_world).
Proof.
  assert (Hwf : wf demo_world = true) by (vm_compute; reflexivity).
  assert (Hv : has_view demo_world demo_view) by (vm_compute; repeat split; reflexivity).
  assert (Hwf2 : wf demo_trained = true) by (vm_compute; reflexivity).
  assert (Hv2 : has_view demo_trained demo_trained_view)
    by (vm_compute; repeat split; reflexivity).
  split; [exact Hwf|]. split; [exact Hv|]. split; [exact Hwf2|]. split; [exact Hv2|].
  destruct (checkpoint_round_trip Q Q nat unit unit demo_encoder_forward demo_decoder_forward
              demo_world demo_trained demo_view demo_trained_view ["runs"%string] ∅
              [1%Q; 2%Q] Hwf Hv Hwf2 Hv2)
    as (files' & Hsave & _ & (s3 & Hload & _ & _ & _ & Hanon) & _).
  exists files'. split; [exact Hsave|]. exists s3. split; [exact Hload|exact Hanon].
Defined.

(** A sampler that takes the first [k] elements of the population, and
    networks that shift every image. *)
Definition demo_sample (population : list Z) (k : nat) : list Z := firstn k population.

Lemma demo_sample_spec (population : list Z) (k : nat) :
  (k <= length population)%nat ->
  length (demo_sample population k) = k
  /\ forall i, In i (demo_sample population k) -> In i population.
Proof.
  intros Hk. unfold demo_sample. split; [apply firstn_length_le; exact Hk|].
  clear Hk. revert k. induction population as [|a l IH]; intros [|k] i Hi; simpl in *;
    try contradiction.
  destruct Hi as [->|Hi]; [left; reflexivity|right; exact (IH k i Hi)].
Qed.

Lemma log_images_spec_witness :
  exists rowsA rowsB,
    log_images Z (map (Z.add 100)) (map (Z.add 200)) demo_sample
      [[0; 1; 2; 3; 4; 5]; [10; 11; 12; 13; 14; 15]; [20; 21; 22; 23; 24; 25];
       [30; 31; 32; 33; 34; 35]; [40; 41; 42; 43; 44; 45]; [50; 51; 52; 53; 54; 55]] false
    = Returns [("training_output/A"%string, concat rowsA, 4);
               ("training_output/B"%string, concat rowsB, 4)]
    /\ length (concat rowsA) = 20%nat /\ length (concat rowsB) = 20%nat.
Proof.
  destruct (log_images_spec Z (map (Z.add 100)) (map (Z.add 200)) demo_sample demo_sample_spec
              [0; 1; 2; 3; 4; 5] [10; 11; 12; 13; 14; 15] [20; 21; 22; 23; 24; 25]
              [30; 31; 32; 33; 34; 35] [40; 41; 42; 43; 44; 45] [50; 51; 52; 53; 54; 55]
              false 6%nat eq_refl eq_refl eq_refl eq_refl eq_refl eq_refl
              (fun l => length_map (Z.add 100) l) (fun l => length_map (Z.add 200) l))
    as [_ H].
  destruct (H (le_n 6)) as (g2 & g5 & rowsA & rowsB & Hrun & _ & _ & _ & _ & _ & _ & HA & HB).
  exists rowsA, rowsB. split; [exact Hrun|split; [exact HA|exact HB]].
Defined.

Lemma log_calls_witness :
  log Z (map (Z.add 100)) (map (Z.add 200)) demo_sample 7 (1 # 2) (1 # 3)
      [[0; 1; 2]; [10; 11; 12]; [20; 21; 22]; [30; 31; 32]; [40; 41; 42]; [50; 51; 52]] true
  = ([Log_loss Z 7 [("lossA"%string, (1 # 2)%Q); ("lossB"%string, (1 # 3)%Q)]; Log_fps Z 7],
     Raises ValueError).
Proof.
  destruct (log_calls Z (map (Z.add 100)) (map (Z.add 200)) demo_sample demo_sample_spec
              7 (1 # 2)%Q (1 # 3)%Q
              [0; 1; 2] [10; 11; 12] [20; 21; 22] [30; 31; 32] [40; 41; 42] [50; 51; 52]
              3%nat eq_refl eq_refl eq_refl eq_refl eq_refl eq_refl
              (fun l => length_map (Z.add 100) l) (fun l => length_map (Z.add 200) l))
    as (_ & H & _).
  destruct H as [H _]; [lia|exact H].
Defined.

End DeepFakeProperties.

(** ** Models/CPGGAN/CPGGAN.py: calls that raise, what a training call
    reports and what it leaves unchanged *)

Module CPGGANProperties.

Import CPGGAN.

#[local] Arguments self {Vec Img GP DP GO DO} s.
#[local] Arguments trace {Vec Img GP DP GO DO} s.
#[local] Arguments stabilization_phase {Vec Img GP DP GO DO} c.
#[local] Arguments resolution_level {Vec Img GP DP GO DO} c.
#[local] Arguments images_faded_in {Vec Img GP DP GO DO} c.
#[local] Arguments images_per_fading_phase {Vec Img GP DP GO DO} c.
#[local] Arguments batch_size {Vec Img GP DP GO DO} c.
#[local] Arguments static_noise {Vec Img GP DP GO DO} c.
#[local] Arguments static_landmarks {Vec Img GP DP GO DO} c.
#[local] Arguments static_lowres {Vec Img GP DP GO DO} c.
#[local] Arguments G {Vec Img GP DP GO DO} c.
#[local] Arguments D {Vec Img GP DP GO DO} c.
#[local] Arguments D_training {Vec Img GP DP GO DO} c.
#[local] Arguments G_optimizer {Vec Img GP DP GO DO} c.
#[local] Arguments D_optimizer {Vec Img GP DP GO DO} c.
#[local] Arguments G_grad {Vec Img GP DP GO DO} c.
#[local] Arguments D_grad {Vec Img GP DP GO DO} c.
#[local] Arguments noise_draws {Vec Img GP DP GO DO} c.
#[local] Arguments can_level {Vec Img GP DP GO DO} s.
#[local] Arguments g_loss_summed {Img} l.
#[local] Arguments d_loss_summed {Img} l.
#[local] Arguments wasserstein_d_summed {Img} l.
#[local] Arguments eps_summed {Img} l.
#[local] Arguments iterations {Img} l.
#[local] Arguments cur_level {Img} l.
#[local] Arguments G_fake {Img} l.

Section Model.
Variables Vec Img GP DP GO DO : Type.
Variable fl : Q -> Q.
Variable cat_vec : Vec -> Vec -> Vec.
Variable cat_img : Img -> Img -> Img.
Variable slice : Vec -> Z -> Vec.
Variable fill : Vec -> Z -> Img -> Img.
Variable noise : Z -> nat -> Vec.
Variable G_forward : GP -> Vec -> Q -> Img.
Variable D_forward : DP -> bool -> Img -> Q -> list Q.
Variable calculate_gradient_penalty : DP -> bool -> Img -> Img -> Q -> Q.
Variable D_step : DO -> DP -> list (loss_term Vec Img GP DP) -> DO * DP.
Variable G_step : GO -> GP -> list (loss_term Vec Img GP DP) -> GO * GP.
Variable schedule_resolution : CPGGAN Vec Img GP DP GO DO -> CPGGAN Vec Img GP DP GO DO.
Variable get_train_data_loader : CPGGAN Vec Img GP DP GO DO -> list (Img * Vec).

Local Abbreviation train :=
  (CPGGAN.train Vec Img GP DP GO DO fl cat_vec cat_img slice fill noise G_forward D_forward
                calculate_gradient_penalty D_step G_step schedule_resolution
                get_train_data_loader).
Local Abbreviation train_loop :=
  (CPGGAN.train_loop Vec Img GP DP GO DO fl cat_vec cat_img slice fill noise G_forward
                     D_forward calculate_gradient_penalty D_step G_step).
Local Abbreviation train_batch :=
  (CPGGAN.train_batch Vec Img GP DP GO DO fl cat_vec cat_img slice fill noise G_forward
                      D_forward calculate_gradient_penalty D_step G_step).
Local Abbreviation loop_self :=
  (CPGGAN.loop_self Vec Img GP DP GO DO fl cat_vec cat_img fill noise G_forward D_step G_step).
Local Abbreviation loop_events :=
  (CPGGAN.loop_events Vec Img GP DP GO DO fl cat_vec cat_img fill noise G_forward D_step
                      G_step).
Local Abbreviation loop_locals :=
  (CPGGAN.loop_locals Vec Img GP DP GO DO fl cat_vec cat_img fill noise G_forward D_forward
                      calculate_gradient_penalty D_step G_step).
Local Abbreviation batch_self :=
  (CPGGAN.batch_self Vec Img GP DP GO DO fl cat_vec cat_img fill noise G_forward D_step G_step).
Local Abbreviation batch_events :=
  (CPGGAN.batch_events Vec Img GP DP GO DO fl cat_vec cat_img fill noise G_forward D_step).
Local Abbreviation batch_locals :=
  (CPGGAN.batch_locals Vec Img GP DP GO DO fl cat_vec cat_img fill noise G_forward D_forward
                       calculate_gradient_penalty D_step).
Local Abbreviation b_D_loss :=
  (CPGGAN.b_D_loss Vec Img GP DP GO DO fl cat_vec cat_img fill noise G_forward D_forward
                   calculate_gradient_penalty).
Local Abbreviation b_Wasserstein_D :=
  (CPGGAN.b_Wasserstein_D Vec Img GP DP GO DO fl cat_vec cat_img fill noise G_forward
                          D_forward).
Local Abbreviation b_eps_loss := (CPGGAN.b_eps_loss Vec Img GP DP GO DO fl cat_img fill D_forward).
Local Abbreviation b_G_fake := (CPGGAN.b_G_fake Vec Img GP DP GO DO fl cat_vec noise G_forward).
Local Abbreviation b_D_grad :=
  (CPGGAN.b_D_grad Vec Img GP DP GO DO fl cat_vec cat_img fill noise G_forward).
Local Abbreviation b_loss_generator :=
  (CPGGAN.b_loss_generator Vec Img GP DP GO DO fl cat_vec cat_img fill noise G_forward D_step).
Local Abbreviation level_of := (CPGGAN.level_of Vec Img GP DP GO DO fl).
Local Abbreviation state := (st Vec Img GP DP GO DO).
Local Abbreviation model := (CPGGAN Vec Img GP DP GO DO).

(** *** Calls of [train] that raise *)

Lemma train_empty (s0 : model) (t : list (event Vec Img GP DP))
    (loader_arg : list (Img * Vec)) (batch_size_arg : Z) :
  (get_train_data_loader (schedule_resolution s0) = [] ->
   train loader_arg batch_size_arg false {| self := s0; trace := t |}
   = ({| self := schedule_resolution s0; trace := t |}, Raise ZeroDivisionError))
  /\ train [] batch_size_arg true {| self := s0; trace := t |}
     = ({| self := s0; trace := t |}, Raise UnboundLocalError).
Proof.
  split; [|reflexivity].
  intros H. unfold CPGGAN.train, mbind, modify_self, mmodify, get_self, mret. simpl.
  rewrite H. reflexivity.
Qed.

Lemma train_zero_division (s0 : model) (t : list (event Vec Img GP DP))
    (loader_arg : list (Img * Vec)) (batch_size_arg : Z) :
  (can_level (schedule_resolution s0) = false ->
   get_train_data_loader (schedule_resolution s0) <> [] ->
   train loader_arg batch_size_arg false {| self := s0; trace := t |}
   = ({| self := schedule_resolution s0; trace := t |}, Raise ZeroDivisionError))
  /\ (can_level s0 = false -> loader_arg <> [] ->
      train loader_arg batch_size_arg true {| self := s0; trace := t |}
      = ({| self := s0; trace := t |}, Raise ZeroDivisionError)).
Proof.
  split.
  - intros Hlevel Hne.
    unfold CPGGAN.train, mbind, modify_self, mmodify, get_self, mret. simpl.
    destruct (get_train_data_loader (schedule_resolution s0)) as [|b rest];
      [contradiction|].
    simpl. unfold mbind at 1. rewrite train_batch_zero_division by assumption. reflexivity.
  - intros Hlevel Hne. destruct loader_arg as [|b rest]; [contradiction|].
    unfold CPGGAN.train, mbind, mret. simpl. unfold mbind at 1.
    rewrite train_batch_zero_division by assumption. reflexivity.
Qed.

Lemma can_level_false (s : model) :
  can_level s = false <-> stabilization_phase s = false /\ images_per_fading_phase s = 0.
Proof.
  unfold can_level. destruct (stabilization_phase s); simpl.
  - split; [discriminate|intros [H _]; discriminate].
  - destruct (Z.eqb_spec (images_per_fading_phase s) 0); simpl; split; auto.
    + discriminate.
    + intros [_ H]. contradiction.
Qed.

(** X14. On an empty loader [train] raises: with [validate=False], after
    the resolution was scheduled, [ZeroDivisionError] (the summed losses
    are divided by zero iterations); with [validate=True],
    [UnboundLocalError] ([G_fake] was never assigned). No network is
    called in either case. *)
Theorem train_empty_loader (s0 : model) (t : list (event Vec Img GP DP))
    (loader_arg : list (Img * Vec)) (batch_size_arg : Z) :
  (get_train_data_loader (schedule_resolution s0) = [] ->
   train loader_arg batch_size_arg false {| self := s0; trace := t |}
   = ({| self := schedule_resolution s0; trace := t |}, Raise ZeroDivisionError))
  /\ train [] batch_size_arg true {| self := s0; trace := t |}
     = ({| self := s0; trace := t |}, Raise UnboundLocalError).
Proof. apply train_empty. Qed.

(** X15. In a fading phase with [images_per_fading_phase = 0] the first
    batch raises [ZeroDivisionError] before any network is called, in
    training (where the phase is the one [schedule_resolution] set) and in
    validation. *)
Theorem zero_fading_phase_raises (s0 : model) (t : list (event Vec Img GP DP))
    (loader_arg : list (Img * Vec)) (batch_size_arg : Z) :
  (stabilization_phase (schedule_resolution s0) = false ->
   images_per_fading_phase (schedule_resolution s0) = 0 ->
   get_train_data_loader (schedule_resolution s0) <> [] ->
   train loader_arg batch_size_arg false {| self := s0; trace := t |}
   = ({| self := schedule_resolution s0; trace := t |}, Raise ZeroDivisionError))
  /\ (stabilization_phase s0 = false -> images_per_fading_phase s0 = 0 ->
      loader_arg <> [] ->
      train loader_arg batch_size_arg true {| self := s0; trace := t |}
      = ({| self := s0; trace := t |}, Raise ZeroDivisionError)).
Proof.
  destruct (train_zero_division s0 t loader_arg batch_size_arg) as [H1 H2].
  split; intros Hs Hi Hne; [apply H1|apply H2]; try assumption;
    apply can_level_false; split; assumption.
Qed.

(** *** What a training call reports *)

(** The value [f] of every iteration of a training loop. *)
Fixpoint loop_values (f : model -> Img * Vec -> Q) (s : model) (loader : list (Img * Vec))
  : list Q :=
  match loader with
  | [] => []
  | b :: rest => f s b :: loop_values f (batch_self s b) rest
  end.

Lemma loop_values_length (f : model -> Img * Vec -> Q) (loader : list (Img * Vec)) :
  forall s, length (loop_values f s loader) = length loader.
Proof. induction loader as [|b rest IH]; intros s; simpl; [|rewrite IH]; reflexivity. Qed.

Lemma loop_locals_sums (loader : list (Img * Vec)) : forall (s : model) (acc : locals Img),
  (d_loss_summed (loop_locals s loader acc)
   == d_loss_summed acc + Qsum (loop_values b_D_loss s loader))%Q
  /\ (wasserstein_d_summed (loop_locals s loader acc)
      == wasserstein_d_summed acc + Qsum (loop_values b_Wasserstein_D s loader))%Q
  /\ (eps_summed (loop_locals s loader acc)
      == eps_summed acc + Qsum (loop_values b_eps_loss s loader))%Q.
Proof.
  induction loader as [|b rest IH]; intros s acc; simpl.
  - repeat split; ring.
  - destruct (IH (batch_self s b) (batch_locals s b acc)) as (H1 & H2 & H3).
    rewrite H1, H2, H3. simpl. repeat split; ring.
Qed.

Lemma loop_locals_last (init : list (Img * Vec)) (b : Img * Vec) :
  forall (s : model) (acc : locals Img),
    cur_level (loop_locals s (init ++ [b]) acc) = Some (level_of (loop_self s init))
    /\ G_fake (loop_locals s (init ++ [b]) acc) = Some (b_G_fake (loop_self s init) b).
Proof.
  induction init as [|b' rest IH]; intros s acc; simpl; [split; reflexivity|apply IH].
Qed.

Lemma train_reports (s0 : model) (t : list (event Vec Img GP DP))
    (loader_arg init : list (Img * Vec)) (b_last : Img * Vec) (batch_size_arg : Z) :
  let s := schedule_resolution s0 in
  let loader := init ++ [b_last] in
  let s_last := loop_self s init in
  can_level s = true ->
  get_train_data_loader s = loader ->
  exists lossG lossD w e,
    snd (train loader_arg batch_size_arg false {| self := s0; trace := t |})
    = Ok ([("loss"%string, LDict [("lossG"%string, lossG); ("lossD"%string, lossD)]);
           ("info/WassersteinDistance"%string, LNum w);
           ("info/eps"%string, LNum e);
           ("info/curr_level"%string, LNum (level_of s_last))],
          b_G_fake s_last b_last)
    /\ (lossD == Qmean (loop_values b_D_loss s loader))%Q
    /\ (w == Qsum (loop_values b_Wasserstein_D s loader))%Q
    /\ (e == Qsum (loop_values b_eps_loss s loader))%Q.
Proof.
  intros s loader s_last Hlevel Hloader.
  assert (Hne : get_train_data_loader s <> []).
  { rewrite Hloader. unfold loader. destruct init; discriminate. }
  destruct (train_training Vec Img GP DP GO DO fl cat_vec cat_img slice fill noise G_forward
              D_forward calculate_gradient_penalty D_step G_step schedule_resolution
              get_train_data_loader s0 t loader_arg batch_size_arg Hlevel Hne)
    as (level & img & Hl & Hi & Hrun).
  fold s in Hl, Hi, Hrun. rewrite Hloader in Hl, Hi, Hrun.
  destruct (loop_locals_last init b_last s (initial_locals Img)) as [Hl' Hi'].
  fold loader s_last in Hl', Hi'. rewrite Hl' in Hl. rewrite Hi' in Hi.
  injection Hl as <-. injection Hi as <-.
  rewrite Hrun. unfold training_log_info. cbn [snd].
  eexists _, _, _, _. split; [reflexivity|].
  destruct (loop_locals_sums loader s (initial_locals Img)) as (H1 & H2 & H3).
  split; [|split].
  - unfold Qmean. rewrite loop_locals_iterations, H1, loop_values_length. simpl.
    rewrite Qplus_0_l. reflexivity.
  - rewrite H2. simpl. ring.
  - rewrite H3. simpl. ring.
Qed.

(** X16. What a training call on a loader with last batch [b_last]
    returns: [lossD] is the mean over the batches of the reported
    discriminator loss, while [info/WassersteinDistance] and [info/eps] are
    sums over the batches, not means; [info/curr_level] is the level of the
    last batch; the returned image is the generator output on the last
    batch, computed before the generator step of that batch. *)
Theorem reported_losses (s0 : model) (t : list (event Vec Img GP DP))
    (loader_arg init : list (Img * Vec)) (b_last : Img * Vec) (batch_size_arg : Z) :
  let s := schedule_resolution s0 in
  let loader := init ++ [b_last] in
  let s_last := loop_self s init in
  can_level s = true ->
  get_train_data_loader s = loader ->
  exists lossG lossD w e,
    snd (train loader_arg batch_size_arg false {| self := s0; trace := t |})
    = Ok ([("loss"%string, LDict [("lossG"%string, lossG); ("lossD"%string, lossD)]);
           ("info/WassersteinDistance"%string, LNum w);
           ("info/eps"%string, LNum e);
           ("info/curr_level"%string, LNum (level_of s_last))],
          b_G_fake s_last b_last)
    /\ (lossD == Qmean (loop_values b_D_loss s loader))%Q
    /\ (w == Qsum (loop_values b_Wasserstein_D s loader))%Q
    /\ (e == Qsum (loop_values b_eps_loss s loader))%Q.
Proof. apply train_reports. Qed.

(** *** What a training loop leaves unchanged *)

Definition is_generator_loss (t : loss_term Vec Img GP DP) : bool :=
  match t with LossGenerator _ _ _ _ _ _ _ _ _ _ => true | _ => false end.

(** A discriminator step consumes three terms, none of them the generator
    loss; a generator step consumes the generator loss alone. *)
Definition step_ok (ev : event Vec Img GP DP) : bool :=
  match ev with
  | D_optimizer_step _ _ _ _ grad =>
      Nat.eqb (length grad) 3 && forallb (fun t => negb (is_generator_loss t)) grad
  | G_optimizer_step _ _ _ _ grad =>
      Nat.eqb (length grad) 1 && forallb is_generator_loss grad
  | _ => true
  end.

Lemma batch_self_frame (s : model) (b : Img * Vec) :
  static_noise (batch_self s b) = static_noise s
  /\ static_landmarks (batch_self s b) = static_landmarks s
  /\ static_lowres (batch_self s b) = static_lowres s
  /\ D_training (batch_self s b) = false
  /\ G_grad (batch_self s b) = [b_loss_generator s b]
  /\ D_grad (batch_self s b) = b_D_grad s b ++ [b_loss_generator s b].
Proof.
  unfold CPGGAN.batch_self. destruct (stabilization_phase s); simpl; repeat split.
Qed.

Lemma loop_self_frame (loader : list (Img * Vec)) : forall s : model,
  stabilization_phase (loop_self s loader) = stabilization_phase s
  /\ resolution_level (loop_self s loader) = resolution_level s
  /\ images_per_fading_phase (loop_self s loader) = images_per_fading_phase s
  /\ batch_size (loop_self s loader) = batch_size s
  /\ static_noise (loop_self s loader) = static_noise s
  /\ static_landmarks (loop_self s loader) = static_landmarks s
  /\ static_lowres (loop_self s loader) = static_lowres s
  /\ noise_draws (loop_self s loader) = (noise_draws s + length loader)%nat.
Proof.
  induction loader as [|b rest IH]; intros s.
  - simpl. rewrite Nat.add_0_r. repeat split.
  - cbn [CPGGAN.loop_self].
    destruct (IH (batch_self s b)) as (H1 & H2 & H3 & H4 & H5 & H6 & H7 & H8).
    destruct (batch_self_schedule Vec Img GP DP GO DO fl cat_vec cat_img fill noise G_forward
                D_step G_step s b) as (B1 & B2 & B3 & B4 & _ & B6).
    destruct (batch_self_frame s b) as (F1 & F2 & F3 & _).
    rewrite H1, H2, H3, H4, H5, H6, H7, H8, B1, B2, B3, B4, B6, F1, F2, F3.
    repeat split. simpl. lia.
Qed.

Lemma loop_self_last (init : list (Img * Vec)) (b : Img * Vec) : forall s : model,
  loop_self s (init ++ [b]) = batch_self (loop_self s init) b.
Proof. induction init as [|b' rest IH]; intros s; simpl; [reflexivity|apply IH]. Qed.

Lemma loop_events_steps (loader : list (Img * Vec)) : forall s : model,
  forallb step_ok (loop_events s loader) = true.
Proof.
  induction loader as [|b rest IH]; intros s; [reflexivity|].
  cbn [CPGGAN.loop_events]. rewrite forallb_app, IH. reflexivity.
Qed.

Lemma train_loop_frame (s : model) (t : list (event Vec Img GP DP)) (acc : locals Img)
    (loader : list (Img * Vec)) :
  can_level s = true ->
  let r := fst (train_loop false loader acc {| self := s; trace := t |}) in
  (stabilization_phase (self r) = stabilization_phase s
   /\ resolution_level (self r) = resolution_level s
   /\ images_per_fading_phase (self r) = images_per_fading_phase s
   /\ batch_size (self r) = batch_size s
   /\ static_noise (self r) = static_noise s
   /\ static_landmarks (self r) = static_landmarks s
   /\ static_lowres (self r) = static_lowres s
   /\ noise_draws (self r) = (noise_draws s + length loader)%nat)
  /\ (exists events, trace r = t ++ events /\ forallb step_ok events = true)
  /\ forall init b, loader = init ++ [b] ->
      D_training (self r) = false
      /\ exists g, is_generator_loss g = true
                   /\ G_grad (self r) = [g]
                   /\ D_grad (self r) = b_D_grad (loop_self s init) b ++ [g].
Proof.
  intros Hlevel r.
  assert (Hr : r = {| self := loop_self s loader; trace := t ++ loop_events s loader |}).
  { unfold r. rewrite train_loop_training by assumption. reflexivity. }
  rewrite Hr. cbn [self trace]. split; [apply loop_self_frame|]. split.
  - exists (loop_events s loader). split; [reflexivity|apply loop_events_steps].
  - intros init b ->. rewrite loop_self_last.
    destruct (batch_self_frame (loop_self s init) b) as (_ & _ & _ & F4 & F5 & F6).
    split; [exact F4|]. exists (b_loss_generator (loop_self s init) b).
    split; [reflexivity|]. split; [exact F5|exact F6].
Qed.

(** X17. A training loop on a state whose level is defined leaves the
    phase, the resolution level, the number of images per fading phase,
    the batch size and the three static tensors of [self] as they were,
    and draws noise once per batch. Every discriminator step of the loop
    consumes exactly three loss terms, none of them the generator loss,
    and every generator step the generator loss alone. After a non-empty
    loop the discriminator is in evaluation mode and its gradient buffer
    still holds the three terms of the last batch followed by the
    gradient of the last generator loss. *)
Theorem training_loop_frame (s : model) (t : list (event Vec Img GP DP)) (acc : locals Img)
    (loader : list (Img * Vec)) :
  can_level s = true ->
  let r := fst (train_loop false loader acc {| self := s; trace := t |}) in
  (stabilization_phase (self r) = stabilization_phase s
   /\ resolution_level (self r) = resolution_level s
   /\ images_per_fading_phase (self r) = images_per_fading_phase s
   /\ batch_size (self r) = batch_size s
   /\ static_noise (self r) = static_noise s
   /\ static_landmarks (self r) = static_landmarks s
   /\ static_lowres (self r) = static_lowres s
   /\ noise_draws (self r) = (noise_draws s + length loader)%nat)
  /\ (exists events, trace r = t ++ events /\ forallb step_ok events = true)
  /\ forall init b, loader = init ++ [b] ->
      D_training (self r) = false
      /\ exists g, is_generator_loss g = true
                   /\ G_grad (self r) = [g]
                   /\ D_grad (self r) = b_D_grad (loop_self s init) b ++ [g].
Proof. apply train_loop_frame. Qed.

End Model.

(** *** Concrete runs on the instance of [CPGGAN] *)

(** A fading phase over zero images. *)
Definition zero_phase : CPGGAN (list Q) (list Q) Q Q nat nat :=
  demo_state false 3 0 0 64 0%Q 1%Q.

Example zero_phase_validation_trace :
  trace (fst (demo_train [demo_batch] true (start zero_phase))) = [].
Proof. vm_compute. reflexivity. Qed.

Lemma train_empty_loader_witness :
  demo_train [] false (start stabilizing) = (start stabilizing, Raise ZeroDivisionError)
  /\ demo_train [] true (start stabilizing) = (start stabilizing, Raise UnboundLocalError).
Proof.
  destruct (train_empty_loader (list Q) (list Q) Q Q nat nat exact_arithmetic app app demo_slice demo_fill
              demo_noise demo_G demo_D demo_penalty demo_step demo_step
              (fun s => s) (fun _ => []) stabilizing [] [] 1) as [H1 H2].
  split; [exact (H1 eq_refl)|exact H2].
Defined.

Lemma zero_fading_phase_raises_witness :
  demo_train [demo_batch] false (start zero_phase)
  = (start zero_phase, Raise ZeroDivisionError)
  /\ demo_train [demo_batch] true (start zero_phase)
     = (start zero_phase, Raise ZeroDivisionError).
Proof.
  assert (Hne : [demo_batch] <> []) by discriminate.
  destruct (zero_fading_phase_raises (list Q) (list Q) Q Q nat nat exact_arithmetic app app demo_slice
              demo_fill demo_noise demo_G demo_D demo_penalty demo_step demo_step
              (fun s => s) (fun _ => [demo_batch]) zero_phase [] [demo_batch] 1)
    as [H1 H2].
  split; [exact (H1 eq_refl eq_refl Hne)|exact (H2 eq_refl eq_refl Hne)].
Defined.

Lemma reported_losses_witness :
  can_level stabilizing = true
  /\ exists lossG lossD w e level img,
      snd (demo_train [demo_batch; demo_batch] false (start stabilizing))
      = Ok ([("loss"%string, LDict [("lossG"%string, lossG); ("lossD"%string, lossD)]);
             ("info/WassersteinDistance"%string, LNum w);
             ("info/eps"%string, LNum e);
             ("info/curr_level"%string, LNum level)], img).
Proof.
  assert (H : can_level stabilizing = true) by reflexivity.
  split; [exact H|].
  destruct (reported_losses (list Q) (list Q) Q Q nat nat exact_arithmetic app app demo_slice demo_fill
              demo_noise demo_G demo_D demo_penalty demo_step demo_step
              (fun s => s) (fun _ => [demo_batch; demo_batch])
              stabilizing [] [demo_batch; demo_batch] [demo_batch] demo_batch 1 H eq_refl)
    as (lossG & lossD & w & e & Hrun & _).
  exists lossG, lossD, w, e. eexists _, _. exact Hrun.
Defined.

Lemma training_loop_frame_witness :
  can_level fading = true
  /\ let r := fst (demo_train_loop false [demo_batch; demo_batch] (start fading)) in
     batch_size (self r) = 64 /\ noise_draws (self r) = 2%nat
     /\ D_training (self r) = false.
Proof.
  assert (H : can_level fading = true) by reflexivity.
  split; [exact H|].
  destruct (training_loop_frame (list Q) (list Q) Q Q nat nat exact_arithmetic app app demo_slice demo_fill
              demo_noise demo_G demo_D demo_penalty demo_step demo_step
              fading [] (initial_locals (list Q)) [demo_batch; demo_batch] H)
    as ((_ & _ & _ & Hbs & _ & _ & _ & Hn) & _ & Hlast).
  destruct (Hlast [demo_batch] demo_batch eq_refl) as [Hd _].
  split; [exact Hbs|split; [exact Hn|exact Hd]].
Defined.

End CPGGANProperties.

(** ** Models/ModelUtils/ModelUtils.py: the blocks of convolutions *)

Module Blocks.

(** The arguments handed to [nn.Conv2d]. *)
Record Conv2d : Set := {
  in_channels : Z;
  out_channels : Z;
  kernel_size : Z;
  stride : Z;
  padding : Z
}.

(** [ConvBlock(in_channels, out_channels, kernel_size=5, stride=2)]: the
    convolution it builds (followed by a LeakyReLU). *)
Definition ConvBlock (c_in c_out : Z) (kernel stride : Z) : Conv2d :=
  {| in_channels := c_in;
     out_channels := c_out;
     kernel_size := kernel;
     stride := stride;
     padding := (kernel - 1) / 2 |}.

(** [UpscaleBlock(in_channels, out_channels, kernel_size=3, stride=1)]:
    its convolution and the factor of its [nn.PixelShuffle]. *)
Record Upscale : Set := { conv : Conv2d; pixel_shuffle : Z }.

Definition UpscaleBlock (c_in c_out : Z) (kernel stride : Z) : Upscale :=
  {| conv := {| in_channels := c_in;
                out_channels := c_out * 4;
                kernel_size := kernel;
                stride := stride;
                padding := (kernel - 1) / 2 |};
     pixel_shuffle := 2 |}.

(** [range(start, stop)] *)
Definition range (start stop : Z) : list Z := seqZ start (stop - start).

(** [ConvBlockBlock(channels_in, num_channels_first_layer=128, depth=4)]:
    the blocks handed to [nn.Sequential]. *)
Definition ConvBlockBlock (channels_in num_channels_first_layer depth : Z) : list Conv2d :=
  fold_left (fun block_list i =>
               block_list ++ [ConvBlock (num_channels_first_layer * 2 ^ (i - 1))
                                        (num_channels_first_layer * 2 ^ i) 5 2])
            (range 1 depth)
            [ConvBlock channels_in num_channels_first_layer 5 2].

(** [UpscaleBlockBlock(channels_in, num_channels_first_layer=256, depth=3)] *)
Definition UpscaleBlockBlock (channels_in num_channels_first_layer depth : Z)
  : list Upscale :=
  fold_left (fun block_list i =>
               block_list ++ [UpscaleBlock (num_channels_first_layer / 2 ^ (i - 1))
                                           (num_channels_first_layer / 2 ^ i) 3 1])
            (range 1 depth)
            [UpscaleBlock channels_in num_channels_first_layer 3 1].

Lemma fold_append {A B} (f : B -> A) (xs : list B) : forall init : list A,
  fold_left (fun l i => l ++ [f i]) xs init = init ++ (f <$> xs).
Proof.
  induction xs as [|x xs IH]; intros init; simpl; [rewrite app_nil_r; reflexivity|].
  rewrite IH, <- app_assoc. reflexivity.
Qed.

Lemma lookup_blocks {A} (f : Z -> A) (first : A) (depth : Z) (i : nat) (c : A) :
  (first :: (f <$> range 1 depth)) !! i = Some c ->
  match i with
  | O => c = first
  | S k => c = f (Z.of_nat (S k)) /\ Z.of_nat (S k) < depth
  end.
Proof.
  destruct i as [|k]; simpl.
  - intros [= <-]. reflexivity.
  - rewrite list_lookup_fmap. intros H. apply fmap_Some in H as (x & Hx & ->).
    unfold range in Hx. apply lookup_seqZ in Hx as [-> Hk].
    replace (1 + Z.of_nat k) with (Z.pos (Pos.of_succ_nat k)) by lia. split; [reflexivity|lia].
Qed.

Lemma blocks_length {A} (f : Z -> A) (first : A) (depth : Z) :
  length (first :: (f <$> range 1 depth)) = Z.to_nat (Z.max 1 depth).
Proof. simpl. rewrite length_fmap. unfold range. rewrite length_seqZ. lia. Qed.

Lemma conv_blocks (channels_in n depth : Z) :
  let blocks := ConvBlockBlock channels_in n depth in
  length blocks = Z.to_nat (Z.max 1 depth)
  /\ (forall i c, blocks !! i = Some c ->
        in_channels c = match i with
                        | O => channels_in
                        | S k => n * 2 ^ Z.of_nat k
                        end
        /\ out_channels c = n * 2 ^ Z.of_nat i
        /\ kernel_size c = 5 /\ stride c = 2 /\ padding c = 2)
  /\ (forall i c c', blocks !! i = Some c -> blocks !! S i = Some c' ->
        in_channels c' = out_channels c).
Proof.
  intros blocks.
  assert (Hblocks : blocks = ConvBlock channels_in n 5 2
                             :: ((fun i => ConvBlock (n * 2 ^ (i - 1)) (n * 2 ^ i) 5 2)
                                   <$> range 1 depth)).
  { unfold blocks, ConvBlockBlock. rewrite fold_append. reflexivity. }
  assert (Hshape : forall i c, blocks !! i = Some c ->
            in_channels c = match i with
                            | O => channels_in
                            | S k => n * 2 ^ Z.of_nat k
                            end
            /\ out_channels c = n * 2 ^ Z.of_nat i
            /\ kernel_size c = 5 /\ stride c = 2 /\ padding c = 2).
  { intros i c Hc. rewrite Hblocks in Hc. apply lookup_blocks in Hc.
    destruct i as [|k].
    - subst c. cbn [ConvBlock in_channels out_channels kernel_size stride padding].
      rewrite Z.pow_0_r, Z.mul_1_r. repeat split; reflexivity.
    - destruct Hc as [-> _].
      cbn [ConvBlock in_channels out_channels kernel_size stride padding].
      replace (Z.of_nat (S k) - 1) with (Z.of_nat k) by lia. repeat split; reflexivity. }
  split; [rewrite Hblocks; apply blocks_length|]. split; [exact Hshape|].
  intros i c c' Hc Hc'.
  destruct (Hshape i c Hc) as (_ & -> & _).
  destruct (Hshape (S i) c' Hc') as (-> & _). reflexivity.
Qed.

Lemma upscale_blocks (channels_in n depth : Z) :
  let blocks := UpscaleBlockBlock channels_in n depth in
  length blocks = Z.to_nat (Z.max 1 depth)
  /\ (forall i c, blocks !! i = Some c ->
        in_channels (conv c) = match i with
                               | O => channels_in
                               | S k => n / 2 ^ Z.of_nat k
                               end
        /\ out_channels (conv c) = n / 2 ^ Z.of_nat i * 4
        /\ kernel_size (conv c) = 3 /\ stride (conv c) = 1 /\ padding (conv c) = 1
        /\ pixel_shuffle c = 2)
  /\ (forall i c c', blocks !! i = Some c -> blocks !! S i = Some c' ->
        out_channels (conv c) = in_channels (conv c') * 4)
  /\ (forall i c, blocks !! i = Some c -> 0 <= n ->
        (out_channels (conv c) = 0 <-> n < 2 ^ Z.of_nat i)).
Proof.
  intros blocks.
  assert (Hblocks : blocks = UpscaleBlock channels_in n 3 1
                             :: ((fun i => UpscaleBlock (n / 2 ^ (i - 1)) (n / 2 ^ i) 3 1)
                                   <$> range 1 depth)).
  { unfold blocks, UpscaleBlockBlock. rewrite fold_append. reflexivity. }
  assert (Hshape : forall i c, blocks !! i = Some c ->
            in_channels (conv c) = match i with
                                   | O => channels_in
                                   | S k => n / 2 ^ Z.of_nat k
                                   end
            /\ out_channels (conv c) = n / 2 ^ Z.of_nat i * 4
            /\ kernel_size (conv c) = 3 /\ stride (conv c) = 1 /\ padding (conv c) = 1
            /\ pixel_shuffle c = 2).
  { intros i c Hc. rewrite Hblocks in Hc. apply lookup_blocks in Hc.
    destruct i as [|k].
    - subst c.
      cbn [UpscaleBlock conv pixel_shuffle in_channels out_channels kernel_size stride
           padding].
      rewrite Z.pow_0_r, Z.div_1_r. repeat split; reflexivity.
    - destruct Hc as [-> _].
      cbn [UpscaleBlock conv pixel_shuffle in_channels out_channels kernel_size stride
           padding].
      replace (Z.of_nat (S k) - 1) with (Z.of_nat k) by lia. repeat split; reflexivity. }
  split; [rewrite Hblocks; apply blocks_length|]. split; [exact Hshape|]. split.
  - intros i c c' Hc Hc'.
    destruct (Hshape i c Hc) as (_ & -> & _).
    destruct (Hshape (S i) c' Hc') as (-> & _). reflexivity.
  - intros i c Hc Hn. destruct (Hshape i c Hc) as (_ & -> & _).
    assert (Hpow : 0 < 2 ^ Z.of_nat i) by (apply Z.pow_pos_nonneg; lia).
    split.
    + intros H. assert (Hq : n / 2 ^ Z.of_nat i = 0) by lia.
      apply Z.div_small_iff in Hq; lia.
    + intros H. rewrite Z.div_small by lia. reflexivity.
Qed.

(** X18. [ConvBlockBlock(channels_in, n, depth)] builds [max(1, depth)]
    blocks, so one block even for [depth <= 0]; block [i] has [n * 2^i]
    output channels, kernel 5, stride 2 and padding 2; and the blocks fit
    together: each block takes as many channels as the one before it puts
    out. *)
Theorem conv_block_block_chain (channels_in n depth : Z) :
  let blocks := ConvBlockBlock channels_in n depth in
  length blocks = Z.to_nat (Z.max 1 depth)
  /\ (forall i c, blocks !! i = Some c ->
        in_channels c = match i with
                        | O => channels_in
                        | S k => n * 2 ^ Z.of_nat k
                        end
        /\ out_channels c = n * 2 ^ Z.of_nat i
        /\ kernel_size c = 5 /\ stride c = 2 /\ padding c = 2)
  /\ (forall i c c', blocks !! i = Some c -> blocks !! S i = Some c' ->
        in_channels c' = out_channels c).
Proof. apply conv_blocks. Qed.

(** X19. [UpscaleBlockBlock(channels_in, n, depth)] builds
    [max(1, depth)] blocks; the convolution of block [i] puts out four
    times [n // 2^i] channels with kernel 3, stride 1 and padding 1, and
    the next block takes a quarter of them, the channels left by the pixel
    shuffle of factor 2. For [n >= 0], block [i] has no output channel
    exactly when [n < 2^i]: the halving is a floor division. *)
Theorem upscale_block_block_chain (channels_in n depth : Z) :
  let blocks := UpscaleBlockBlock channels_in n depth in
  length blocks = Z.to_nat (Z.max 1 depth)
  /\ (forall i c, blocks !! i = Some c ->
        in_channels (conv c) = match i with
                               | O => channels_in
                               | S k => n / 2 ^ Z.of_nat k
                               end
        /\ out_channels (conv c) = n / 2 ^ Z.of_nat i * 4
        /\ kernel_size (conv c) = 3 /\ stride (conv c) = 1 /\ padding (conv c) = 1
        /\ pixel_shuffle c = 2)
  /\ (forall i c c', blocks !! i = Some c -> blocks !! S i = Some c' ->
        out_channels (conv c) = in_channels (conv c') * 4)
  /\ (forall i c, blocks !! i = Some c -> 0 <= n ->
        (out_channels (conv c) = 0 <-> n < 2 ^ Z.of_nat i)).
Proof. apply upscale_blocks. Qed.

(** The default blocks: channels 3, 128, 256, 512, 1024 downwards and
    512, 256, 128, 64 upwards. *)
Example default_blocks :
  map out_channels (ConvBlockBlock 3 128 4) = [128; 256; 512; 1024]
  /\ map (fun c => in_channels (conv c)) (UpscaleBlockBlock 512 256 3) = [512; 256; 128]
  /\ map (fun c => out_channels (conv c)) (UpscaleBlockBlock 512 256 3) = [1024; 512; 256].
Proof. vm_compute. repeat split; reflexivity. Qed.

Lemma conv_block_block_chain_witness :
  exists c c',
    ConvBlockBlock 3 128 4 !! 1%nat = Some c
    /\ ConvBlockBlock 3 128 4 !! 2%nat = Some c'
    /\ in_channels c' = out_channels c.
Proof.
  destruct (conv_block_block_chain 3 128 4) as (_ & _ & Hchain).
  exists (ConvBlock 128 256 5 2), (ConvBlock 256 512 5 2).
  split; [reflexivity|]. split; [reflexivity|].
  exact (Hchain 1%nat _ _ eq_refl eq_refl).
Defined.

Lemma upscale_block_block_chain_witness :
  exists c,
    UpscaleBlockBlock 5 3 3 !! 2%nat = Some c
    /\ out_channels (conv c) = 0.
Proof.
  destruct (upscale_block_block_chain 5 3 3) as (_ & _ & _ & Hzero).
  exists (UpscaleBlock 1 0 3 1). split; [reflexivity|].
  apply (Hzero 2%nat _ eq_refl); [lia|reflexivity].
Defined.

End Blocks.
